(** * Inboxy: mailbox triage and clean-up helpers

    A shallow embedding of the Python sources
      - [clean.py]            (listing, chunked delete and archive),
      - [inboxy/models.py]    (categories, priorities, analyses),
      - [inboxy/gmail.py]     (cached fetching, single-message mutations),
      - [inboxy/ai.py]        (classification with fallback, analysis cache),
      - [inboxy/digest.py]    (digest assembly),
      - [inboxy/cli.py]       (the delete/archive actions of [preview]),
    followed by the properties of the specification that these functions
    decide.

    Conventions.  A Python [str] is a [string]; one [ascii] stands for one
    character (code points below 256).  A function that can raise returns a
    [result]; a function that talks to the mailbox also returns the [trace]
    of remote calls, prompts and printed lines, in program order.  The
    pauses ([time.sleep]), the progress bars and the colours of the console
    output have no counterpart here. *)

From Stdlib Require Import ZArith Ascii Permutation.
From stdpp Require Import base decidable option list strings gmap pretty sorting.

Local Open Scope string_scope.
Local Open Scope list_scope.
Local Open Scope nat_scope.

(* ===================================================================== *)
(** ** Python primitives used by the sources *)
(* ===================================================================== *)

Module Py.

(** The exceptions that the modelled code can raise or catch. *)
Inductive exn : Type :=
| HttpError          (* googleapiclient.errors.HttpError *)
| IndexError         (* list index out of range *)
| ValueError         (* Enum lookup of an unknown value *)
| ValidationError    (* pydantic / instructor schema validation *)
| ProviderError.     (* timeout or transport failure of the scoring call *)

Inductive result (A : Type) : Type :=
| Ok (a : A)
| Raise (e : exn).
Arguments Ok {A} a.
Arguments Raise {A} e.

Global Instance exn_eq_dec : EqDecision exn.
Proof. solve_decision. Defined.

Global Instance result_eq_dec {A} `{EqDecision A} : EqDecision (result A).
Proof. solve_decision. Defined.

Definition bind {A B} (r : result A) (k : A → result B) : result B :=
  match r with
  | Ok a => k a
  | Raise e => Raise e
  end.

(** [[f(x) for x in l]] for an [f] that can raise. *)
Fixpoint map_result {A B} (f : A → result B) (l : list A) : result (list B) :=
  match l with
  | [] => Ok []
  | x :: l' => bind (f x) (λ y, bind (map_result f l') (λ ys, Ok (y :: ys)))
  end.

Definition is_ok {A} (r : result A) : bool :=
  match r with Ok _ => true | Raise _ => false end.

(** *** Strings *)

Definition ascii_eqb (a b : ascii) : bool := bool_decide (a = b).

(** [c in s] for a one-character [c]. *)
Fixpoint contains (c : ascii) (s : string) : bool :=
  match s with
  | EmptyString => false
  | String a s' => ascii_eqb a c || contains c s'
  end.

(** [s.split(c)] for a one-character separator: never the empty list. *)
Fixpoint split (c : ascii) (s : string) : list string :=
  match s with
  | EmptyString => [EmptyString]
  | String a s' =>
      if ascii_eqb a c then EmptyString :: split c s'
      else match split c s' with
           | [] => [String a EmptyString]
           | piece :: pieces => String a piece :: pieces
           end
  end.

(** [l[i]]: raises IndexError out of range. *)
Definition index {A} (l : list A) (i : nat) : result A :=
  match l !! i with
  | Some x => Ok x
  | None => Raise IndexError
  end.

(** [s[:n]] *)
Fixpoint prefix (n : nat) (s : string) : string :=
  match n, s with
  | S n', String a s' => String a (prefix n' s')
  | _, _ => EmptyString
  end.

(** [s.replace(c, '')] for a one-character [c]. *)
Fixpoint remove_char (c : ascii) (s : string) : string :=
  match s with
  | EmptyString => EmptyString
  | String a s' =>
      if ascii_eqb a c then remove_char c s' else String a (remove_char c s')
  end.

(** [str.isspace] on one character, for code points below 256. *)
Definition is_space (a : ascii) : bool :=
  let n := nat_of_ascii a in
  (((9 <=? n) && (n <=? 13)) || ((28 <=? n) && (n <=? 32))
   || (n =? 133) || (n =? 160))%nat.

Fixpoint lstrip (s : string) : string :=
  match s with
  | EmptyString => EmptyString
  | String a s' => if is_space a then lstrip s' else s
  end.

Fixpoint rstrip (s : string) : string :=
  match s with
  | EmptyString => EmptyString
  | String a s' =>
      match rstrip s' with
      | EmptyString => if is_space a then EmptyString else String a EmptyString
      | rest => String a rest
      end
  end.

(** [s.strip()] *)
Definition strip (s : string) : string := rstrip (lstrip s).

(** [str.lower] on one character, for code points below 256. *)
Definition lower_char (a : ascii) : ascii :=
  let n := nat_of_ascii a in
  if (((65 <=? n) && (n <=? 90))
      || ((192 <=? n) && (n <=? 222) && negb (n =? 215)))%nat
  then ascii_of_nat (n + 32) else a.

Fixpoint lower (s : string) : string :=
  match s with
  | EmptyString => EmptyString
  | String a s' => String (lower_char a) (lower s')
  end.

(** *** Lists *)

(** [l[i:j]] for [0 <= i]. *)
Definition slice {A} (l : list A) (i j : nat) : list A := take (j - i) (drop i l).

(** [range(start, stop, step)] for a positive step: its length is
    [ceil((stop - start) / step)], as in CPython. *)
Definition range (start stop step : nat) : list nat :=
  map (λ k, start + k * step) (seq 0 ((stop - start + (step - 1)) / step)).

(** [sorted(l, key=key, reverse=True)].  Python's sort is stable, and
    [reverse=True] keeps the original order of elements with equal keys.
    Modelled by a stable insertion sort; [sorted_desc_perm],
    [sorted_desc_sorted] and [sorted_desc_stable] below show that it is the
    stable descending sort. *)
Fixpoint insert_desc {A} (key : A → Z) (x : A) (l : list A) : list A :=
  match l with
  | [] => [x]
  | y :: l' =>
      if (key x <? key y)%Z then y :: insert_desc key x l' else x :: y :: l'
  end.

Fixpoint sorted_desc {A} (key : A → Z) (l : list A) : list A :=
  match l with
  | [] => []
  | x :: l' => insert_desc key x (sorted_desc key l')
  end.

End Py.

Export Py(exn(..), result(..)).

(* ===================================================================== *)
(** ** The remote mailbox, as the programs see it *)
(* ===================================================================== *)

Module Mailbox.

Definition MessageRef : Type := string.

(** What [messages().list(...).execute()] answers, page after page: the call
    raises HttpError, or returns a page of message identifiers without a
    [nextPageToken], or returns a page with a token under which the rest of
    the listing is served. *)
Inductive Listing : Type :=
| ListFails
| LastPage (messages : list MessageRef)
| MorePages (messages : list MessageRef) (next : Listing).

Record Label : Type := {
  label_name : string;
  label_id : string;
  messagesTotal : nat;
  messagesUnread : nat
}.

(** The remote calls issued by the programs. *)
Inductive Call : Type :=
| MessagesList (q : string) (page : nat)
| MessagesGet (id : MessageRef)
| MessagesDelete (id : MessageRef)
| MessagesModify (id : MessageRef) (removeLabelIds : list string)
| BatchDelete (ids : list MessageRef)
| BatchModify (ids : list MessageRef)
    (removeLabelIds : list (option string)) (addLabelIds : list string)
| LabelsList.

(** Calls that change the mailbox. *)
Definition is_mutation (c : Call) : bool :=
  match c with
  | MessagesDelete _ | MessagesModify _ _ | BatchDelete _ | BatchModify _ _ _ => true
  | MessagesList _ _ | MessagesGet _ | LabelsList => false
  end.

Definition is_batch (c : Call) : bool :=
  match c with
  | BatchDelete _ | BatchModify _ _ _ => true
  | _ => false
  end.

(** The number of identifiers carried by a batch call. *)
Definition batch_size (c : Call) : nat :=
  match c with
  | BatchDelete ids | BatchModify ids _ _ => length ids
  | _ => 0
  end.

(** Lines printed by the programs, with the values they interpolate. *)
Inductive Line : Type :=
| Deleting (n : nat) (query : string)
| Archiving (n : nat) (query : string)
| Aborted
| DeletedBatch (size progress total : nat)
| ArchivedBatch (size : nat)
| Done (total unread : nat)
| GmailApiError
| FailedToFetch (id : MessageRef)
| FailedToDelete (id : MessageRef)
| FailedToArchive (id : MessageRef)
| UsingCachedEmails
| WillDelete (n : nat)
| EmailsDeleted
| EmailsArchived
| AnalysisFailed.

Inductive Event : Type :=
| Remote (c : Call)
| Asked (prompt : string)
| Printed (l : Line).

Definition trace : Type := list Event.

Definition calls (t : trace) : list Call :=
  omap (λ e, match e with Remote c => Some c | _ => None end) t.

Definition mutation_calls (t : trace) : list Call := List.filter is_mutation (calls t).
Definition batch_calls (t : trace) : list Call := List.filter is_batch (calls t).

(** A computation that logs events and may raise: the events logged so far
    are kept when an exception is raised. *)
Definition M (A : Type) : Type := trace * result A.

Definition ret {A} (a : A) : M A := ([], Ok a).
Definition raise {A} (e : exn) : M A := ([], Raise e).
Definition emit (e : Event) : M unit := ([e], Ok tt).

Definition mbind {A B} (m : M A) (k : A → M B) : M B :=
  match m with
  | (t, Ok a) => let '(t', r) := k a in (t ++ t', r)
  | (t, Raise e) => (t, Raise e)
  end.

Notation "'let*' x ':=' m 'in' k" := (mbind m (λ x, k))
  (at level 10, x name, m at level 100, k at level 200).

(** [try: body except HttpError: handler] *)
Definition try_http {A} (body : M A) (handler : M A) : M A :=
  match body with
  | (t, Raise Py.HttpError) => let '(t', r) := handler in (t ++ t', r)
  | other => other
  end.

(** [try: body except Exception as e: handler] *)
Definition try_any {A} (body : M A) (handler : exn → M A) : M A :=
  match body with
  | (t, Raise e) => let '(t', r) := handler e in (t ++ t', r)
  | other => other
  end.

Definition lift {A} (r : result A) : M A := ([], r).

(** [for x in l: body], where [k] counts the iterations already done. *)
Fixpoint for_each {A} (body : nat → A → M unit) (k : nat) (l : list A) : M unit :=
  match l with
  | [] => ret tt
  | x :: rest => let* _ := body k x in for_each body (S k) rest
  end.

Definition events {A} (m : M A) : trace := fst m.
Definition outcome {A} (m : M A) : result A := snd m.

End Mailbox.

Export Mailbox(MessageRef).

Notation "'let*' x ':=' m 'in' k" := (Mailbox.mbind m (λ x, k))
  (at level 10, x name, m at level 100, k at level 200).


(* ===================================================================== *)
(** ** The vocabulary of the specification *)
(* ===================================================================== *)

Module Spec.

(** The specification's [BatchOutcome].  No function of the sources builds
    one; the bulk operations below are typed to hand back an optional outcome
    so that statements about it can be written, [None] being Python's None. *)
Record BatchOutcome : Type := {
  attempted : nat;
  succeeded : nat;
  failures : list (MessageRef * string)
}.

End Spec.

(* ===================================================================== *)
(** ** clean.py *)
(* ===================================================================== *)

Module Clean.
Import Mailbox.

(** The [service] object: what the mailbox answers during one run.
    [batch_ok k ids] tells whether the [k]-th batch call of the run (counted
    from 0), issued on [ids], succeeds; otherwise [execute()] raises
    HttpError.  [labels_list] is what the first [labels().list] call of the
    run answers and [labels_list_again] what a second one answers, [None]
    being an HttpError: [archive_by_query] lists the labels twice, before
    and after its batches, and the mailbox may answer differently. *)
Record Service : Type := {
  messages_list : string → Listing;
  batch_ok : nat → list MessageRef → bool;
  labels_list : option (list Label);
  labels_list_again : option (list Label)
}.

(** The service once its first [labels().list] call has been answered: the
    next one gets the second answer. *)
Definition after_labels (service : Service) : Service :=
  {| messages_list := messages_list service;
     batch_ok := batch_ok service;
     labels_list := labels_list_again service;
     labels_list_again := labels_list_again service |}.

(** [service.users().labels().list(userId="me").execute().get("labels", [])] *)
Definition labels_execute (service : Service) : M (list Label) :=
  let* _ := emit (Remote LabelsList) in
  match labels_list service with
  | Some labels => ret labels
  | None => raise Py.HttpError
  end.

(** [{l["name"]: l["id"] for l in labels}]: later names overwrite earlier
    ones. *)
Definition label_map_of (labels : list Label) : gmap string string :=
  foldl (λ m l, <[label_name l := label_id l]> m) ∅ labels.

Definition get_label_map (service : Service) : M (gmap string string) :=
  let* labels := labels_execute service in
  ret (label_map_of labels).

Fixpoint inbox_counts (labels : list Label) : nat * nat :=
  match labels with
  | [] => (0, 0)
  | l :: rest =>
      if String.eqb (label_name l) "INBOX"
      then (messagesTotal l, messagesUnread l)
      else inbox_counts rest
  end.

Definition inbox_stats (service : Service) : M (nat * nat) :=
  let* labels := labels_execute service in
  ret (inbox_counts labels).

(** [limit and len(ids) >= limit]: [None] and [0] are falsy. *)
Definition limit_reached (limit : option nat) (ids : list MessageRef) : bool :=
  match limit with
  | Some (S _ as lim) => (lim <=? length ids)%nat
  | _ => false
  end.

Definition truncate (limit : option nat) (ids : list MessageRef) : list MessageRef :=
  match limit with
  | Some lim => take lim ids
  | None => ids
  end.

(** The [while True] loop of [list_message_ids]: [ids] is the accumulator,
    [page] counts the calls, [listing] is what the mailbox still has to
    answer. *)
Fixpoint list_loop (q : string) (limit : option nat) (ids : list MessageRef)
    (page : nat) (listing : Listing) : M (list MessageRef) :=
  let* _ := emit (Remote (MessagesList q page)) in
  match listing with
  | ListFails => raise Py.HttpError
  | LastPage msgs =>
      let ids := ids ++ msgs in
      if limit_reached limit ids then ret (truncate limit ids) else ret ids
  | MorePages msgs next =>
      let ids := ids ++ msgs in
      if limit_reached limit ids then ret (truncate limit ids)
      else list_loop q limit ids (S page) next
  end.

Definition list_message_ids (service : Service) (q : string) (limit : option nat)
  : M (list MessageRef) :=
  list_loop q limit [] 0 (messages_list service q).

(** [_chunked(iterable, n)], the list of what the generator yields.  Every
    caller passes [n = 500]. *)
Definition _chunked (iterable : list MessageRef) (n : nat) : list (list MessageRef) :=
  map (λ i, Py.slice iterable i (i + n)) (Py.range 0 (length iterable) n).

(** [ids.index(x)] *)
Fixpoint index_of (x : MessageRef) (ids : list MessageRef) : option nat :=
  match ids with
  | [] => None
  | y :: rest => if String.eqb y x then Some 0 else S <$> index_of x rest
  end.

(** The progress figure [min(len(ids), ids.index(batch[-1])+1)]. *)
Definition progress (ids batch : list MessageRef) : M nat :=
  match last batch with
  | None => raise Py.IndexError
  | Some x =>
      match index_of x ids with
      | None => raise Py.ValueError
      | Some i => ret (min (length ids) (i + 1))
      end
  end.

Definition batchDelete (service : Service) (k : nat) (batch : list MessageRef) : M unit :=
  let* _ := emit (Remote (BatchDelete batch)) in
  if batch_ok service k batch then ret tt else raise Py.HttpError.

Definition batchModify (service : Service) (k : nat) (batch : list MessageRef)
    (removeLabelIds : list (option string)) (addLabelIds : list string) : M unit :=
  let* _ := emit (Remote (BatchModify batch removeLabelIds addLabelIds)) in
  if batch_ok service k batch then ret tt else raise Py.HttpError.

(** The body of [for batch in _chunked(ids, 500)] in [delete_by_query]; [k]
    is the number of batches already sent. *)
Definition delete_batch (service : Service) (ids : list MessageRef) (k : nat)
    (batch : list MessageRef) : M unit :=
  let* _ := batchDelete service k batch in
  let* p := progress ids batch in
  emit (Printed (DeletedBatch (length batch) p (length ids))).

Definition delete_prompt : string :=
  "Type 'yes' to permanently delete (bypasses Trash): ".
Definition archive_prompt : string :=
  "Type 'yes' to archive (remove from INBOX): ".

(** [delete_by_query(service, query)]; [answer] is what [input] returns when
    the prompt is shown. *)
Definition delete_by_query (service : Service) (query : string) (answer : string)
  : M (option Spec.BatchOutcome) :=
  let* ids := list_message_ids service query None in
  let* _ := emit (Printed (Deleting (length ids) query)) in
  if bool_decide (ids = []) then ret None else
  let* _ := emit (Asked delete_prompt) in
  let confirm := Py.lower (Py.strip answer) in
  if negb (String.eqb confirm "yes") then
    let* _ := emit (Printed Aborted) in ret None
  else
    let* _ := for_each (delete_batch service ids) 0 (_chunked ids 500) in
    let* tu := inbox_stats service in
    let* _ := emit (Printed (Done (fst tu) (snd tu))) in
    ret None.

(** The body of [for batch in _chunked(ids, 500)] in [archive_by_query]. *)
Definition archive_batch (service : Service) (inbox_id : option string) (k : nat)
    (batch : list MessageRef) : M unit :=
  let* _ := batchModify service k batch [inbox_id] [] in
  emit (Printed (ArchivedBatch (length batch))).

Definition archive_by_query (service : Service) (query : string) (answer : string)
  : M (option Spec.BatchOutcome) :=
  let* ids := list_message_ids service query None in
  let* _ := emit (Printed (Archiving (length ids) query)) in
  if bool_decide (ids = []) then ret None else
  let* _ := emit (Asked archive_prompt) in
  let confirm := Py.lower (Py.strip answer) in
  if negb (String.eqb confirm "yes") then
    let* _ := emit (Printed Aborted) in ret None
  else
    let* label_map := get_label_map service in
    let inbox_id := label_map !! "INBOX" in
    let* _ := for_each (archive_batch service inbox_id) 0 (_chunked ids 500) in
    let* tu := inbox_stats (after_labels service) in
    let* _ := emit (Printed (Done (fst tu) (snd tu))) in
    ret None.

End Clean.

(* ===================================================================== *)
(** ** inboxy/models.py *)
(* ===================================================================== *)

Module Models.

Inductive EmailCategory : Type :=
| ACTION_REQUIRED
| FYI_REVIEW
| CALENDAR_EVENT
| NEWSLETTER
| PROMOTION
| SOCIAL
| AUTO_DELETE
| IMPORTANT.

Global Instance EmailCategory_eq_dec : EqDecision EmailCategory.
Proof. solve_decision. Defined.

(** The members, in definition order. *)
Definition EmailCategory_members : list EmailCategory :=
  [ACTION_REQUIRED; FYI_REVIEW; CALENDAR_EVENT; NEWSLETTER;
   PROMOTION; SOCIAL; AUTO_DELETE; IMPORTANT].

Definition category_value (c : EmailCategory) : string :=
  match c with
  | ACTION_REQUIRED => "action_required"
  | FYI_REVIEW => "fyi_review"
  | CALENDAR_EVENT => "calendar_event"
  | NEWSLETTER => "newsletter"
  | PROMOTION => "promotion"
  | SOCIAL => "social"
  | AUTO_DELETE => "auto_delete"
  | IMPORTANT => "important"
  end.

(** [EmailCategory(value)]: lookup by value, ValueError when no member has
    it. *)
Definition EmailCategory_of (value : string) : result EmailCategory :=
  match List.find (λ c, String.eqb (category_value c) value) EmailCategory_members with
  | Some c => Ok c
  | None => Raise Py.ValueError
  end.

Inductive Priority : Type :=
| URGENT
| HIGH
| MEDIUM
| LOW
| NONE.

Global Instance Priority_eq_dec : EqDecision Priority.
Proof. solve_decision. Defined.

Definition Priority_members : list Priority := [URGENT; HIGH; MEDIUM; LOW; NONE].

Definition priority_value (p : Priority) : Z :=
  match p with
  | URGENT => 5
  | HIGH => 4
  | MEDIUM => 3
  | LOW => 2
  | NONE => 1
  end.

(** [Priority(value)] *)
Definition Priority_of (value : Z) : result Priority :=
  match List.find (λ p, (priority_value p =? value)%Z) Priority_members with
  | Some p => Ok p
  | None => Raise Py.ValueError
  end.

Record CalendarEvent : Type := {
  ev_title : string;
  ev_date : option string;
  ev_time : option string;
  ev_location : option string
}.

(** The fields of [EmailAnalysisResponse].  A value of this record is what
    is passed to the pydantic constructor; [EmailAnalysisResponse_new] is the
    constructor with its validation. *)
Record EmailAnalysisResponse : Type := {
  category : string;
  priority : Z;
  summary : string;
  action_needed : option string;
  suggested_response : option string;
  calendar_event : option CalendarEvent;
  key_points : list string;
  sentiment : string
}.

(** [priority: int = Field(..., ge=1, le=5)]; [category] is any [str]. *)
Definition EmailAnalysisResponse_new (fields : EmailAnalysisResponse)
  : result EmailAnalysisResponse :=
  if ((1 <=? priority fields) && (priority fields <=? 5))%Z
  then Ok fields else Raise Py.ValidationError.

(** An [EmailAnalysis] object.  The attributes [is_thread] and
    [thread_position] are constants ([False], [None]) and are left out. *)
Record EmailAnalysis : Type := {
  a_message_id : MessageRef;
  a_subject : string;
  a_sender : string;
  a_date : string;
  a_category : EmailCategory;
  a_priority : Priority;
  a_summary : string;
  a_action_needed : option string;
  a_suggested_response : option string;
  a_calendar_event : option CalendarEvent;
  a_key_points : list string;
  a_sentiment : string
}.

(** [headers.get(name, default)] *)
Definition headers_get (headers : gmap string string) (name fallback : string) : string :=
  default fallback (headers !! name).

(** [EmailAnalysis.__init__(self, message_id, headers, response)] *)
Definition EmailAnalysis_new (message_id : MessageRef) (headers : gmap string string)
    (response : EmailAnalysisResponse) : result EmailAnalysis :=
  Py.bind (EmailCategory_of (category response)) (λ c,
  Py.bind (Priority_of (priority response)) (λ p,
  Ok {| a_message_id := message_id;
        a_subject := headers_get headers "subject" "No subject";
        a_sender := headers_get headers "from" "Unknown";
        a_date := headers_get headers "date" "Unknown";
        a_category := c;
        a_priority := p;
        a_summary := summary response;
        a_action_needed := action_needed response;
        a_suggested_response := suggested_response response;
        a_calendar_event := calendar_event response;
        a_key_points := key_points response;
        a_sentiment := sentiment response |})).

(** The dict written by [to_dict], with its twelve keys, and read by
    [from_dict].  A dict that lacks one of the optional keys, for which
    [from_dict] takes a default, is not a value of this type. *)
Record AnalysisDict : Type := {
  d_message_id : MessageRef;
  d_subject : string;
  d_sender : string;
  d_date : string;
  d_category : string;
  d_priority : Z;
  d_summary : string;
  d_action_needed : option string;
  d_suggested_response : option string;
  d_calendar_event : option CalendarEvent;
  d_key_points : list string;
  d_sentiment : string
}.

Definition to_dict (self : EmailAnalysis) : AnalysisDict :=
  {| d_message_id := a_message_id self;
     d_subject := a_subject self;
     d_sender := a_sender self;
     d_date := a_date self;
     d_category := category_value (a_category self);
     d_priority := priority_value (a_priority self);
     d_summary := a_summary self;
     d_action_needed := a_action_needed self;
     d_suggested_response := a_suggested_response self;
     d_calendar_event := a_calendar_event self;
     d_key_points := a_key_points self;
     d_sentiment := a_sentiment self |}.

Definition from_dict (data : AnalysisDict) : result EmailAnalysis :=
  Py.bind (EmailAnalysisResponse_new
             {| category := d_category data;
                priority := d_priority data;
                summary := d_summary data;
                action_needed := d_action_needed data;
                suggested_response := d_suggested_response data;
                calendar_event := d_calendar_event data;
                key_points := d_key_points data;
                sentiment := d_sentiment data |}) (λ response,
  EmailAnalysis_new (d_message_id data)
    (<["date" := d_date data]> (<["from" := d_sender data]>
       (<["subject" := d_subject data]> ∅)))
    response).

End Models.

(* ===================================================================== *)
(** ** The [.cache] directory *)
(* ===================================================================== *)

Module Cache.

(** A cache file: its JSON content, read back as the value that was dumped,
    and its modification time.  Clock readings and modification times are
    integers in one fixed unit on one clock; the float arithmetic of the
    sources is not modelled. *)
Record File (Payload : Type) : Type := {
  content : Payload;
  st_mtime : Z
}.
Arguments content {Payload} f.
Arguments st_mtime {Payload} f.

Section file_cache.
Context {Payload : Type}.

(** [with open(cache_file, 'w') as f: json.dump(data, f)] at time [now] *)
Definition write (dir : gmap string (File Payload)) (name : string) (now : Z)
    (data : Payload) : gmap string (File Payload) :=
  <[name := {| content := data; st_mtime := now |}]> dir.

(** The common body of [_get_cached_emails] and [_get_cached_analyses]:
    [if cache_file.exists(): age = now - st_mtime; if age < ttl: load]. *)
Definition read_fresh (dir : gmap string (File Payload)) (name : string)
    (now ttl : Z) : option Payload :=
  match dir !! name with
  | Some f =>
      let age := (now - st_mtime f)%Z in
      if (age <? ttl)%Z then Some (content f) else None
  | None => None
  end.
End file_cache.

End Cache.

(* ===================================================================== *)
(** ** inboxy/gmail.py *)
(* ===================================================================== *)

Module Gmail.
Import Mailbox.

(** A full message as returned by [messages().get(format="full")]: its id,
    the header list of its payload, and the decoded text of its body
    parts. *)
Record Message : Type := {
  m_id : MessageRef;
  m_headers : list (string * string);
  m_body : string
}.

(** What the mailbox answers to this client: [None] is an HttpError. *)
Record Service : Type := {
  list_answer : string → nat → option (list MessageRef);
  get_answer : MessageRef → option Message;
  delete_ok : MessageRef → bool;
  modify_ok : MessageRef → bool
}.

Record GmailClient : Type := {
  service : Service;
  cache_dir : gmap string (Cache.File (list Message));
  cache_ttl : Z
}.

Section md5.
(** [hashlib.md5(s.encode()).hexdigest()] *)
Variable md5 : string → string.

Definition _get_cache_key (query : string) (max_results : nat) : string :=
  md5 (query +:+ "_" +:+ pretty max_results).

Definition emails_file (cache_key : string) : string :=
  "emails_" +:+ cache_key +:+ ".json".

Definition _get_cached_emails (self : GmailClient) (now : Z) (cache_key : string)
  : option (list Message) :=
  Cache.read_fresh (cache_dir self) (emails_file cache_key) now (cache_ttl self).

Definition _cache_emails (self : GmailClient) (now : Z) (cache_key : string)
    (emails : list Message) : GmailClient :=
  {| service := service self;
     cache_dir := Cache.write (cache_dir self) (emails_file cache_key) now emails;
     cache_ttl := cache_ttl self |}.

Definition list_execute (self : GmailClient) (query : string) (max_results : nat)
  : M (list MessageRef) :=
  let* _ := emit (Remote (MessagesList query 0)) in
  match list_answer (service self) query max_results with
  | Some messages => ret messages
  | None => raise Py.HttpError
  end.

Definition get_execute (self : GmailClient) (id : MessageRef) : M Message :=
  let* _ := emit (Remote (MessagesGet id)) in
  match get_answer (service self) id with
  | Some full_msg => ret full_msg
  | None => raise Py.HttpError
  end.

(** [for i, msg in enumerate(messages): try: ... except HttpError: ...] *)
Fixpoint fetch_loop (self : GmailClient) (messages : list MessageRef)
    (full_messages : list Message) : M (list Message) :=
  match messages with
  | [] => ret full_messages
  | id :: rest =>
      let* full_messages :=
        try_http
          (let* full_msg := get_execute self id in ret (full_messages ++ [full_msg]))
          (let* _ := emit (Printed (FailedToFetch id)) in ret full_messages) in
      fetch_loop self rest full_messages
  end.

(** [get_emails(self, query, max_results, use_cache)]: the clock reads
    [now] when the cache is consulted and [written_at] when the cache file
    is written.  Returns the emails and the client with its cache
    directory as the call leaves it.  The mailbox fails with HttpError only,
    and a cache file holds what was dumped into it: an unreadable file, on
    which [json.load] raises before the [try], is not modelled. *)
Definition get_emails (self : GmailClient) (now written_at : Z) (query : string)
    (max_results : nat) (use_cache : bool) : M (list Message * GmailClient) :=
  let cached :=
    if use_cache
    then _get_cached_emails self now (_get_cache_key query max_results)
    else None in
  match cached with
  | Some ((_ :: _) as emails) =>
      let* _ := emit (Printed UsingCachedEmails) in ret (emails, self)
  | _ =>
      try_http
        (let* messages := list_execute self query max_results in
         if bool_decide (messages = []) then ret ([], self) else
         let* full_messages := fetch_loop self messages [] in
         let self' :=
           if use_cache
           then _cache_emails self written_at (_get_cache_key query max_results)
                  full_messages
           else self in
         ret (full_messages, self'))
        (let* _ := emit (Printed GmailApiError) in ret ([], self))
  end.
End md5.

Definition delete_email (self : GmailClient) (message_id : MessageRef) : M bool :=
  try_http
    (let* _ := emit (Remote (MessagesDelete message_id)) in
     if delete_ok (service self) message_id then ret true else raise Py.HttpError)
    (let* _ := emit (Printed (FailedToDelete message_id)) in ret false).

Definition archive_email (self : GmailClient) (message_id : MessageRef) : M bool :=
  try_http
    (let* _ := emit (Remote (MessagesModify message_id ["INBOX"])) in
     if modify_ok (service self) message_id then ret true else raise Py.HttpError)
    (let* _ := emit (Printed (FailedToArchive message_id)) in ret false).

(** [get_headers]: header names lowercased, later headers overwrite. *)
Definition get_headers (message : Message) : gmap string string :=
  foldl (λ headers h, <[Py.lower (fst h) := snd h]> headers) ∅ (m_headers message).

(** [get_body]: the text parts, limited to 3000 characters. *)
Definition get_body (message : Message) : string := Py.prefix 3000 (m_body message).

End Gmail.

(* ===================================================================== *)
(** ** inboxy/cli.py: the actions of [preview] *)
(* ===================================================================== *)

Module Cli.
Import Mailbox.

(** [for i, msg in enumerate(messages): gmail.delete_email(msg['id'])] *)
Definition delete_each (gmail : Gmail.GmailClient) (messages : list Gmail.Message) : M unit :=
  for_each (λ _ msg, let* _ := Gmail.delete_email gmail (Gmail.m_id msg) in ret tt)
    0 messages.

Definition archive_each (gmail : Gmail.GmailClient) (messages : list Gmail.Message) : M unit :=
  for_each (λ _ msg, let* _ := Gmail.archive_email gmail (Gmail.m_id msg) in ret tt)
    0 messages.

(** The part of [preview] under [# Handle actions], for a non-empty
    [messages]; [confirmed] is what [click.confirm] returns. *)
Definition preview_actions (gmail : Gmail.GmailClient) (messages : list Gmail.Message)
    (delete archive : bool) (confirmed : bool) : M (option Spec.BatchOutcome) :=
  if delete then
    let* _ := emit (Printed (WillDelete (length messages))) in
    let* _ := emit (Asked "Are you sure?") in
    if confirmed then
      let* _ := delete_each gmail messages in
      let* _ := emit (Printed EmailsDeleted) in ret None
    else ret None
  else if archive then
    let* _ := emit (Asked ("Archive " +:+ pretty (length messages) +:+ " emails?")) in
    if confirmed then
      let* _ := archive_each gmail messages in
      let* _ := emit (Printed EmailsArchived) in ret None
    else ret None
  else ret None.

End Cli.

(* ===================================================================== *)
(** ** inboxy/ai.py *)
(* ===================================================================== *)

Module AI.
Import Mailbox Models.

(** What the scoring service does with one request: it times out, or
    answers something that does not parse into the response schema, or
    answers an object with the fields of the schema, still to be validated. *)
Inductive Reply : Type :=
| Timeout
| Malformed
| Answer (fields : EmailAnalysisResponse).

(** [self.ai_client.chat.completions.create(..., response_model=
    EmailAnalysisResponse)]: raises unless the reply validates. *)
Definition create (reply : Reply) : result EmailAnalysisResponse :=
  match reply with
  | Timeout => Raise Py.ProviderError
  | Malformed => Raise Py.ValidationError
  | Answer fields => EmailAnalysisResponse_new fields
  end.

(** [ai_client headers body] is the reply to the prompt built from the
    headers and the body of a message (the prompt is a function of both). *)
Record EmailAI : Type := {
  ai_client : gmap string string → string → Reply;
  cache_dir : gmap string (Cache.File (list AnalysisDict));
  cache_ttl : Z
}.

(** The keyword arguments of the fallback response; the other fields take
    their defaults. *)
Definition fallback_fields : EmailAnalysisResponse :=
  {| category := "fyi_review";
     priority := 1;
     summary := "Unable to analyze email";
     action_needed := None;
     suggested_response := None;
     calendar_event := None;
     key_points := [];
     sentiment := "neutral" |}.

Definition analyze_email (self : EmailAI) (message : Gmail.Message) : M EmailAnalysis :=
  let headers := Gmail.get_headers message in
  let body := Gmail.get_body message in
  try_any
    (let* response := lift (create (ai_client self headers body)) in
     lift (EmailAnalysis_new (Gmail.m_id message) headers response))
    (λ e,
     let* _ := emit (Printed AnalysisFailed) in
     let* response := lift (EmailAnalysisResponse_new fallback_fields) in
     lift (EmailAnalysis_new (Gmail.m_id message) headers response)).

Definition analyses_file (cache_key : string) : string :=
  "analyses_" +:+ cache_key +:+ ".json".

Definition _get_cached_analyses (self : EmailAI) (now : Z) (cache_key : string)
  : result (option (list EmailAnalysis)) :=
  match Cache.read_fresh (cache_dir self) (analyses_file cache_key) now (cache_ttl self) with
  | Some data => Py.bind (Py.map_result from_dict data) (λ l, Ok (Some l))
  | None => Ok None
  end.

Definition _cache_analyses (self : EmailAI) (now : Z) (cache_key : string)
    (analyses : list EmailAnalysis) : EmailAI :=
  {| ai_client := ai_client self;
     cache_dir := Cache.write (cache_dir self) (analyses_file cache_key) now
                    (map to_dict analyses);
     cache_ttl := cache_ttl self |}.

End AI.

(* ===================================================================== *)
(** ** inboxy/digest.py *)
(* ===================================================================== *)

Module Digest.
Import Models.

Record UrgentItem : Type := {
  u_subject : string;
  u_sender : string;
  u_date : string;
  u_summary : string;
  u_action_needed : option string;
  u_gmail_link : string;
  u_is_meeting : bool
}.

Record Sample : Type := {
  s_subject : string;
  s_date : string;
  s_gmail_link : string
}.

Record DeleteGroup : Type := {
  g_name : string;
  g_count : nat;
  g_query : string;
  g_samples : list Sample
}.

Record Data : Type := {
  date : string;
  timestamp : string;
  total_count : nat;
  urgent_count : nat;
  action_count : nat;
  delete_count : nat;
  urgent_items : list UrgentItem;
  delete_groups : list DeleteGroup
}.

(** [d.split(',')[0] if ',' in d else d[:n]]; [split] never returns an
    empty list. *)
Definition short_date (n : nat) (d : string) : string :=
  if Py.contains "," d
  then match Py.split "," d with piece :: _ => piece | [] => "" end
  else Py.prefix n d.

Definition gmail_link (message_id : MessageRef) : string :=
  "https://mail.google.com/mail/u/0/#inbox/" +:+ message_id.

Definition urgent_item (a : EmailAnalysis) : UrgentItem :=
  {| u_subject := Py.prefix 100 (a_subject a);
     u_sender := Py.strip (Py.remove_char ">" (Py.remove_char "<" (a_sender a)));
     u_date := short_date 20 (a_date a);
     u_summary := a_summary a;
     u_action_needed := a_action_needed a;
     u_gmail_link := gmail_link (a_message_id a);
     u_is_meeting := bool_decide (a_calendar_event a ≠ None) |}.

(** [a.priority.value >= 4 or a.category == EmailCategory.ACTION_REQUIRED] *)
Definition is_urgent (a : EmailAnalysis) : bool :=
  (4 <=? priority_value (a_priority a))%Z
  || bool_decide (a_category a = ACTION_REQUIRED).

Definition priority_key (a : EmailAnalysis) : Z := priority_value (a_priority a).

(** The loop over the sorted analyses, with its [break]; the state is
    [data["urgent_count"]] and [data["urgent_items"]]. *)
Fixpoint urgent_loop (sorted : list EmailAnalysis) (count : nat)
    (items : list UrgentItem) : nat * list UrgentItem :=
  match sorted with
  | [] => (count, items)
  | a :: rest =>
      if is_urgent a then
        let count := count + 1 in
        let items := items ++ [urgent_item a] in
        if (5 <=? length items)%nat then (count, items)
        else urgent_loop rest count items
      else urgent_loop rest count items
  end.

Definition is_deletable (a : EmailAnalysis) : bool :=
  bool_decide (a_category a ∈ [NEWSLETTER; PROMOTION; SOCIAL; AUTO_DELETE]).

(** [sender.split('<')[1].split('>')[0]] *)
Definition bracketed (sender : string) : result string :=
  Py.bind (Py.index (Py.split "<" sender) 1) (λ after,
  Py.index (Py.split ">" after) 0).

(** The domain computed for one sender inside the grouping loop. *)
Definition sender_domain (sender : string) : result string :=
  if Py.contains "@" sender then
    Py.bind (if Py.contains "<" sender then bracketed sender else Ok sender)
      (λ sender, Py.index (Py.split "@" sender) 1)
  else Ok "unknown".

(** [sender_groups]: a dict from domain to list of emails; a Python dict
    keeps its keys in insertion order, which the later stable sort
    observes. *)
Fixpoint group_append (domain : string) (email : EmailAnalysis)
    (sender_groups : list (string * list EmailAnalysis))
  : list (string * list EmailAnalysis) :=
  match sender_groups with
  | [] => [(domain, [email])]
  | (d, emails) :: rest =>
      if String.eqb d domain then (d, emails ++ [email]) :: rest
      else (d, emails) :: group_append domain email rest
  end.

Fixpoint group_loop (deletable : list EmailAnalysis)
    (sender_groups : list (string * list EmailAnalysis))
  : result (list (string * list EmailAnalysis)) :=
  match deletable with
  | [] => Ok sender_groups
  | email :: rest =>
      Py.bind (sender_domain (a_sender email)) (λ domain,
      group_loop rest (group_append domain email sender_groups))
  end.

Definition sample (e : EmailAnalysis) : Sample :=
  {| s_subject := Py.prefix 50 (a_subject e);
     s_date := short_date 15 (a_date e);
     s_gmail_link := gmail_link (a_message_id e) |}.

Definition delete_group (item : string * list EmailAnalysis) : DeleteGroup :=
  {| g_name := "From " +:+ fst item;
     g_count := length (snd item);
     g_query := "from:@" +:+ fst item;
     g_samples := map sample (take 3 (snd item)) |}.

Definition group_size (item : string * list EmailAnalysis) : Z :=
  Z.of_nat (length (snd item)).

(** [for domain, emails in sorted(sender_groups.items(), key=..., reverse=True)[:3]:
       if len(emails) >= 2: data["delete_groups"].append(...)] *)
Definition top_groups (sender_groups : list (string * list EmailAnalysis))
  : list DeleteGroup :=
  map delete_group
    (List.filter (λ item, (2 <=? length (snd item))%nat)
       (take 3 (Py.sorted_desc group_size sender_groups))).

Section now.
(** The two renderings of [datetime.now()]. *)
Variables (today stamp : string).

Definition _prepare_data (analyses : list EmailAnalysis) : result Data :=
  let urgent := urgent_loop (Py.sorted_desc priority_key analyses) 0 [] in
  let action :=
    length (List.filter (λ a, bool_decide (a_category a = ACTION_REQUIRED)) analyses) in
  let deletable := List.filter is_deletable analyses in
  Py.bind (group_loop deletable []) (λ sender_groups,
  Ok {| date := today;
        timestamp := stamp;
        total_count := length analyses;
        urgent_count := fst urgent;
        action_count := action;
        delete_count := length deletable;
        urgent_items := snd urgent;
        delete_groups := top_groups sender_groups |}).
End now.

End Digest.

(* ===================================================================== *)
(** ** Vocabulary of the statements *)
(* ===================================================================== *)


(** One iteration of a batch loop sends exactly one batch call, and raises
    HttpError exactly when the mailbox rejects that call. *)
Definition sends_one {A} (body : nat → A → Mailbox.M unit) (call : A → Mailbox.Call)
    (ok : nat → A → bool) (x : A) : Prop :=
  ∀ k, Mailbox.batch_calls (Mailbox.events (body k x)) = [call x]
       ∧ Mailbox.outcome (body k x) = if ok k x then Ok tt else Raise Py.HttpError.

(** The reply of the scoring service to the prompt built for [message]. *)
Definition reply_to (self : AI.EmailAI) (message : Gmail.Message) : AI.Reply :=
  AI.ai_client self (Gmail.get_headers message) (Gmail.get_body message).

(** The fallback analysis of the specification for [message]. *)
Definition fallback_analysis (message : Gmail.Message) : Models.EmailAnalysis :=
  let headers := Gmail.get_headers message in
  {| Models.a_message_id := Gmail.m_id message;
     Models.a_subject := Models.headers_get headers "subject" "No subject";
     Models.a_sender := Models.headers_get headers "from" "Unknown";
     Models.a_date := Models.headers_get headers "date" "Unknown";
     Models.a_category := Models.FYI_REVIEW;
     Models.a_priority := Models.NONE;
     Models.a_summary := "Unable to analyze email";
     Models.a_action_needed := None;
     Models.a_suggested_response := None;
     Models.a_calendar_event := None;
     Models.a_key_points := [];
     Models.a_sentiment := "neutral" |}.


Definition domain_of (a : Models.EmailAnalysis) : result string :=
  Digest.sender_domain (Models.a_sender a).


(** Every deletable analysis has a sender whose domain can be extracted. *)
Definition well_formed_senders (analyses : list Models.EmailAnalysis) : Prop :=
  Forall (λ a, ∃ d, domain_of a = Ok d) (List.filter Digest.is_deletable analyses).



(* ===================================================================== *)
(** ** Concrete inputs *)
(* ===================================================================== *)

Module Examples.
Import Mailbox Models.

(** The identifiers [m0], [m1], ... *)
Definition sample_ids (n : nat) : list MessageRef :=
  map (λ i, "m" +:+ pretty i) (seq 0 n).

(** A mailbox with [n] messages on one page that rejects the batch calls
    numbered in [rejected]. *)
Definition sample_service (n : nat) (rejected : list nat) : Clean.Service :=
  {| Clean.messages_list := λ _, LastPage (sample_ids n);
     Clean.batch_ok := λ k _, bool_decide (k ∉ rejected);
     Clean.labels_list := Some [];
     Clean.labels_list_again := Some [] |}.

(** A mailbox whose second page of results cannot be fetched. *)
Definition broken_listing : Clean.Service :=
  {| Clean.messages_list := λ _, MorePages ["m0"; "m1"] ListFails;
     Clean.batch_ok := λ _ _, true;
     Clean.labels_list := Some [];
     Clean.labels_list_again := Some [] |}.

(** A client whose list call fails, with an empty cache directory. *)
Definition offline_client : Gmail.GmailClient :=
  {| Gmail.service :=
       {| Gmail.list_answer := λ _ _, None;
          Gmail.get_answer := λ _, None;
          Gmail.delete_ok := λ _, true;
          Gmail.modify_ok := λ _, true |};
     Gmail.cache_dir := ∅;
     Gmail.cache_ttl := 3600 |}.

(** A stand-in for the hash function: the examples do not depend on it. *)
Definition plain_key (s : string) : string := s.

Definition sample_message : Gmail.Message :=
  {| Gmail.m_id := "m1";
     Gmail.m_headers :=
       [("From", "Shop <news@shop.example>"); ("Subject", "Sale");
        ("Date", "Mon, 1 Jan 2024 10:00:00 +0000")];
     Gmail.m_body := "Everything must go." |}.

Definition sample_ai (reply : AI.Reply) : AI.EmailAI :=
  {| AI.ai_client := λ _ _, reply;
     AI.cache_dir := ∅;
     AI.cache_ttl := 3600 |}.

(** A reply outside the enumerated categories and priorities. *)
Definition invalid_fields : EmailAnalysisResponse :=
  {| category := "spam";
     priority := 9;
     summary := "Buy now";
     action_needed := None;
     suggested_response := None;
     calendar_event := None;
     key_points := [];
     sentiment := "neutral" |}.

Definition analysis (id sender : string) (c : EmailCategory) (p : Priority)
  : EmailAnalysis :=
  {| a_message_id := id;
     a_subject := "Subject of " +:+ id;
     a_sender := sender;
     a_date := "Mon, 1 Jan 2024 10:00:00 +0000";
     a_category := c;
     a_priority := p;
     a_summary := "Summary of " +:+ id;
     a_action_needed := None;
     a_suggested_response := None;
     a_calendar_event := None;
     a_key_points := [];
     a_sentiment := "neutral" |}.

(** Two analyses of priority 4 among ten of priority 5. *)
Definition twelve : list EmailAnalysis :=
  map (λ i, analysis ("m" +:+ pretty i) "Boss <boss@corp.example>" IMPORTANT
              (if bool_decide (i ∈ [0; 7]) then HIGH else URGENT))
    (seq 0 12).


(** Nine deletable analyses: five from a.com, one from b.com, three from
    c.com, interleaved. *)
Definition nine : list EmailAnalysis :=
  map (λ x, analysis ("m" +:+ pretty (fst x))
              ("News <news@" +:+ snd x +:+ ">") NEWSLETTER LOW)
    [(0, "c.com"); (1, "a.com"); (2, "b.com"); (3, "a.com"); (4, "c.com");
     (5, "a.com"); (6, "a.com"); (7, "c.com"); (8, "a.com")].

(** A deletable analysis whose sender has its only [@] outside the
    brackets. *)
Definition unbracketed_domain : EmailAnalysis :=
  analysis "m1" "sales@shop.example <noreply>" PROMOTION LOW.

End Examples.


(* ===================================================================== *)
(** ** More Python string primitives *)
(* ===================================================================== *)

Module Text.

(** The longest prefix of [s] whose characters satisfy [p]. *)
Fixpoint take_while (p : ascii → bool) (s : string) : string :=
  match s with
  | EmptyString => EmptyString
  | String a s' => if p a then String a (take_while p s') else EmptyString
  end.

Fixpoint drop_while (p : ascii → bool) (s : string) : string :=
  match s with
  | EmptyString => EmptyString
  | String a s' => if p a then drop_while p s' else s
  end.

(** [s.startswith(prefix)] *)
Fixpoint starts_with (prefix s : string) : bool :=
  match prefix, s with
  | EmptyString, _ => true
  | String a p', String b s' => Py.ascii_eqb a b && starts_with p' s'
  | String _ _, EmptyString => false
  end.

(** [needle in hay] for strings. *)
Fixpoint str_in (needle hay : string) : bool :=
  starts_with needle hay
  || match hay with
     | EmptyString => false
     | String _ hay' => str_in needle hay'
     end.

(** [s.split(c)[-1]]; [split] never returns an empty list. *)
Definition last_piece (c : ascii) (s : string) : string :=
  default EmptyString (last (Py.split c s)).

End Text.

(* ===================================================================== *)
(** ** clean.py: fetching metadata and reading headers *)
(* ===================================================================== *)

Module CleanTools.
Import Mailbox.

(** The inner loop of [batch_get]: [get_answer mid] is what
    [messages().get(id=mid).execute()] returns, [None] for an HttpError. *)
Fixpoint get_each (get_answer : MessageRef → option Gmail.Message)
    (chunk : list MessageRef) (items : list Gmail.Message) : M (list Gmail.Message) :=
  match chunk with
  | [] => ret items
  | mid :: rest =>
      let* items :=
        try_http
          (let* _ := emit (Remote (MessagesGet mid)) in
           match get_answer mid with
           | Some msg => ret (items ++ [msg])
           | None => raise Py.HttpError
           end)
          (let* _ := emit (Printed (FailedToFetch mid)) in ret items) in
      get_each get_answer rest items
  end.

(** The outer loop: [for i in range(0, len(ids), 100): chunk = ids[i:i+100]]. *)
Fixpoint get_chunks (get_answer : MessageRef → option Gmail.Message)
    (chunks : list (list MessageRef)) (items : list Gmail.Message)
  : M (list Gmail.Message) :=
  match chunks with
  | [] => ret items
  | chunk :: rest =>
      let* items := get_each get_answer chunk items in
      get_chunks get_answer rest items
  end.

Definition batch_get (get_answer : MessageRef → option Gmail.Message)
    (ids : list MessageRef) : M (list Gmail.Message) :=
  get_chunks get_answer
    (map (λ i, Py.slice ids i (i + 100)) (Py.range 0 (length ids) 100)) [].

(** [header(hs, name)]: the value of the first header with that name,
    compared without regard to case. *)
Definition header (hs : list (string * string)) (name : string) : option string :=
  snd <$> List.find (λ h, String.eqb (Py.lower (fst h)) (Py.lower name)) hs.

(** [re.search(r"<([^>]+)>", s)]: group 1 of the leftmost match.  At a [<]
    the greedy [[^>]+] takes every character up to the next [>]; the match
    succeeds there when that run is not empty and a [>] follows it. *)
Fixpoint search_bracket (s : string) : option string :=
  match s with
  | EmptyString => None
  | String a s' =>
      if Py.ascii_eqb a "<" then
        let run := Text.take_while (λ c, negb (Py.ascii_eqb c ">")) s' in
        match run, Text.drop_while (λ c, negb (Py.ascii_eqb c ">")) s' with
        | String _ _, String _ _ => Some run
        | _, _ => search_bracket s'
        end
      else search_bracket s'
  end.

(** The character class [[A-Za-z0-9\.-]]. *)
Definition is_domain_char (a : ascii) : bool :=
  let n := nat_of_ascii a in
  ((65 <=? n) && (n <=? 90)) || ((97 <=? n) && (n <=? 122))
  || ((48 <=? n) && (n <=? 57)) || (n =? 46) || (n =? 45).

(** [re.search(r"@([A-Za-z0-9\.-]+)", s)]: group 1 of the leftmost match. *)
Fixpoint search_domain (s : string) : option string :=
  match s with
  | EmptyString => None
  | String a s' =>
      if Py.ascii_eqb a "@" then
        match Text.take_while is_domain_char s' with
        | EmptyString => search_domain s'
        | run => Some run
        end
      else search_domain s'
  end.

(** [domain_from_from_header(val)]; [if not val] covers None and the empty
    string. *)
Definition domain_from_from_header (val : option string) : option string :=
  match val with
  | None | Some EmptyString => None
  | Some v =>
      let email := default v (search_bracket v) in
      Py.lower <$> search_domain email
  end.

End CleanTools.

(* ===================================================================== *)
(** ** ai.py: important senders, batches and the inbox summary *)
(* ===================================================================== *)

Module Summary.
Import Mailbox Models.

(** [[d.strip() for d in env.split(",") if d.strip()]], the body of
    [_load_important_domains] and [_load_important_contacts]; [env] is the
    value of the environment variable, the empty string when unset. *)
Definition load_list (env : string) : list string :=
  map Py.strip
    (List.filter (λ d, negb (String.eqb (Py.strip d) EmptyString)) (Py.split "," env)).

(** [sender.split("@")[-1].replace(">", "") if "@" in sender else ""] *)
Definition sender_domain (sender : string) : string :=
  if Py.contains "@" sender
  then Py.remove_char ">" (Text.last_piece "@" sender)
  else EmptyString.

(** The flag [is_important] of [_build_analysis_prompt]. *)
Definition is_important (important_domains important_contacts : list string)
    (sender : string) : bool :=
  bool_decide (sender_domain sender ∈ important_domains)
  || existsb (λ contact, Text.str_in contact sender) important_contacts.

Section md5.
(** [hashlib.md5(s.encode()).hexdigest()] *)
Variable md5 : string → string.

Definition _get_cache_key_for_batch (messages : list Gmail.Message) : string :=
  match messages, last messages with
  | first :: _, Some final =>
      md5 ("batch_" +:+ Gmail.m_id first +:+ "_" +:+ Gmail.m_id final +:+ "_"
           +:+ pretty (length messages))
  | _, _ => "empty"
  end.

(** The loop of [batch_analyze]: an analysis that raises is skipped. *)
Fixpoint analyze_each (self : AI.EmailAI) (messages : list Gmail.Message)
    (analyses : list EmailAnalysis) : list EmailAnalysis :=
  match messages with
  | [] => analyses
  | msg :: rest =>
      analyze_each self rest
        match outcome (AI.analyze_email self msg) with
        | Ok analysis => analyses ++ [analysis]
        | Raise _ => analyses
        end
  end.

(** [batch_analyze(self, messages, limit)].  The clock reads [now] when the
    cache is consulted and [written_at] when the cache file is written.
    Returns the analyses and the object with its cache directory as the call
    leaves it; what the call prints is left out. *)
Definition batch_analyze (self : AI.EmailAI) (now written_at : Z)
    (messages : list Gmail.Message) (limit : nat)
  : result (list EmailAnalysis * AI.EmailAI) :=
  let messages_to_analyze := take limit messages in
  let cache_key := _get_cache_key_for_batch messages_to_analyze in
  Py.bind (AI._get_cached_analyses self now cache_key) (λ cached,
  match cached with
  | Some ((_ :: _) as cached) => Ok (cached, self)
  | _ =>
      let analyses := analyze_each self messages_to_analyze [] in
      Ok (analyses,
          if bool_decide (analyses = []) then self
          else AI._cache_analyses self written_at cache_key analyses)
  end).

(** [get_inbox_summary(self, query, limit)], with the Gmail client of the
    object passed along; what the call prints is left out. *)
Definition get_inbox_summary (gmail : Gmail.GmailClient) (self : AI.EmailAI)
    (now written_at : Z) (query : string) (limit : nat)
  : M (list EmailAnalysis * Gmail.GmailClient * AI.EmailAI) :=
  let* fetched := Gmail.get_emails md5 gmail now written_at query limit true in
  match fst fetched with
  | [] => ret ([], snd fetched, self)
  | emails =>
      let* analysed := lift (batch_analyze self now written_at emails limit) in
      ret (fst analysed, snd fetched, snd analysed)
  end.
End md5.

End Summary.

(* ===================================================================== *)
(** ** inboxy/cli.py: the [preview] command *)
(* ===================================================================== *)

Module CliPreview.
Import Mailbox.

Definition CLEANUP_PRESETS : list (string * string) :=
  [("promotions", "category:promotions");
   ("promo", "category:promotions");
   ("social", "category:social");
   ("updates", "category:updates");
   ("forums", "category:forums");
   ("newsletters", "list:*");
   ("old-promotions", "category:promotions older_than:7d");
   ("old-social", "category:social older_than:30d");
   ("old-updates", "category:updates older_than:14d");
   ("old-newsletters", "list:* older_than:14d");
   ("notifications", "from:(noreply OR no-reply OR notifications OR alerts)");
   ("automated", "from:(automated OR system OR mailer-daemon)");
   ("unread-old", "is:unread older_than:30d");
   ("noise", "(category:promotions OR category:social) older_than:7d");
   ("old-noise",
    "(category:promotions OR category:social OR category:updates) older_than:30d");
   ("ancient", "older_than:1y")].

(** [CLEANUP_PRESETS[query.lower()] if query.lower() in CLEANUP_PRESETS else query] *)
Definition resolve (query : string) : string :=
  match List.find (λ p, String.eqb (fst p) (Py.lower query)) CLEANUP_PRESETS with
  | Some p => snd p
  | None => query
  end.

(** [preview(query, limit, delete, archive, list_presets)] from the point
    where [gmail = GmailClient()] has returned the client [gmail]; the
    construction of the client, which raises FileNotFoundError without a
    credentials file, is not modelled.  [confirmed] is what [click.confirm]
    returns.  The tables and the lines printed before the actions are left
    out. *)
Definition preview (md5 : string → string) (gmail : Gmail.GmailClient)
    (now written_at : Z) (query : string) (limit : nat)
    (delete archive list_presets : bool) (confirmed : bool)
  : M (option Spec.BatchOutcome) :=
  if list_presets then ret None else
  let query := resolve query in
  let max_results := if negb (delete || archive) then limit else 500 in
  let* fetched := Gmail.get_emails md5 gmail now written_at query max_results true in
  match fst fetched with
  | [] => ret None
  | messages => Cli.preview_actions (snd fetched) messages delete archive confirmed
  end.

End CliPreview.


(* ===================================================================== *)
(** ** Vocabulary of the further statements *)
(* ===================================================================== *)

(** The pages that a listing serves before it ends or fails. *)
Fixpoint served_pages (listing : Mailbox.Listing) : list (list MessageRef) :=
  match listing with
  | Mailbox.ListFails => []
  | Mailbox.LastPage msgs => [msgs]
  | Mailbox.MorePages msgs next => msgs :: served_pages next
  end.

(** No page of the listing fails. *)
Fixpoint never_fails (listing : Mailbox.Listing) : bool :=
  match listing with
  | Mailbox.ListFails => false
  | Mailbox.LastPage _ => true
  | Mailbox.MorePages _ next => never_fails next
  end.

(** The values of the headers called [name], case ignored, in order. *)
Definition values_named (name : string) (hs : list (string * string)) : list string :=
  map snd (List.filter (λ h, String.eqb (Py.lower (fst h)) name) hs).

(** Every character of [s] satisfies [p]. *)
Fixpoint all_chars (p : ascii → bool) (s : string) : bool :=
  match s with
  | EmptyString => true
  | String a s' => p a && all_chars p s'
  end.

(** The characters that [domain_from_from_header] can return: lower-case
    letters, digits, dot and hyphen. *)
Definition is_lower_domain_char (a : ascii) : bool :=
  CleanTools.is_domain_char a && bool_decide (Py.lower_char a = a).

(** The messages that can be fetched among [ids], in order. *)
Definition fetchable (get_answer : MessageRef → option Gmail.Message)
    (ids : list MessageRef) : list Gmail.Message :=
  omap get_answer ids.

(** The events of fetching [ids] one by one: a get call for each, followed
    by a warning when it fails. *)
Definition fetch_trace (get_answer : MessageRef → option Gmail.Message)
    (ids : list MessageRef) : Mailbox.trace :=
  concat (map (λ mid,
                 Mailbox.Remote (Mailbox.MessagesGet mid)
                 :: match get_answer mid with
                    | Some _ => []
                    | None => [Mailbox.Printed (Mailbox.FailedToFetch mid)]
                    end) ids).

(** The events of trying one call per identifier, in order, going on after a
    failure: the call, followed by a warning when the mailbox rejects it. *)
Definition attempts (call : MessageRef → Mailbox.Call) (ok : MessageRef → bool)
    (failed : MessageRef → Mailbox.Line) (ids : list MessageRef) : Mailbox.trace :=
  concat (map (λ mid,
                 Mailbox.Remote (call mid)
                 :: if ok mid then [] else [Mailbox.Printed (failed mid)]) ids).

(** The call that [preview] makes for one message: a delete when the delete
    flag is set, otherwise the removal of the label INBOX. *)
Definition action_call (delete : bool) (mid : MessageRef) : Mailbox.Call :=
  if delete then Mailbox.MessagesDelete mid else Mailbox.MessagesModify mid ["INBOX"].

(** The analysis that [analyze_email] returns for [message]: the reply of the
    scoring service when it is accepted, the fallback analysis otherwise. *)
Definition analysis_of (self : AI.EmailAI) (message : Gmail.Message)
  : Models.EmailAnalysis :=
  match Py.bind (AI.create (reply_to self message))
          (Models.EmailAnalysis_new (Gmail.m_id message) (Gmail.get_headers message)) with
  | Ok a => a
  | Raise _ => fallback_analysis message
  end.

(** The analysis cache has nothing to offer under [key]: no fresh entry, or
    a fresh entry that holds the empty list. *)
Definition nothing_cached (self : AI.EmailAI) (now : Z) (key : string) : Prop :=
  AI._get_cached_analyses self now key = Ok None
  ∨ AI._get_cached_analyses self now key = Ok (Some []).

(** Every remote event of a trace is a batch call. *)
Definition only_batches (e : Mailbox.Event) : Prop :=
  match e with Mailbox.Remote c => Mailbox.is_batch c = true | _ => True end.

(* ===================================================================== *)
(** ** Further concrete inputs *)
(* ===================================================================== *)

Module Samples.
Import Mailbox Models Examples.

(** The labels of a mailbox whose only label is INBOX, holding [n]
    messages. *)
Definition inbox_only (n : nat) : list Label :=
  [{| label_name := "INBOX"; label_id := "Label_1";
      messagesTotal := n; messagesUnread := 3 |}].

(** A mailbox with [n] messages on one page whose only label is INBOX, and
    whose label listing fails when [labels_down] is set. *)
Definition labelled_service (n : nat) (labels_down : bool) : Clean.Service :=
  {| Clean.messages_list := λ _, LastPage (sample_ids n);
     Clean.batch_ok := λ _ _, true;
     Clean.labels_list := if labels_down then None else Some (inbox_only n);
     Clean.labels_list_again := if labels_down then None else Some (inbox_only n) |}.

(** The same mailbox when its label listing answers once and then fails. *)
Definition labels_once (n : nat) : Clean.Service :=
  {| Clean.messages_list := λ _, LastPage (sample_ids n);
     Clean.batch_ok := λ _ _, true;
     Clean.labels_list := Some (inbox_only n);
     Clean.labels_list_again := None |}.

(** The message [mid] with the headers and the body of [sample_message]. *)
Definition message (mid : MessageRef) : Gmail.Message :=
  {| Gmail.m_id := mid;
     Gmail.m_headers := Gmail.m_headers sample_message;
     Gmail.m_body := Gmail.m_body sample_message |}.

(** A client of a mailbox that lists the identifiers [m0] to [m(n-1)] for
    every query, cannot fetch the messages named in [unfetchable], and
    refuses to delete or archive those named in [kept]; its cache directory
    is empty. *)
Definition client (n : nat) (unfetchable kept : list MessageRef) : Gmail.GmailClient :=
  {| Gmail.service :=
       {| Gmail.list_answer := λ _ _, Some (sample_ids n);
          Gmail.get_answer :=
            λ mid, if bool_decide (mid ∈ unfetchable) then None else Some (message mid);
          Gmail.delete_ok := λ mid, bool_decide (mid ∉ kept);
          Gmail.modify_ok := λ mid, bool_decide (mid ∉ kept) |};
     Gmail.cache_dir := ∅;
     Gmail.cache_ttl := 3600 |}.

End Samples.

(* ===================================================================== *)
(** ** Facts about traces *)
(* ===================================================================== *)

Import Mailbox Models Digest Examples.

Lemma events_mbind {A B} (m : M A) (k : A → M B) :
  events (mbind m k)
  = events m ++ match outcome m with Ok a => events (k a) | Raise _ => [] end.
Proof.
  destruct m as [t [a|e]]; simpl; [destruct (k a); reflexivity|].
  by rewrite app_nil_r.
Qed.

Lemma outcome_mbind {A B} (m : M A) (k : A → M B) :
  outcome (mbind m k)
  = match outcome m with Ok a => outcome (k a) | Raise e => Raise e end.
Proof. destruct m as [t [a|e]]; simpl; [destruct (k a)|]; reflexivity. Qed.

Lemma calls_app t t' : calls (t ++ t') = calls t ++ calls t'.
Proof. apply omap_app. Qed.

Lemma batch_calls_app t t' : batch_calls (t ++ t') = batch_calls t ++ batch_calls t'.
Proof. unfold batch_calls. by rewrite calls_app, List.filter_app. Qed.

Lemma mutation_calls_app t t' :
  mutation_calls (t ++ t') = mutation_calls t ++ mutation_calls t'.
Proof. unfold mutation_calls. by rewrite calls_app, List.filter_app. Qed.

Lemma batch_calls_cons_printed l t : batch_calls (Printed l :: t) = batch_calls t.
Proof. reflexivity. Qed.

Lemma for_each_cons {A} (body : nat → A → M unit) k x rest :
  events (for_each body k (x :: rest))
  = events (body k x)
    ++ match outcome (body k x) with
       | Ok _ => events (for_each body (S k) rest)
       | Raise _ => []
       end
  ∧ outcome (for_each body k (x :: rest))
    = match outcome (body k x) with
      | Ok _ => outcome (for_each body (S k) rest)
      | Raise e => Raise e
      end.
Proof. cbn [for_each]. by rewrite events_mbind, outcome_mbind. Qed.

Section batches.
Context {A : Type} (body : nat → A → M unit) (call : A → Call) (ok : nat → A → bool).

(** The batch calls of a loop are those of its iterations up to and
    including the first one that the mailbox rejects. *)
Lemma for_each_prefix l k :
  Forall (sends_one body call ok) l →
  ∃ n, n ≤ length l
       ∧ (l ≠ [] → 1 ≤ n)
       ∧ batch_calls (events (for_each body k l)) = map call (take n l).
Proof.
  intros Hl. revert k. induction Hl as [|x rest Hx _ IH]; intros k.
  - by exists 0.
  - destruct (for_each_cons body k x rest) as [-> _].
    destruct (Hx k) as [Hc Ho]. rewrite batch_calls_app, Hc, Ho.
    destruct (ok k x).
    + destruct (IH (S k)) as (n & Hn & _ & ->). exists (S n).
      split; [simpl; lia|]. split; [lia|done].
    + exists 1. split; [simpl; lia|]. split; [lia|done].
Qed.

Lemma for_each_all_ok l k :
  Forall (sends_one body call ok) l →
  (∀ j x, l !! j = Some x → ok (k + j) x = true) →
  outcome (for_each body k l) = Ok tt
  ∧ batch_calls (events (for_each body k l)) = map call l.
Proof.
  intros Hl. revert k. induction Hl as [|x rest Hx _ IH]; intros k Hok; [done|].
  destruct (for_each_cons body k x rest) as [-> ->].
  destruct (Hx k) as [Hc Ho]. rewrite batch_calls_app, Hc, Ho.
  replace (ok k x) with true
    by (symmetry; rewrite <- (Nat.add_0_r k); by apply Hok).
  destruct (IH (S k)) as [-> ->]; [|done].
  intros j y Hj. replace (S k + j) with (k + S j) by lia. by apply Hok.
Qed.

Lemma for_each_first_failure l k i x :
  Forall (sends_one body call ok) l →
  l !! i = Some x →
  ok (k + i) x = false →
  (∀ j y, j < i → l !! j = Some y → ok (k + j) y = true) →
  outcome (for_each body k l) = Raise Py.HttpError
  ∧ batch_calls (events (for_each body k l)) = map call (take (S i) l).
Proof.
  intros Hl. revert k i.
  induction Hl as [|x0 rest Hx _ IH]; intros k i Hi Hfail Hok; [done|].
  destruct (for_each_cons body k x0 rest) as [-> ->].
  destruct (Hx k) as [Hc Ho]. rewrite batch_calls_app, Hc, Ho.
  destruct i as [|i].
  - simpl in Hi. injection Hi as ->. rewrite Nat.add_0_r in Hfail.
    by rewrite Hfail.
  - replace (ok k x0) with true
      by (symmetry; rewrite <- (Nat.add_0_r k); apply Hok; [lia|done]).
    destruct (IH (S k) i) as [-> ->]; [done| | |done].
    + by replace (S k + i) with (k + S i) by lia.
    + intros j y Hj Hy. replace (S k + j) with (k + S j) by lia.
      apply Hok; [lia|done].
Qed.
End batches.

(* ===================================================================== *)
(** ** clean.py: chunking *)
(* ===================================================================== *)

Lemma range_lt start stop step i :
  0 < step → i ∈ Py.range start stop step → start ≤ i < stop.
Proof.
  intros Hs Hi. unfold Py.range in Hi.
  apply list_elem_of_fmap in Hi as (k & -> & Hk).
  apply elem_of_seq in Hk.
  assert (step * ((stop - start + (step - 1)) / step) ≤ stop - start + (step - 1))
    by (apply Nat.Div0.mul_div_le).
  nia.
Qed.

Lemma length_slice {A} (l : list A) i j :
  length (Py.slice l i j) = min (j - i) (length l - i).
Proof. unfold Py.slice. by rewrite length_take, length_drop. Qed.

Lemma chunked_length ids n :
  length (Clean._chunked ids n) = (length ids + (n - 1)) / n.
Proof.
  unfold Clean._chunked, Py.range. rewrite !length_map, length_seq.
  by rewrite Nat.sub_0_r.
Qed.

Lemma chunked_lookup ids n k :
  k < length (Clean._chunked ids n) →
  Clean._chunked ids n !! k = Some (take n (drop (k * n) ids)).
Proof.
  unfold Clean._chunked, Py.range. rewrite !length_map, length_seq. intros Hk.
  rewrite !list_lookup_fmap, lookup_seq_lt by done. simpl. unfold Py.slice.
  do 2 f_equal. lia.
Qed.

Lemma chunked_sizes ids n :
  map length (Clean._chunked ids n)
  = map (λ i, min n (length ids - i)) (Py.range 0 (length ids) n).
Proof.
  unfold Clean._chunked. rewrite map_map. apply map_ext. intros i.
  rewrite length_slice. f_equal. lia.
Qed.

Lemma chunked_elem ids n c :
  0 < n → c ∈ Clean._chunked ids n → c ≠ [] ∧ length c ≤ n ∧ c ⊆ ids.
Proof.
  intros Hn Hc. unfold Clean._chunked in Hc.
  apply list_elem_of_fmap in Hc as (i & -> & Hi).
  apply range_lt in Hi; [|done].
  split; [|split].
  - intros E. apply (f_equal length) in E. rewrite length_slice in E. simpl in E. lia.
  - rewrite length_slice. lia.
  - unfold Py.slice. intros x Hx.
    apply elem_of_take in Hx as (j & Hx & _). rewrite lookup_drop in Hx.
    by eapply list_elem_of_lookup_2.
Qed.

Lemma chunked_nil n : Clean._chunked [] n = [].
Proof.
  unfold Clean._chunked, Py.range. simpl.
  destruct n as [|[|n]]; [done|done|].
  rewrite Nat.div_small; [done|lia].
Qed.

Lemma chunked_cons ids n :
  0 < n → ids ≠ [] →
  Clean._chunked ids n = take n ids :: Clean._chunked (drop n ids) n.
Proof.
  intros Hn Hne.
  assert (Hlen : length (Clean._chunked ids n)
                 = S (length (Clean._chunked (drop n ids) n))).
  { rewrite !chunked_length, length_drop.
    destruct ids as [|x ids]; [done|]. simpl length.
    destruct (decide (n ≤ S (length ids))) as [Hle|Hgt].
    - replace (S (length ids) + (n - 1))
        with ((S (length ids) - n + (n - 1)) + 1 * n) by lia.
      rewrite Nat.div_add by lia. lia.
    - replace (S (length ids) - n) with 0 by lia. simpl.
      rewrite (Nat.div_small (n - 1) n) by lia.
      symmetry. apply (Nat.div_unique _ _ 1 (length ids)); lia. }
  apply list_eq. intros [|k].
  - rewrite chunked_lookup by lia. by rewrite drop_0.
  - simpl. destruct (decide (k < length (Clean._chunked (drop n ids) n))) as [Hk|Hk].
    + rewrite !chunked_lookup by lia. rewrite drop_drop. repeat f_equal; lia.
    + rewrite !lookup_ge_None_2; [done|lia|lia].
Qed.

(** The chunks, put end to end, are the identifier list. *)
Lemma chunked_concat ids n : 0 < n → concat (Clean._chunked ids n) = ids.
Proof.
  intros Hn. remember (length ids) as len eqn:Hlen.
  revert ids Hlen. induction (lt_wf len) as [len _ IH]. intros ids ->.
  destruct ids as [|x ids]; [by rewrite chunked_nil|].
  rewrite chunked_cons by done. simpl concat.
  rewrite (IH (length (drop n (x :: ids)))); [apply take_drop| |done].
  rewrite length_drop. simpl. lia.
Qed.

Lemma index_of_elem x ids :
  x ∈ ids → ∃ i, Clean.index_of x ids = Some i ∧ i < length ids.
Proof.
  induction ids as [|y ids IH]; [by intros ?%elem_of_nil|].
  intros Hx. simpl. destruct (String.eqb_spec y x) as [->|Hne].
  - exists 0. split; [done|lia].
  - apply elem_of_cons in Hx as [->|Hx]; [done|].
    destruct (IH Hx) as (i & -> & Hi). exists (S i). split; [done|lia].
Qed.

(** The progress figure of a batch taken from [ids] never raises. *)
Lemma progress_ok ids b : b ≠ [] → b ⊆ ids → ∃ p, Clean.progress ids b = ret p.
Proof.
  intros Hne Hsub. unfold Clean.progress.
  destruct (last b) as [x|] eqn:Hlast; [|by apply last_None in Hlast].
  assert (x ∈ ids) as (i & -> & _)%index_of_elem; [|by eexists].
  apply Hsub. apply last_Some in Hlast as [l' ->].
  apply elem_of_app. right. by left.
Qed.

Lemma delete_batch_sends service ids b :
  b ≠ [] → b ⊆ ids →
  sends_one (Clean.delete_batch service ids) BatchDelete (Clean.batch_ok service) b.
Proof.
  intros Hne Hsub k. destruct (progress_ok ids b Hne Hsub) as [p Hp].
  unfold Clean.delete_batch, Clean.batchDelete. rewrite Hp.
  by destruct (Clean.batch_ok service k b).
Qed.

Lemma archive_batch_sends service inbox_id b :
  sends_one (Clean.archive_batch service inbox_id)
    (λ b, BatchModify b [inbox_id] []) (Clean.batch_ok service) b.
Proof.
  intros k. unfold Clean.archive_batch, Clean.batchModify.
  by destruct (Clean.batch_ok service k b).
Qed.

Lemma chunked_delete_sends service ids :
  Forall (sends_one (Clean.delete_batch service ids) BatchDelete (Clean.batch_ok service))
    (Clean._chunked ids 500).
Proof.
  apply Forall_forall. intros b Hb.
  destruct (chunked_elem ids 500 b) as (? & _ & ?); [lia|done|].
  by apply delete_batch_sends.
Qed.

(* ===================================================================== *)
(** ** clean.py: listing, delete and archive *)
(* ===================================================================== *)

Lemma list_loop_only_lists q limit ids page listing :
  Forall (λ e, ∃ p, e = Remote (MessagesList q p))
    (events (Clean.list_loop q limit ids page listing)).
Proof.
  revert ids page. induction listing as [|msgs|msgs next IH]; intros ids page;
    cbn [Clean.list_loop]; rewrite events_mbind; cbn.
  - repeat constructor. by eexists.
  - constructor; [by eexists|]. by destruct (Clean.limit_reached _ _).
  - constructor; [by eexists|]. destruct (Clean.limit_reached _ _); [done|apply IH].
Qed.

(** Listing issues no mutation. *)
Lemma listing_no_batch service q limit :
  mutation_calls (events (Clean.list_message_ids service q limit)) = []
  ∧ batch_calls (events (Clean.list_message_ids service q limit)) = [].
Proof.
  pose proof (list_loop_only_lists q limit [] 0 (Clean.messages_list service q)) as H.
  unfold Clean.list_message_ids. induction H as [|e t [p ->] _ [IH1 IH2]]; [done|].
  unfold mutation_calls, batch_calls in *. simpl. by rewrite IH1, IH2.
Qed.

Lemma limit_reached_app limit ids more :
  Clean.limit_reached limit (ids ++ more) = false → Clean.limit_reached limit ids = false.
Proof.
  unfold Clean.limit_reached. destruct limit as [[|n]|]; try done.
  rewrite length_app. intros H%Nat.leb_gt. apply Nat.leb_gt. lia.
Qed.

(** A listing whose page number [length pages] fails: every page is asked
    for once, and the identifiers collected so far are lost with the
    exception. *)
Lemma list_loop_failure q limit pages ids page :
  Clean.limit_reached limit (ids ++ concat pages) = false →
  Clean.list_loop q limit ids page (foldr MorePages ListFails pages)
  = (map (λ p, Remote (MessagesList q p)) (seq page (S (length pages))),
     Raise Py.HttpError).
Proof.
  revert ids page. induction pages as [|msgs pages IH]; intros ids page Hlim; [done|].
  simpl in Hlim. rewrite app_assoc in Hlim.
  cbn [foldr Clean.list_loop]. rewrite (limit_reached_app _ _ _ Hlim).
  unfold mbind at 1. cbn [Mailbox.emit]. rewrite (IH _ _ Hlim). done.
Qed.

Lemma confirm_no answer :
  Py.lower (Py.strip answer) ≠ "yes" →
  negb (String.eqb (Py.lower (Py.strip answer)) "yes") = true.
Proof. intros H. by destruct (String.eqb_spec (Py.lower (Py.strip answer)) "yes"). Qed.

Lemma confirm_yes answer :
  Py.lower (Py.strip answer) = "yes" →
  negb (String.eqb (Py.lower (Py.strip answer)) "yes") = false.
Proof. intros ->. done. Qed.

(** What a confirmed delete does once the listing has returned [ids]. *)
Lemma confirmed_delete_run service query answer ids :
  outcome (Clean.list_message_ids service query None) = Ok ids →
  Py.lower (Py.strip answer) = "yes" →
  let loop := for_each (Clean.delete_batch service ids) 0 (Clean._chunked ids 500) in
  let run := Clean.delete_by_query service query answer in
  batch_calls (events run) = batch_calls (events loop)
  ∧ (outcome loop = Raise Py.HttpError → outcome run = Raise Py.HttpError).
Proof.
  intros Hids Hyes loop run. subst loop run. unfold Clean.delete_by_query.
  rewrite (confirm_yes _ Hyes).
  destruct (listing_no_batch service query None) as [_ Hb].
  destruct (Clean.list_message_ids service query None) as [t r]. simpl in Hids, Hb.
  subst r. rewrite events_mbind, outcome_mbind. cbn [events outcome fst snd].
  rewrite batch_calls_app, Hb. cbn [app].
  rewrite events_mbind, outcome_mbind. cbn [events outcome fst snd Mailbox.emit app].
  rewrite batch_calls_cons_printed.
  destruct (bool_decide_reflect (ids = [])) as [->|Hne].
  { rewrite chunked_nil. done. }
  rewrite events_mbind, outcome_mbind. cbn [events outcome fst snd Mailbox.emit app].
  rewrite events_mbind, outcome_mbind.
  destruct (for_each _ 0 _) as [tl [[]|e]]; cbn [events outcome fst snd].
  - split; [|done]. unfold Clean.inbox_stats, Clean.labels_execute.
    destruct (Clean.labels_list service); cbn; unfold batch_calls; cbn;
      rewrite omap_app, List.filter_app; cbn; by rewrite app_nil_r.
  - split; [|congruence]. by rewrite app_nil_r.
Qed.

Lemma confirmed_archive_run service query answer ids labels :
  outcome (Clean.list_message_ids service query None) = Ok ids →
  Py.lower (Py.strip answer) = "yes" →
  Clean.labels_list service = Some labels →
  let inbox_id := Clean.label_map_of labels !! "INBOX" in
  let loop := for_each (Clean.archive_batch service inbox_id) 0 (Clean._chunked ids 500) in
  let run := Clean.archive_by_query service query answer in
  batch_calls (events run) = batch_calls (events loop)
  ∧ (outcome loop = Raise Py.HttpError → outcome run = Raise Py.HttpError).
Proof.
  intros Hids Hyes Hlabels inbox_id loop run. subst inbox_id loop run.
  unfold Clean.archive_by_query. rewrite (confirm_yes _ Hyes).
  destruct (listing_no_batch service query None) as [_ Hb].
  destruct (Clean.list_message_ids service query None) as [t r]. simpl in Hids, Hb.
  subst r. rewrite events_mbind, outcome_mbind. cbn [events outcome fst snd].
  rewrite batch_calls_app, Hb. cbn [app].
  rewrite events_mbind, outcome_mbind. cbn [events outcome fst snd Mailbox.emit app].
  rewrite batch_calls_cons_printed.
  destruct (bool_decide_reflect (ids = [])) as [->|Hne].
  { rewrite chunked_nil. done. }
  rewrite events_mbind, outcome_mbind. cbn [events outcome fst snd Mailbox.emit app].
  unfold Clean.get_label_map, Clean.inbox_stats, Clean.labels_execute. rewrite Hlabels.
  cbn [Clean.after_labels Clean.labels_list].
  destruct (Clean.labels_list_again service); cbn -[for_each Clean._chunked];
    (destruct (for_each _ 0 _) as [tl [[]|e]]; cbn [events outcome fst snd];
     [split; [|done]; unfold batch_calls; cbn; rewrite omap_app, List.filter_app; cbn;
      by rewrite app_nil_r
     |split; [done|]; cbn; congruence]).
Qed.

(** Claim C1, as amended.  For every mailbox, query and answer other than
    yes, the bulk delete issues no remote mutation call and is not an error:
    once the identifiers are listed, [delete_by_query] returns None (after
    printing "Aborted." when there is at least one identifier), and the
    delete action of [preview] returns None without a remote call.  No
    outcome value (attempted, succeeded, failure record) is returned. *)
Theorem unconfirmed_delete_sends_nothing service query answer :
  Py.lower (Py.strip answer) ≠ "yes" →
  let run := Clean.delete_by_query service query answer in
  mutation_calls (events run) = []
  ∧ (∀ o, outcome run ≠ Ok (Some o))
  ∧ (∀ ids, outcome (Clean.list_message_ids service query None) = Ok ids →
       outcome run = Ok None
       ∧ (ids ≠ [] → last (events run) = Some (Printed Aborted)))
  ∧ (∀ gmail messages archive,
       Cli.preview_actions gmail messages true archive false
       = ([Printed (WillDelete (length messages)); Asked "Are you sure?"], Ok None)).
Proof.
  intros Hno run. subst run. unfold Clean.delete_by_query.
  rewrite (confirm_no _ Hno).
  destruct (listing_no_batch service query None) as [Hm _].
  destruct (Clean.list_message_ids service query None) as [t [ids|e]]; simpl in Hm.
  - rewrite events_mbind, outcome_mbind. cbn [events outcome fst snd].
    rewrite mutation_calls_app, Hm.
    destruct (bool_decide_reflect (ids = [])) as [->|Hne]; cbn.
    + split; [done|]. split; [done|]. split; [|done].
      intros ids' [= <-]. done.
    + split; [done|]. split; [done|]. split; [|done].
      intros ids' [= <-]. split; [done|].
      intros _. by rewrite last_app.
  - cbn. split; [done|]. split; [done|]. split; done.
Qed.

(** C1, witness: a mailbox with two messages and the answer " No ". *)
Lemma unconfirmed_delete_sends_nothing_witness :
  Py.lower (Py.strip " No ") ≠ "yes"
  ∧ mutation_calls
      (events (Clean.delete_by_query (sample_service 2 []) "in:inbox" " No ")) = []
  ∧ outcome (Clean.delete_by_query (sample_service 2 []) "in:inbox" " No ") = Ok None.
Proof.
  assert (H : Py.lower (Py.strip " No ") ≠ "yes") by (vm_compute; discriminate).
  split; [exact H|].
  destruct (unconfirmed_delete_sends_nothing (sample_service 2 []) "in:inbox" " No " H)
    as (Hm & _ & Hout & _).
  split; [exact Hm|]. apply (Hout (sample_ids 2)). reflexivity.
Defined.

(** C1, counterexample to the claim as stated: for two identifiers and the
    answer "no", no mutation is issued, but what is returned is None, not an
    outcome with [succeeded = 0], [attempted = 2] and one failure record. *)
Lemma unconfirmed_delete_returns_no_outcome :
  let run := Clean.delete_by_query (sample_service 2 []) "in:inbox" "no" in
  mutation_calls (events run) = []
  ∧ outcome run = Ok None
  ∧ ¬ ∃ o, outcome run = Ok (Some o)
           ∧ Spec.succeeded o = 0 ∧ Spec.attempted o = 2
           ∧ length (Spec.failures o) = 1.
Proof.
  cbv zeta. split; [by vm_compute|]. split; [by vm_compute|].
  intros (o & Ho & _). vm_compute in Ho. discriminate Ho.
Qed.

(** Claim C2, as amended.  For every confirmed delete whose listing returned
    [ids], the identifiers are split into consecutive chunks of at most 500
    (chunk [k] is [ids[500k : 500k+500]], none is empty, together they are
    [ids]); the batch calls issued are, in order, one [batchDelete] per
    chunk, for a prefix of the chunks that holds at least the first one.
    They are issued for all the chunks when the mailbox accepts every batch,
    and then for 1001 identifiers these are 3 calls of sizes 500, 500, 1. *)
Theorem confirmed_delete_chunks service query answer ids :
  outcome (Clean.list_message_ids service query None) = Ok ids →
  Py.lower (Py.strip answer) = "yes" →
  let chunks := Clean._chunked ids 500 in
  let sent := batch_calls (events (Clean.delete_by_query service query answer)) in
  (concat chunks = ids
   ∧ ∀ k c, chunks !! k = Some c →
            c = take 500 (drop (k * 500) ids) ∧ 1 ≤ length c ≤ 500)
  ∧ (∃ n, n ≤ length chunks ∧ (ids ≠ [] → 1 ≤ n)
          ∧ sent = map BatchDelete (take n chunks))
  ∧ ((∀ k c, chunks !! k = Some c → Clean.batch_ok service k c = true) →
     sent = map BatchDelete chunks
     ∧ (length ids = 1001 → map batch_size sent = [500; 500; 1])).
Proof.
  intros Hids Hyes chunks sent. subst chunks sent.
  destruct (confirmed_delete_run service query answer ids Hids Hyes) as [-> _].
  split; [split|split].
  - apply chunked_concat. lia.
  - intros k c Hk. pose proof (lookup_lt_Some _ _ _ Hk) as Hlt.
    rewrite chunked_lookup in Hk by done. injection Hk as <-. split; [done|].
    destruct (chunked_elem ids 500 (take 500 (drop (k * 500) ids))) as (Hne & Hle & _).
    + lia.
    + eapply list_elem_of_lookup_2. by apply chunked_lookup.
    + split; [|done]. destruct (take 500 _); [done|simpl; lia].
  - destruct (for_each_prefix (Clean.delete_batch service ids) BatchDelete
                (Clean.batch_ok service) (Clean._chunked ids 500) 0
                (chunked_delete_sends service ids)) as (n & Hn & Hfirst & Hsent).
    exists n. split; [done|]. split; [|done]. intros Hne. apply Hfirst.
    intros Hnil. apply Hne. rewrite <- (chunked_concat ids 500) by lia.
    by rewrite Hnil.
  - intros Hok.
    destruct (for_each_all_ok (Clean.delete_batch service ids) BatchDelete
                (Clean.batch_ok service) (Clean._chunked ids 500) 0
                (chunked_delete_sends service ids) Hok) as [_ ->].
    split; [done|]. intros Hlen.
    rewrite map_map. change (λ x, batch_size (BatchDelete x)) with (@length MessageRef).
    rewrite chunked_sizes, Hlen. reflexivity.
Qed.

(** C2, witness: 1001 messages, every batch accepted. *)
Lemma confirmed_delete_chunks_witness :
  outcome (Clean.list_message_ids (sample_service 1001 []) "in:inbox" None)
  = Ok (sample_ids 1001)
  ∧ Py.lower (Py.strip "yes") = "yes"
  ∧ map batch_size
      (batch_calls (events (Clean.delete_by_query (sample_service 1001 []) "in:inbox" "yes")))
    = [500; 500; 1].
Proof.
  assert (H1 : outcome (Clean.list_message_ids (sample_service 1001 []) "in:inbox" None)
               = Ok (sample_ids 1001)) by reflexivity.
  assert (H2 : Py.lower (Py.strip "yes") = "yes") by reflexivity.
  split; [exact H1|]. split; [exact H2|].
  destruct (confirmed_delete_chunks (sample_service 1001 []) "in:inbox" "yes"
              (sample_ids 1001) H1 H2) as (_ & _ & H).
  apply H; [|by vm_compute]. intros k c _. reflexivity.
Defined.

(** C2, counterexample to the claim as stated: a confirmed delete of 1001
    identifiers whose first batch the mailbox rejects issues one batch call,
    of size 500, and not three. *)
Lemma rejected_batch_leaves_chunks_unsent :
  let run := Clean.delete_by_query (sample_service 1001 [0]) "in:inbox" "yes" in
  outcome (Clean.list_message_ids (sample_service 1001 [0]) "in:inbox" None)
  = Ok (sample_ids 1001)
  ∧ length (sample_ids 1001) = 1001
  ∧ Py.lower (Py.strip "yes") = "yes"
  ∧ map batch_size (batch_calls (events run)) = [500]
  ∧ map batch_size (batch_calls (events run)) ≠ [500; 500; 1].
Proof.
  cbv zeta.
  assert (Hsent : map batch_size
                    (batch_calls (events (Clean.delete_by_query
                                            (sample_service 1001 [0]) "in:inbox" "yes")))
                  = [500]) by (vm_compute; reflexivity).
  split; [reflexivity|]. split; [by vm_compute|]. split; [reflexivity|].
  split; [exact Hsent|]. rewrite Hsent. discriminate.
Qed.

(** Claim C3, as amended.  During a confirmed bulk delete or archive, if the
    batch call for chunk [k] is the first that the mailbox rejects, the
    HttpError propagates to the caller: the run ends with that exception,
    nothing is recorded in an outcome, and the batch calls issued are exactly
    those for chunks 0 to [k], so that no later chunk is attempted. *)
Theorem failed_chunk_aborts service query answer ids k c :
  outcome (Clean.list_message_ids service query None) = Ok ids →
  Py.lower (Py.strip answer) = "yes" →
  Clean._chunked ids 500 !! k = Some c →
  Clean.batch_ok service k c = false →
  (∀ j c', j < k → Clean._chunked ids 500 !! j = Some c' →
           Clean.batch_ok service j c' = true) →
  let chunks := Clean._chunked ids 500 in
  (let run := Clean.delete_by_query service query answer in
   outcome run = Raise Py.HttpError
   ∧ batch_calls (events run) = map BatchDelete (take (S k) chunks))
  ∧ (∀ labels, Clean.labels_list service = Some labels →
     let run := Clean.archive_by_query service query answer in
     outcome run = Raise Py.HttpError
     ∧ batch_calls (events run)
       = map (λ b, BatchModify b [Clean.label_map_of labels !! "INBOX"] [])
           (take (S k) chunks)).
Proof.
  intros Hids Hyes Hk Hfail Hok chunks. subst chunks. split.
  - intros run. subst run.
    destruct (confirmed_delete_run service query answer ids Hids Hyes) as [-> Hout].
    destruct (for_each_first_failure (Clean.delete_batch service ids) BatchDelete
                (Clean.batch_ok service) (Clean._chunked ids 500) 0 k c
                (chunked_delete_sends service ids) Hk Hfail Hok) as [Ho Hc].
    split; [by apply Hout|done].
  - intros labels Hlabels run. subst run.
    destruct (confirmed_archive_run service query answer ids labels Hids Hyes Hlabels)
      as (Hc & Hout).
    destruct (for_each_first_failure
                (Clean.archive_batch service (Clean.label_map_of labels !! "INBOX"))
                (λ b, BatchModify b [Clean.label_map_of labels !! "INBOX"] [])
                (Clean.batch_ok service) (Clean._chunked ids 500) 0 k c) as [Ho Hc'];
      [|done|done|done|].
    { apply Forall_forall. intros b _. apply archive_batch_sends. }
    split; [by apply Hout|]. by rewrite Hc.
Qed.

(** C3, witness: 1001 messages, the second batch rejected. *)
Lemma failed_chunk_aborts_witness :
  Clean._chunked (sample_ids 1001) 500 !! 1 = Some (take 500 (drop 500 (sample_ids 1001)))
  ∧ outcome (Clean.delete_by_query (sample_service 1001 [1]) "in:inbox" "yes")
    = Raise Py.HttpError
  ∧ batch_calls (events (Clean.delete_by_query (sample_service 1001 [1]) "in:inbox" "yes"))
    = map BatchDelete (take 2 (Clean._chunked (sample_ids 1001) 500)).
Proof.
  assert (Hk : Clean._chunked (sample_ids 1001) 500 !! 1
               = Some (take 500 (drop 500 (sample_ids 1001)))) by reflexivity.
  split; [exact Hk|].
  refine (proj1 (failed_chunk_aborts (sample_service 1001 [1]) "in:inbox" "yes"
                   (sample_ids 1001) 1 _ _ _ Hk _ _)); try reflexivity.
  intros j c' Hj _. by replace j with 0 by lia.
Defined.

(** C3, counterexample to the claim as stated: with 501 identifiers in two
    chunks and the first batch rejected, the run ends with the HttpError and
    the second chunk is never sent. *)
Lemma failed_chunk_stops_the_run :
  let run := Clean.delete_by_query (sample_service 501 [0]) "in:inbox" "yes" in
  Clean._chunked (sample_ids 501) 500 = [sample_ids 500; ["m500"]]
  ∧ outcome run = Raise Py.HttpError
  ∧ batch_calls (events run) = [BatchDelete (sample_ids 500)]
  ∧ BatchDelete ["m500"] ∉ calls (events run).
Proof.
  assert (Hrun : Clean.delete_by_query (sample_service 501 [0]) "in:inbox" "yes"
          = ([Remote (MessagesList "in:inbox" 0); Printed (Deleting 501 "in:inbox");
              Asked Clean.delete_prompt; Remote (BatchDelete (sample_ids 500))],
             Raise Py.HttpError)) by (vm_compute; reflexivity).
  cbv zeta. rewrite Hrun. split; [by vm_compute|]. split; [done|]. split; [done|].
  cbn. intros H. repeat (apply elem_of_cons in H as [H|H]; [discriminate H|]).
  by apply elem_of_nil in H.
Qed.

(* ===================================================================== *)
(** ** The cache *)
(* ===================================================================== *)

Lemma read_fresh_write {Payload} (dir : gmap string (Cache.File Payload))
    name written now ttl v :
  Cache.read_fresh (Cache.write dir name written v) name now ttl
  = if (now - written <? ttl)%Z then Some v else None.
Proof. unfold Cache.read_fresh, Cache.write. by rewrite lookup_insert_eq. Qed.

Lemma EmailCategory_of_value c : EmailCategory_of (category_value c) = Ok c.
Proof. by destruct c. Qed.

Lemma Priority_of_value p : Priority_of (priority_value p) = Ok p.
Proof. by destruct p. Qed.

Lemma priority_value_range p : (1 ≤ priority_value p ≤ 5)%Z.
Proof. destruct p; simpl; lia. Qed.

(** [from_dict] reads back what [to_dict] wrote. *)
Lemma from_dict_to_dict a : from_dict (to_dict a) = Ok a.
Proof.
  unfold from_dict, to_dict, EmailAnalysisResponse_new, EmailAnalysis_new. cbn.
  pose proof (priority_value_range (a_priority a)) as [H1 H5].
  apply Z.leb_le in H1, H5. rewrite H1, H5. cbn.
  rewrite EmailCategory_of_value, Priority_of_value. cbn.
  by destruct a.
Qed.

Lemma map_from_dict_to_dict l : Py.map_result from_dict (map to_dict l) = Ok l.
Proof.
  induction l as [|a l IH]; [done|]. cbn. by rewrite from_dict_to_dict, IH.
Qed.

(** Claim C8, as amended.  For every key and payload, a put followed by a
    get returns the payload unchanged whenever the time elapsed since the put
    is strictly less than the TTL of the reader; once the age has reached the
    TTL the get returns absent, although the directory still holds the
    entry.  This holds for the cache files as such, for the e-mail cache of
    [gmail.py] and for the analysis cache of [ai.py]. *)
Theorem cache_round_trip {Payload} (dir : gmap string (Cache.File Payload))
    name written now ttl (v : Payload) gmail ai key emails analyses :
  let age := (now - written)%Z in
  ((age < ttl)%Z →
     Cache.read_fresh (Cache.write dir name written v) name now ttl = Some v
     ∧ (Gmail.cache_ttl gmail = ttl →
        Gmail._get_cached_emails (Gmail._cache_emails gmail written key emails) now key
        = Some emails)
     ∧ (AI.cache_ttl ai = ttl →
        AI._get_cached_analyses (AI._cache_analyses ai written key analyses) now key
        = Ok (Some analyses)))
  ∧ ((ttl ≤ age)%Z →
     Cache.read_fresh (Cache.write dir name written v) name now ttl = None
     ∧ Cache.write dir name written v !! name
       = Some {| Cache.content := v; Cache.st_mtime := written |}
     ∧ (Gmail.cache_ttl gmail = ttl →
        Gmail._get_cached_emails (Gmail._cache_emails gmail written key emails) now key
        = None)
     ∧ (AI.cache_ttl ai = ttl →
        AI._get_cached_analyses (AI._cache_analyses ai written key analyses) now key
        = Ok None)).
Proof.
  intros age. subst age.
  unfold Gmail._get_cached_emails, Gmail._cache_emails, AI._get_cached_analyses,
    AI._cache_analyses. cbn [Gmail.cache_dir Gmail.cache_ttl AI.cache_dir AI.cache_ttl].
  split.
  - intros Hfresh%Z.ltb_lt. rewrite !read_fresh_write.
    split; [by rewrite Hfresh|]. split; intros ->; rewrite Hfresh; [done|].
    by rewrite map_from_dict_to_dict.
  - intros Hstale%Z.ltb_ge. rewrite !read_fresh_write.
    split; [by rewrite Hstale|]. split; [apply lookup_insert_eq|].
    split; intros ->; by rewrite Hstale.
Qed.

(** C8, witness: written at 100, read at 3699 and at 3700 under a TTL of
    3600. *)
Lemma cache_round_trip_witness :
  ((3699 - 100 < 3600)%Z
   ∧ Gmail._get_cached_emails
       (Gmail._cache_emails offline_client 100 "k" [sample_message]) 3699 "k"
     = Some [sample_message])
  ∧ ((3600 ≤ 3700 - 100)%Z
     ∧ Gmail._get_cached_emails
         (Gmail._cache_emails offline_client 100 "k" [sample_message]) 3700 "k"
       = None).
Proof.
  split.
  - assert (H : (3699 - 100 < 3600)%Z) by lia. split; [exact H|].
    refine (proj1 (proj2 (proj1 (cache_round_trip (∅ : gmap string (Cache.File unit))
              "f" 100 3699 3600 tt offline_client (sample_ai AI.Timeout) "k"
              [sample_message] []) H)) _).
    reflexivity.
  - assert (H : (3600 ≤ 3700 - 100)%Z) by lia. split; [exact H|].
    refine (proj1 (proj2 (proj2 (proj2 (cache_round_trip
              (∅ : gmap string (Cache.File unit))
              "f" 100 3700 3600 tt offline_client (sample_ai AI.Timeout) "k"
              [sample_message] []) H))) _).
    reflexivity.
Defined.

(** C8, counterexample to the claim as stated: an entry written at 100 and
    read at 3700 under a TTL of 3600 has an age equal to the TTL, so the TTL
    is greater than or equal to the elapsed time, and yet the get returns
    absent. *)
Lemma cache_entry_stale_at_ttl :
  (3600 >= 3700 - 100)%Z
  ∧ Gmail._get_cached_emails
      (Gmail._cache_emails offline_client 100 "k" [sample_message]) 3700 "k"
    = None
  ∧ AI._get_cached_analyses
      (AI._cache_analyses (sample_ai AI.Timeout) 100 "k" [unbracketed_domain]) 3700 "k"
    = Ok None.
Proof. split; [lia|]. split; reflexivity. Qed.

(* ===================================================================== *)
(** ** gmail.py: fetching *)
(* ===================================================================== *)

(** When the list call fails and the cache has nothing to offer,
    [get_emails] prints the error and returns the empty list. *)
Lemma get_emails_list_failure md5 self now written_at query max_results use_cache :
  Gmail.list_answer (Gmail.service self) query max_results = None →
  (∀ emails,
     use_cache = true →
     Gmail._get_cached_emails self now (Gmail._get_cache_key md5 query max_results)
     = Some emails → emails = []) →
  Gmail.get_emails md5 self now written_at query max_results use_cache
  = ([Remote (MessagesList query 0); Printed GmailApiError], Ok ([], self)).
Proof.
  intros Hfail Hmiss. unfold Gmail.get_emails.
  assert (Hrun : ∀ body : list MessageRef → M (list Gmail.Message * Gmail.GmailClient),
    try_http (let* messages := Gmail.list_execute self query max_results in body messages)
      (let* _ := emit (Printed GmailApiError) in ret ([], self))
    = ([Remote (MessagesList query 0); Printed GmailApiError], Ok ([], self))).
  { intros body. unfold Gmail.list_execute. by rewrite Hfail. }
  destruct use_cache.
  - destruct (Gmail._get_cached_emails _ _ _) as [[|e es]|] eqn:Hc; [apply Hrun| |apply Hrun].
    by specialize (Hmiss _ eq_refl eq_refl).
  - apply Hrun.
Qed.

(** Claim C9, as amended.  A transport failure of the remote list operation
    ends the listing at once, without retry and without returning the pages
    collected so far.  In [list_message_ids] of [clean.py] the HttpError
    reaches the immediate caller: when page number [length pages] fails,
    pages 0 to [length pages] have each been requested once and the call
    raises.  In [GmailClient.get_emails] the HttpError is caught: after the
    one list call the error is printed and the empty list is returned. *)
Theorem listing_failure service q limit pages md5 self now written_at query
    max_results use_cache :
  Clean.messages_list service q = foldr MorePages ListFails pages →
  Clean.limit_reached limit (concat pages) = false →
  Gmail.list_answer (Gmail.service self) query max_results = None →
  (∀ emails,
     use_cache = true →
     Gmail._get_cached_emails self now (Gmail._get_cache_key md5 query max_results)
     = Some emails → emails = []) →
  Clean.list_message_ids service q limit
  = (map (λ p, Remote (MessagesList q p)) (seq 0 (S (length pages))),
     Raise Py.HttpError)
  ∧ Gmail.get_emails md5 self now written_at query max_results use_cache
    = ([Remote (MessagesList query 0); Printed GmailApiError], Ok ([], self)).
Proof.
  intros Hpages Hlimit Hfail Hmiss. split.
  - unfold Clean.list_message_ids. rewrite Hpages. by apply list_loop_failure.
  - by apply get_emails_list_failure.
Qed.

(** C9, witness: a listing whose second page fails, and an offline client. *)
Lemma listing_failure_witness :
  Clean.list_message_ids broken_listing "in:inbox" (Some 10)
  = ([Remote (MessagesList "in:inbox" 0); Remote (MessagesList "in:inbox" 1)],
     Raise Py.HttpError)
  ∧ Gmail.get_emails plain_key offline_client 0 0 "in:inbox" 50 true
    = ([Remote (MessagesList "in:inbox" 0); Printed GmailApiError],
       Ok ([], offline_client)).
Proof.
  refine (listing_failure broken_listing "in:inbox" (Some 10) [["m0"; "m1"]]
            plain_key offline_client 0%Z 0%Z "in:inbox" 50 true _ _ _ _);
    try reflexivity.
  intros emails _ Hc. discriminate Hc.
Defined.

(** C9, counterexample to the claim as stated: with the list operation
    failing, [get_emails] does not surface an error; it returns the empty
    list. *)
Lemma get_emails_swallows_list_failure :
  Gmail.list_answer (Gmail.service offline_client) "in:inbox" 50 = None
  ∧ outcome (Gmail.get_emails plain_key offline_client 0 0 "in:inbox" 50 true)
    = Ok ([], offline_client)
  ∧ Py.is_ok (outcome (Gmail.get_emails plain_key offline_client 0 0 "in:inbox" 50 false))
    = true.
Proof. split; [reflexivity|]. split; reflexivity. Qed.

(* ===================================================================== *)
(** ** ai.py: classification *)
(* ===================================================================== *)

Lemma analyze_email_cases self message :
  AI.analyze_email self message
  = match Py.bind (AI.create (reply_to self message))
            (EmailAnalysis_new (Gmail.m_id message) (Gmail.get_headers message)) with
    | Ok a => ([], Ok a)
    | Raise _ => ([Printed AnalysisFailed], Ok (fallback_analysis message))
    end.
Proof.
  unfold AI.analyze_email, reply_to.
  destruct (AI.create _) as [response|e]; [|done]. cbn.
  by destruct (EmailAnalysis_new _ _ response).
Qed.

(** The scoring call raises exactly on a timeout, on a malformed response
    and on a response that fails the validation of the schema. *)
Lemma create_raises reply :
  (∃ e, AI.create reply = Raise e)
  ↔ reply = AI.Timeout ∨ reply = AI.Malformed
    ∨ ∃ fields, reply = AI.Answer fields ∧ ¬ (1 ≤ priority fields ≤ 5)%Z.
Proof.
  destruct reply as [| |fields]; simpl.
  - split; [by left|by eexists].
  - split; [by right; left|by eexists].
  - unfold EmailAnalysisResponse_new.
    destruct (Z.leb_spec 1 (priority fields)), (Z.leb_spec (priority fields) 5); simpl.
    + split; [by intros [e ?]|]. intros [?|[?|(f & [= <-] & Hf)]]; try done. lia.
    + split; [|by eexists]. intros _. right. right. exists fields. split; [done|lia].
    + split; [|by eexists]. intros _. right. right. exists fields. split; [done|lia].
    + split; [|by eexists]. intros _. right. right. exists fields. split; [done|lia].
Qed.

(** Claim C4.  For every message, whenever the scoring call fails (it times
    out, its response is malformed, or its response fails the validation of
    the schema), [analyze_email] returns the fallback analysis: category
    FYI_REVIEW, priority 1, summary "Unable to analyze email", no key points,
    no action and no calendar data.  The failure is printed and not raised:
    the caller gets a normal result. *)
Theorem scoring_failure_gives_fallback self message :
  reply_to self message = AI.Timeout
  ∨ reply_to self message = AI.Malformed
  ∨ (∃ fields, reply_to self message = AI.Answer fields
               ∧ ¬ (1 ≤ priority fields ≤ 5)%Z) →
  AI.analyze_email self message
  = ([Printed AnalysisFailed], Ok (fallback_analysis message))
  ∧ a_category (fallback_analysis message) = FYI_REVIEW
  ∧ priority_value (a_priority (fallback_analysis message)) = 1%Z
  ∧ a_summary (fallback_analysis message) = "Unable to analyze email"
  ∧ a_key_points (fallback_analysis message) = []
  ∧ a_action_needed (fallback_analysis message) = None
  ∧ a_calendar_event (fallback_analysis message) = None.
Proof.
  intros [e He]%create_raises. rewrite analyze_email_cases, He. done.
Qed.

(** C4, witness: the scoring call times out. *)
Lemma scoring_failure_gives_fallback_witness :
  reply_to (sample_ai AI.Timeout) sample_message = AI.Timeout
  ∧ outcome (AI.analyze_email (sample_ai AI.Timeout) sample_message)
    = Ok (fallback_analysis sample_message).
Proof.
  assert (H : reply_to (sample_ai AI.Timeout) sample_message = AI.Timeout)
    by reflexivity.
  split; [exact H|].
  destruct (scoring_failure_gives_fallback (sample_ai AI.Timeout) sample_message
              (or_introl H)) as [Hrun _].
  by rewrite Hrun.
Defined.

Lemma EmailCategory_of_Ok value c :
  EmailCategory_of value = Ok c → category_value c = value.
Proof.
  unfold EmailCategory_of.
  destruct (List.find _ _) as [c'|] eqn:Hf; [|done]. intros [= ->].
  apply List.find_some in Hf as [_ Hf]. by apply String.eqb_eq in Hf.
Qed.

Lemma Priority_of_Ok value p : Priority_of value = Ok p → priority_value p = value.
Proof.
  unfold Priority_of.
  destruct (List.find _ _) as [p'|] eqn:Hf; [|done]. intros [= ->].
  apply List.find_some in Hf as [_ Hf]. by apply Z.eqb_eq in Hf.
Qed.

Lemma category_value_member c : category_value c ∈ map category_value EmailCategory_members.
Proof.
  apply list_elem_of_fmap. exists c. split; [done|].
  apply list_elem_of_In. destruct c; simpl; tauto.
Qed.

Lemma EmailAnalysis_new_Ok id headers response a :
  EmailAnalysis_new id headers response = Ok a →
  category_value (a_category a) = category response
  ∧ priority_value (a_priority a) = priority response
  ∧ a_summary a = summary response
  ∧ a_action_needed a = action_needed response
  ∧ a_calendar_event a = calendar_event response
  ∧ a_key_points a = key_points response.
Proof.
  unfold EmailAnalysis_new.
  destruct (EmailCategory_of _) as [c|] eqn:Hc; [|done].
  destruct (Priority_of _) as [p|] eqn:Hp; [|done]. cbn. intros [= <-]. cbn.
  by rewrite (EmailCategory_of_Ok _ _ Hc), (Priority_of_Ok _ _ Hp).
Qed.

(** A response with an enumerated category and a priority from 1 to 5 is
    accepted as it is. *)
Lemma valid_response_accepted id headers fields :
  category fields ∈ map category_value EmailCategory_members →
  (1 ≤ priority fields ≤ 5)%Z →
  ∃ a, Py.bind (AI.create (AI.Answer fields)) (EmailAnalysis_new id headers) = Ok a.
Proof.
  intros (c & Hc & _)%list_elem_of_fmap [H1 H5]. cbn.
  unfold EmailAnalysisResponse_new.
  apply Z.leb_le in H1 as H1', H5 as H5'. rewrite H1', H5'. cbn.
  unfold EmailAnalysis_new. rewrite Hc, EmailCategory_of_value. cbn.
  assert (∃ p, priority fields = priority_value p) as [p ->].
  { assert (priority fields = 1 ∨ priority fields = 2 ∨ priority fields = 3
            ∨ priority fields = 4 ∨ priority fields = 5)%Z
      as [?|[?|[?|[?|?]]]] by lia;
      [exists NONE|exists LOW|exists MEDIUM|exists HIGH|exists URGENT]; done. }
  rewrite Priority_of_value. cbn. by eexists.
Qed.

(** Claim C5.  Every analysis produced by [analyze_email] has a priority
    value in 1..5 and one of the eight categories, also on the fallback
    path.  A reply whose category is not one of the eight values or whose
    priority is outside 1..5 is rejected and replaced by the fallback
    analysis; a reply with valid category and priority is taken as it is,
    without coercion. *)
Theorem analysis_always_valid self message :
  ∃ a t,
    AI.analyze_email self message = (t, Ok a)
    ∧ (1 ≤ priority_value (a_priority a) ≤ 5)%Z
    ∧ a_category a ∈ EmailCategory_members
    ∧ length EmailCategory_members = 8
    ∧ (∀ fields,
         reply_to self message = AI.Answer fields →
         category fields ∉ map category_value EmailCategory_members
         ∨ ¬ (1 ≤ priority fields ≤ 5)%Z →
         a = fallback_analysis message)
    ∧ (∀ fields,
         reply_to self message = AI.Answer fields →
         category fields ∈ map category_value EmailCategory_members →
         (1 ≤ priority fields ≤ 5)%Z →
         t = []
         ∧ category_value (a_category a) = category fields
         ∧ priority_value (a_priority a) = priority fields).
Proof.
  rewrite analyze_email_cases.
  destruct (Py.bind _ _) as [a|e] eqn:Hrun.
  - exists a, []. split; [done|]. split; [apply priority_value_range|].
    split; [apply list_elem_of_In; destruct (a_category a); simpl; tauto|].
    split; [done|].
    destruct (AI.create _) as [response|] eqn:Hcreate; [|done]. cbn in Hrun.
    apply EmailAnalysis_new_Ok in Hrun as (Hc & Hp & _).
    split; intros fields Hreply; rewrite Hreply in Hcreate; cbn in Hcreate;
      unfold EmailAnalysisResponse_new in Hcreate;
      destruct (_ && _)%bool eqn:Hrange in Hcreate; try done;
      injection Hcreate as <-.
    + intros [Hbad|Hbad]; exfalso; apply Hbad.
      * rewrite <- Hc. apply category_value_member.
      * apply andb_true_iff in Hrange as [?%Z.leb_le ?%Z.leb_le]. done.
    + done.
  - exists (fallback_analysis message), [Printed AnalysisFailed].
    split; [done|]. split; [done|].
    split; [apply list_elem_of_In; simpl; tauto|]. split; [done|]. split; [done|].
    intros fields Hreply Hcat Hprio. exfalso.
    destruct (valid_response_accepted (Gmail.m_id message) (Gmail.get_headers message)
                fields Hcat Hprio) as [a Ha].
    rewrite Hreply in Hrun. congruence.
Qed.

(** C5, witness: a reply with category "spam" and priority 9. *)
Lemma analysis_always_valid_witness :
  ∃ a t,
    AI.analyze_email (sample_ai (AI.Answer invalid_fields)) sample_message = (t, Ok a)
    ∧ a = fallback_analysis sample_message.
Proof.
  destruct (analysis_always_valid (sample_ai (AI.Answer invalid_fields)) sample_message)
    as (a & t & Hrun & _ & _ & _ & Hbad & _).
  exists a, t. split; [exact Hrun|].
  apply (Hbad invalid_fields); [reflexivity|]. right. simpl. lia.
Defined.

(* ===================================================================== *)
(** ** The stable descending sort *)
(* ===================================================================== *)

Section sorted_desc.
Context {A : Type} (key : A → Z).

Lemma insert_desc_perm x l : Py.insert_desc key x l ≡ₚ x :: l.
Proof.
  induction l as [|y l IH]; [done|]. simpl.
  destruct (key x <? key y)%Z; [|done].
  rewrite IH. apply perm_swap.
Qed.

Lemma sorted_desc_perm l : Py.sorted_desc key l ≡ₚ l.
Proof.
  induction l as [|x l IH]; [done|]. simpl.
  by rewrite insert_desc_perm, IH.
Qed.










End sorted_desc.



(* ===================================================================== *)
(** ** Strings *)
(* ===================================================================== *)

Lemma append_cons x a b : String x a +:+ b = String x (a +:+ b).
Proof. reflexivity. Qed.

Lemma append_nil_r a : a +:+ "" = a.
Proof. induction a as [|x a IH]; [done|]. by rewrite append_cons, IH. Qed.

Lemma append_assoc a b c : (a +:+ b) +:+ c = a +:+ (b +:+ c).
Proof. induction a as [|x a IH]; [done|]. by rewrite !append_cons, IH. Qed.

Lemma contains_app c a b : Py.contains c (a +:+ b) = Py.contains c a || Py.contains c b.
Proof.
  induction a as [|x a IH]; [done|]. rewrite append_cons. simpl.
  by rewrite IH, orb_assoc.
Qed.

Lemma split_not_nil c s : Py.split c s ≠ [].
Proof.
  destruct s as [|a s]; [done|]. simpl.
  destruct (Py.ascii_eqb a c); [done|]. by destruct (Py.split c s).
Qed.

Lemma split_without c s : Py.contains c s = false → Py.split c s = [s].
Proof.
  induction s as [|a s IH]; [done|]. simpl.
  intros [Ha Hs]%orb_false_iff. by rewrite Ha, IH.
Qed.

Lemma split_with c s : Py.contains c s = true → 2 ≤ length (Py.split c s).
Proof.
  induction s as [|a s IH]; [done|]. simpl.
  destruct (Py.ascii_eqb a c); simpl.
  - intros _. pose proof (split_not_nil c s). destruct (Py.split c s); [done|simpl; lia].
  - intros Hs. specialize (IH Hs). destruct (Py.split c s); simpl in *; lia.
Qed.

Lemma split_app_without c a b :
  Py.contains c a = false →
  ∃ piece pieces, Py.split c b = piece :: pieces
                  ∧ Py.split c (a +:+ b) = (a +:+ piece) :: pieces.
Proof.
  intros Ha. induction a as [|x a IH].
  - pose proof (split_not_nil c b).
    destruct (Py.split c b) as [|p ps] eqn:Hb; [done|]. exists p, ps.
    split; [done|exact Hb].
  - simpl in Ha. apply orb_false_iff in Ha as [Hx Ha].
    destruct (IH Ha) as (p & ps & Hb & Hab). exists p, ps. split; [done|].
    change (Py.split c (String x (a +:+ b)) = String x (a +:+ p) :: ps).
    cbn [Py.split]. by rewrite Hx, Hab.
Qed.

Lemma split_app_sep c a b :
  Py.contains c a = false →
  Py.split c (a +:+ String c b) = a :: Py.split c b.
Proof.
  intros Ha. destruct (split_app_without c a (String c b) Ha) as (p & ps & Hb & ->).
  simpl in Hb. unfold Py.ascii_eqb in Hb. rewrite bool_decide_eq_true_2 in Hb by done.
  injection Hb as <- <-. by rewrite append_nil_r.
Qed.

(* ===================================================================== *)
(** ** digest.py: the sender's domain *)
(* ===================================================================== *)

Lemma sender_domain_unknown sender :
  Py.contains "@" sender = false → sender_domain sender = Ok "unknown".
Proof. unfold sender_domain. by intros ->. Qed.

(** For a sender of the shape [name <loc@dom> rest] the domain is [dom]. *)
Lemma sender_domain_bracketed name loc dom rest :
  Py.contains "<" name = false →
  Py.contains "<" loc = false → Py.contains ">" loc = false →
  Py.contains "@" loc = false →
  Py.contains "<" dom = false → Py.contains ">" dom = false →
  Py.contains "@" dom = false →
  sender_domain (name +:+ "<" +:+ loc +:+ "@" +:+ dom +:+ ">" +:+ rest) = Ok dom.
Proof.
  intros Hn Hl1 Hl2 Hl3 Hd1 Hd2 Hd3. unfold sender_domain.
  set (sender := name +:+ "<" +:+ loc +:+ "@" +:+ dom +:+ ">" +:+ rest).
  assert (Py.contains "@" sender = true) as ->.
  { unfold sender. rewrite !contains_app. cbn. by rewrite !orb_true_r. }
  assert (Py.contains "<" sender = true) as ->.
  { unfold sender. rewrite !contains_app. cbn. by rewrite !orb_true_r. }
  unfold sender, bracketed. clear sender.
  change ("<" +:+ loc +:+ "@" +:+ dom +:+ ">" +:+ rest)
    with (String "<" (loc +:+ "@" +:+ dom +:+ ">" +:+ rest)).
  rewrite split_app_sep by done.
  assert (Hin : Py.contains "<" (loc +:+ "@" +:+ dom) = false).
  { rewrite !contains_app. cbn. by rewrite Hl1, Hd1. }
  replace (loc +:+ "@" +:+ dom +:+ ">" +:+ rest)
    with ((loc +:+ "@" +:+ dom) +:+ ">" +:+ rest).
  2:{ by rewrite !append_assoc. }
  destruct (split_app_without "<" (loc +:+ "@" +:+ dom) (">" +:+ rest) Hin)
    as (p & ps & Hp & ->).
  cbn [Py.index lookup list_lookup Py.bind].
  change (">" +:+ rest) with (String ">" rest) in Hp. cbn in Hp.
  destruct (Py.split "<" rest) as [|p' ps'] eqn:Hrest; [by apply split_not_nil in Hrest|].
  injection Hp as <- <-.
  rewrite split_app_sep.
  2:{ rewrite !contains_app. cbn. by rewrite Hl2, Hd2. }
  cbn [Py.index lookup list_lookup Py.bind].
  change ("@" +:+ dom) with (String "@" dom).
  rewrite split_app_sep by done. rewrite split_without by done. done.
Qed.

(** For a bare address [loc@dom] the domain is [dom]. *)
Lemma sender_domain_plain loc dom :
  Py.contains "<" loc = false → Py.contains "@" loc = false →
  Py.contains "<" dom = false → Py.contains "@" dom = false →
  sender_domain (loc +:+ "@" +:+ dom) = Ok dom.
Proof.
  intros Hl1 Hl2 Hd1 Hd2. unfold sender_domain.
  assert (Py.contains "@" (loc +:+ "@" +:+ dom) = true) as ->.
  { rewrite !contains_app. cbn. by rewrite !orb_true_r. }
  assert (Py.contains "<" (loc +:+ "@" +:+ dom) = false) as ->.
  { rewrite !contains_app. cbn. by rewrite Hl1, Hd1. }
  cbn [Py.bind]. change ("@" +:+ dom) with (String "@" dom).
  rewrite split_app_sep by done. by rewrite split_without.
Qed.

(** A bracketed part without [@], in a sender that has an [@] elsewhere,
    makes the extraction raise IndexError. *)
Lemma sender_domain_raises sender br :
  Py.contains "@" sender = true → Py.contains "<" sender = true →
  bracketed sender = Ok br → Py.contains "@" br = false →
  sender_domain sender = Raise Py.IndexError.
Proof.
  intros Hat Hlt Hbr Hno. unfold sender_domain. rewrite Hat, Hlt, Hbr. cbn.
  by rewrite (split_without _ _ Hno).
Qed.

Lemma sender_domain_exn sender e : sender_domain sender = Raise e → e = Py.IndexError.
Proof.
  unfold sender_domain, bracketed, Py.index.
  repeat (case_match; simpl; try congruence).
Qed.

(* ===================================================================== *)
(** ** digest.py: grouping by domain *)
(* ===================================================================== *)








Lemma group_loop_total rest groups0 :
  Forall (λ a, ∃ d, domain_of a = Ok d) rest →
  ∃ groups, group_loop rest groups0 = Ok groups.
Proof.
  intros Hrest. revert groups0.
  induction Hrest as [|a rest [d Hd] _ IH]; intros groups0; simpl.
  - by eexists.
  - fold (domain_of a). rewrite Hd. cbn. apply IH.
Qed.

Lemma group_loop_raises rest groups0 a :
  a ∈ rest → domain_of a = Raise Py.IndexError →
  group_loop rest groups0 = Raise Py.IndexError.
Proof.
  intros Ha Hbad. revert groups0.
  induction rest as [|a0 rest IH]; intros groups0; [by apply elem_of_nil in Ha|].
  simpl. fold (domain_of a0).
  destruct (domain_of a0) as [d|e] eqn:Hd; cbn.
  - apply elem_of_cons in Ha as [-> |Ha]; [congruence|]. by apply IH.
  - by rewrite (sender_domain_exn _ _ Hd).
Qed.


(* ===================================================================== *)
(** ** digest.py: assembling the digest *)
(* ===================================================================== *)

Lemma urgent_loop_spec sorted count items :
  length items < 5 →
  urgent_loop sorted count items
  = (count + length (take (5 - length items) (List.filter is_urgent sorted)),
     items ++ map urgent_item (take (5 - length items) (List.filter is_urgent sorted))).
Proof.
  revert count items. induction sorted as [|a rest IH]; intros count items Hlen.
  - simpl. rewrite take_nil. simpl. by rewrite Nat.add_0_r, app_nil_r.
  - cbn [urgent_loop List.filter]. destruct (is_urgent a) eqn:Ha; [|by apply IH].
    rewrite length_app. cbn [length].
    destruct (Nat.leb_spec 5 (length items + 1)) as [Hfull|Hmore].
    + replace (5 - length items) with 1 by lia. done.
    + rewrite IH by (rewrite length_app; simpl; lia).
      rewrite length_app. simpl length.
      replace (5 - length items) with (S (5 - (length items + 1))) by lia.
      simpl. rewrite <- app_assoc. simpl. f_equal. lia.
Qed.

Lemma is_urgent_spec a :
  is_urgent a = true
  ↔ (4 ≤ priority_value (a_priority a))%Z ∨ a_category a = ACTION_REQUIRED.
Proof.
  unfold is_urgent. rewrite orb_true_iff, Z.leb_le, bool_decide_eq_true. done.
Qed.





(** [_prepare_data] returns whenever the senders of the deletable analyses
    are well formed, and then these are the fields of the digest. *)
Lemma prepare_data_Ok today stamp analyses :
  well_formed_senders analyses →
  ∃ data groups,
    _prepare_data today stamp analyses = Ok data
    ∧ group_loop (List.filter is_deletable analyses) [] = Ok groups
    ∧ urgent_items data
      = map urgent_item
          (take 5 (List.filter is_urgent (Py.sorted_desc priority_key analyses)))
    ∧ urgent_count data = length (urgent_items data)
    ∧ delete_count data = length (List.filter is_deletable analyses)
    ∧ delete_groups data = top_groups groups.
Proof.
  intros Hwf. destruct (group_loop_total _ [] Hwf) as [groups Hloop].
  unfold _prepare_data. rewrite Hloop. cbn. eexists. exists groups.
  split; [done|]. split; [done|]. cbn.
  rewrite urgent_loop_spec by (simpl; lia). cbn. by rewrite length_map.
Qed.

Lemma prepare_data_raises today stamp analyses a :
  a ∈ analyses → is_deletable a = true → domain_of a = Raise Py.IndexError →
  _prepare_data today stamp analyses = Raise Py.IndexError.
Proof.
  intros Hin Hdel Hbad. unfold _prepare_data.
  rewrite (group_loop_raises _ [] a); [done| |done].
  apply list_elem_of_In, List.filter_In. by rewrite <- list_elem_of_In.
Qed.









(** Claim C10.  Digest assembly is not total on sender strings: whenever a
    deletable analysis has a sender that contains [@] and [<] while its
    bracketed part contains no [@], preparing the digest raises IndexError
    instead of returning a digest, and such a list of analyses exists; for
    every sender without any [@] the domain is the literal "unknown". *)
Theorem digest_not_total today stamp :
  (∀ analyses a br,
     a ∈ analyses → is_deletable a = true →
     Py.contains "@" (a_sender a) = true → Py.contains "<" (a_sender a) = true →
     bracketed (a_sender a) = Ok br → Py.contains "@" br = false →
     _prepare_data today stamp analyses = Raise Py.IndexError)
  ∧ (∃ analyses a br,
       a ∈ analyses ∧ is_deletable a = true
       ∧ Py.contains "@" (a_sender a) = true ∧ Py.contains "<" (a_sender a) = true
       ∧ bracketed (a_sender a) = Ok br ∧ Py.contains "@" br = false
       ∧ _prepare_data today stamp analyses = Raise Py.IndexError)
  ∧ (∀ sender, Py.contains "@" sender = false → sender_domain sender = Ok "unknown").
Proof.
  assert (Hall : ∀ analyses a br,
     a ∈ analyses → is_deletable a = true →
     Py.contains "@" (a_sender a) = true → Py.contains "<" (a_sender a) = true →
     bracketed (a_sender a) = Ok br → Py.contains "@" br = false →
     _prepare_data today stamp analyses = Raise Py.IndexError).
  { intros analyses a br Hin Hdel Hat Hlt Hbr Hno.
    apply (prepare_data_raises _ _ _ a); [done|done|].
    by apply (sender_domain_raises _ br). }
  split; [exact Hall|]. split; [|apply sender_domain_unknown].
  exists [unbracketed_domain], unbracketed_domain, "noreply".
  split; [by left|]. do 5 (split; [done|]).
  apply (Hall _ unbracketed_domain "noreply"); [by left|done..].
Qed.

(** C10, witness: the sender "sales@shop.example <noreply>" among the
    deletable analyses, and the sender "nobody". *)
Lemma digest_not_total_witness :
  _prepare_data "Monday" "09:00" (nine ++ [unbracketed_domain]) = Raise Py.IndexError
  ∧ Py.contains "@" "nobody" = false
  ∧ sender_domain "nobody" = Ok "unknown".
Proof.
  destruct (digest_not_total "Monday" "09:00") as (Hraise & _ & Hunknown).
  split.
  - apply (Hraise _ unbracketed_domain "noreply"); try reflexivity.
    apply elem_of_app. right. by left.
  - split; [reflexivity|]. apply Hunknown. reflexivity.
Defined.


(* ===================================================================== *)
(** ** clean.py: further properties of listing, delete and archive *)
(* ===================================================================== *)

(** What a successful run of the listing loop returns, from an accumulator
    on which the limit is not reached. *)
Lemma list_loop_Ok q limit acc page listing ids :
  outcome (Clean.list_loop q limit acc page listing) = Ok ids →
  ids `prefix_of` acc ++ concat (served_pages listing)
  ∧ (Clean.limit_reached limit ids = false →
     ids = acc ++ concat (served_pages listing) ∧ never_fails listing = true)
  ∧ (∀ L, limit = Some (S L) → length ids ≤ S L).
Proof.
  revert acc page. induction listing as [|msgs|msgs next IH]; intros acc page;
    cbn [Clean.list_loop]; rewrite outcome_mbind; cbn [outcome snd Mailbox.emit];
    [done| |].
  - cbn [served_pages concat]. rewrite app_nil_r.
    destruct (Clean.limit_reached limit (acc ++ msgs)) eqn:Hr; cbn; intros [= <-].
    + destruct limit as [[|L]|]; try done. unfold Clean.limit_reached in Hr.
      apply Nat.leb_le in Hr.
      cbn [Clean.truncate]. split; [apply prefix_take|]. split.
      * unfold Clean.limit_reached. rewrite length_take. intros H%Nat.leb_gt. lia.
      * intros L' [= <-]. rewrite length_take. lia.
    + split; [done|]. split; [done|]. intros L ->. unfold Clean.limit_reached in Hr.
      apply Nat.leb_gt in Hr. lia.
  - cbn [served_pages concat]. rewrite app_assoc.
    destruct (Clean.limit_reached limit (acc ++ msgs)) eqn:Hr.
    + cbn. intros [= <-].
      destruct limit as [[|L]|]; try done. unfold Clean.limit_reached in Hr.
      apply Nat.leb_le in Hr.
      cbn [Clean.truncate]. split.
      { etrans; [apply prefix_take|]. by apply prefix_app_r. }
      split.
      * unfold Clean.limit_reached. rewrite length_take. intros H%Nat.leb_gt. lia.
      * intros L' [= <-]. rewrite length_take. lia.
    + intros Hout. destruct (IH _ _ Hout) as (Hp & Hfull & Hlen). done.
Qed.

(** The listing keeps the order of the mailbox and honours the limit: the
    identifiers returned are a prefix of the served pages put end to end; under
    a positive limit [L] there are at most [L] of them, and fewer than [L]
    only when the listing is exhausted; without a limit, or with the limit 0,
    they are all the identifiers. *)
Theorem listing_respects_limit service q limit ids :
  outcome (Clean.list_message_ids service q limit) = Ok ids →
  let all := concat (served_pages (Clean.messages_list service q)) in
  ids `prefix_of` all
  ∧ (∀ L, limit = Some L → 0 < L →
          length ids ≤ L
          ∧ (length ids < L →
             ids = all ∧ never_fails (Clean.messages_list service q) = true))
  ∧ (limit = None ∨ limit = Some 0 →
     ids = all ∧ never_fails (Clean.messages_list service q) = true).
Proof.
  intros Hout all. subst all.
  destruct (list_loop_Ok _ _ _ _ _ _ Hout) as (Hp & Hfull & Hlen).
  cbn [app] in Hp, Hfull. split; [done|]. split.
  - intros [|L] -> HL; [lia|]. split; [by apply Hlen|].
    intros Hlt. apply Hfull. unfold Clean.limit_reached. apply Nat.leb_gt. lia.
  - intros [-> | ->]; by apply Hfull.
Qed.

(** Witness: a mailbox with 7 messages listed under the limit 5. *)
Lemma listing_respects_limit_witness :
  outcome (Clean.list_message_ids (sample_service 7 []) "in:inbox" (Some 5))
  = Ok (sample_ids 5)
  ∧ length (sample_ids 5) ≤ 5
  ∧ sample_ids 5
    `prefix_of` concat (served_pages (Clean.messages_list (sample_service 7 []) "in:inbox")).
Proof.
  assert (H : outcome (Clean.list_message_ids (sample_service 7 []) "in:inbox" (Some 5))
              = Ok (sample_ids 5)) by reflexivity.
  split; [exact H|].
  destruct (listing_respects_limit (sample_service 7 []) "in:inbox" (Some 5)
              (sample_ids 5) H) as (Hp & Hl & _).
  split; [apply (Hl 5 eq_refl); lia|exact Hp].
Defined.

(** The whole run of [delete_by_query], given what the listing did. *)
Lemma delete_run service query answer t ids :
  Clean.list_message_ids service query None = (t, Ok ids) →
  let loop := for_each (Clean.delete_batch service ids) 0 (Clean._chunked ids 500) in
  Clean.delete_by_query service query answer
  = if bool_decide (ids = []) then (t ++ [Printed (Deleting (length ids) query)], Ok None)
    else if negb (String.eqb (Py.lower (Py.strip answer)) "yes") then
      (t ++ [Printed (Deleting (length ids) query); Asked Clean.delete_prompt;
             Printed Aborted], Ok None)
    else
      match outcome loop, Clean.labels_list service with
      | Ok _, Some labels =>
          (t ++ [Printed (Deleting (length ids) query); Asked Clean.delete_prompt]
             ++ events loop
             ++ [Remote LabelsList;
                 Printed (Done (fst (Clean.inbox_counts labels))
                            (snd (Clean.inbox_counts labels)))],
           Ok None)
      | Ok _, None =>
          (t ++ [Printed (Deleting (length ids) query); Asked Clean.delete_prompt]
             ++ events loop ++ [Remote LabelsList],
           Raise Py.HttpError)
      | Raise e, _ =>
          (t ++ [Printed (Deleting (length ids) query); Asked Clean.delete_prompt]
             ++ events loop,
           Raise e)
      end.
Proof.
  intros Hlist loop. subst loop. unfold Clean.delete_by_query. rewrite Hlist.
  cbn [mbind Mailbox.emit]. destruct (bool_decide (ids = [])); [done|].
  destruct (negb _); [done|]. cbn [mbind Mailbox.emit].
  unfold Clean.inbox_stats, Clean.labels_execute.
  destruct (for_each _ 0 _) as [tl [[]|e]]; cbn.
  - destruct (Clean.labels_list service); cbn; by rewrite <- ?app_assoc.
  - by destruct (Clean.labels_list service).
Qed.

(** The whole run of [archive_by_query], given what the listing did. *)
Lemma archive_run service query answer t ids :
  Clean.list_message_ids service query None = (t, Ok ids) →
  Clean.archive_by_query service query answer
  = if bool_decide (ids = []) then (t ++ [Printed (Archiving (length ids) query)], Ok None)
    else if negb (String.eqb (Py.lower (Py.strip answer)) "yes") then
      (t ++ [Printed (Archiving (length ids) query); Asked Clean.archive_prompt;
             Printed Aborted], Ok None)
    else
      match Clean.labels_list service with
      | None =>
          (t ++ [Printed (Archiving (length ids) query); Asked Clean.archive_prompt;
                 Remote LabelsList], Raise Py.HttpError)
      | Some labels =>
          let loop :=
            for_each (Clean.archive_batch service (Clean.label_map_of labels !! "INBOX"))
              0 (Clean._chunked ids 500) in
          match outcome loop, Clean.labels_list_again service with
          | Ok _, Some labels' =>
              (t ++ [Printed (Archiving (length ids) query); Asked Clean.archive_prompt;
                     Remote LabelsList]
                 ++ events loop
                 ++ [Remote LabelsList;
                     Printed (Done (fst (Clean.inbox_counts labels'))
                                (snd (Clean.inbox_counts labels')))],
               Ok None)
          | Ok _, None =>
              (t ++ [Printed (Archiving (length ids) query); Asked Clean.archive_prompt;
                     Remote LabelsList]
                 ++ events loop ++ [Remote LabelsList],
               Raise Py.HttpError)
          | Raise e, _ =>
              (t ++ [Printed (Archiving (length ids) query); Asked Clean.archive_prompt;
                     Remote LabelsList]
                 ++ events loop,
               Raise e)
          end
      end.
Proof.
  intros Hlist. unfold Clean.archive_by_query. rewrite Hlist.
  cbn [mbind Mailbox.emit]. destruct (bool_decide (ids = [])); [done|].
  destruct (negb _); [done|]. cbn [mbind Mailbox.emit].
  unfold Clean.get_label_map, Clean.inbox_stats, Clean.labels_execute.
  destruct (Clean.labels_list service) as [labels|]; [|done].
  cbn [Clean.after_labels Clean.labels_list].
  destruct (Clean.labels_list_again service) as [labels'|];
    cbn -[for_each Clean._chunked];
    destruct (for_each _ 0 _) as [tl [[]|e]]; cbn; by rewrite <- ?app_assoc.
Qed.

(** With nothing to delete or archive the user is not even asked: whatever
    the answer would be, the run prints the count and returns. *)
Theorem empty_listing_asks_nothing service query answer t :
  Clean.list_message_ids service query None = (t, Ok []) →
  Clean.delete_by_query service query answer
  = (t ++ [Printed (Deleting 0 query)], Ok None)
  ∧ Clean.archive_by_query service query answer
    = (t ++ [Printed (Archiving 0 query)], Ok None).
Proof.
  intros Hlist.
  by rewrite (delete_run _ _ _ _ _ Hlist), (archive_run _ _ _ _ _ Hlist).
Qed.

(** Witness: an empty mailbox and the answer "yes". *)
Lemma empty_listing_asks_nothing_witness :
  Clean.delete_by_query (sample_service 0 []) "in:inbox" "yes"
  = ([Remote (MessagesList "in:inbox" 0); Printed (Deleting 0 "in:inbox")], Ok None).
Proof.
  exact (proj1 (empty_listing_asks_nothing (sample_service 0 []) "in:inbox" "yes"
                  [Remote (MessagesList "in:inbox" 0)] eq_refl)).
Defined.

Lemma for_each_events_Forall {A} (P : Event → Prop) (body : nat → A → M unit) k l :
  (∀ k x, Forall P (events (body k x))) → Forall P (events (for_each body k l)).
Proof.
  intros Hbody. revert k. induction l as [|x l IH]; intros k; [constructor|].
  destruct (for_each_cons body k x l) as [-> _]. apply Forall_app. split; [done|].
  destruct (outcome (body k x)); [apply IH|constructor].
Qed.

Lemma only_batches_mutations t :
  Forall only_batches t → mutation_calls t = batch_calls t.
Proof.
  induction 1 as [|e t He _ IH]; [done|].
  destruct e as [c|p|l]; [|exact IH..].
  change (mutation_calls (Remote c :: t)) with (List.filter is_mutation (c :: calls t)).
  change (batch_calls (Remote c :: t)) with (List.filter is_batch (c :: calls t)).
  cbn [List.filter]. cbn in He. rewrite He.
  assert (is_mutation c = true) as -> by (by destruct c).
  f_equal. exact IH.
Qed.

Lemma delete_loop_only_batches service ids k l :
  Forall only_batches (events (for_each (Clean.delete_batch service ids) k l)).
Proof.
  apply for_each_events_Forall. intros k' b.
  unfold Clean.delete_batch, Clean.batchDelete, Clean.progress.
  destruct (Clean.batch_ok service k' b); cbn; [|by repeat constructor].
  destruct (last b); cbn; [|by repeat constructor].
  destruct (Clean.index_of _ _); cbn; by repeat constructor.
Qed.

Lemma archive_loop_only_batches service inbox_id k l :
  Forall only_batches (events (for_each (Clean.archive_batch service inbox_id) k l)).
Proof.
  apply for_each_events_Forall. intros k' b.
  unfold Clean.archive_batch, Clean.batchModify.
  destruct (Clean.batch_ok service k' b); cbn; by repeat constructor.
Qed.

(** The label map gives, for a name, the id of the last label so named. *)
Lemma label_map_of_lookup labels name :
  Clean.label_map_of labels !! name
  = label_id <$> last (List.filter (λ l, String.eqb (label_name l) name) labels).
Proof.
  unfold Clean.label_map_of.
  induction labels as [|l labels IH] using rev_ind; [done|].
  rewrite foldl_app, List.filter_app. cbn.
  destruct (String.eqb_spec (label_name l) name) as [<-|Hne].
  - rewrite lookup_insert_eq. by rewrite last_snoc.
  - rewrite lookup_insert_ne by done. by rewrite app_nil_r.
Qed.

(** An archive that is not confirmed changes nothing and asks the mailbox
    for nothing but the listing: no batch call, no label lookup; once the
    identifiers are listed it returns normally. *)
Theorem unconfirmed_archive_sends_nothing service query answer :
  Py.lower (Py.strip answer) ≠ "yes" →
  let run := Clean.archive_by_query service query answer in
  mutation_calls (events run) = []
  ∧ (LabelsList ∉ calls (events run))
  ∧ (∀ ids, outcome (Clean.list_message_ids service query None) = Ok ids →
            outcome run = Ok None
            ∧ (ids ≠ [] → last (events run) = Some (Printed Aborted))).
Proof.
  intros Hno run. subst run.
  destruct (listing_no_batch service query None) as [Hm _].
  pose proof (list_loop_only_lists query None [] 0 (Clean.messages_list service query))
    as Hl. fold (Clean.list_message_ids service query None) in Hl.
  assert (Hnl : ∀ t, Forall (λ e, ∃ p, e = Remote (MessagesList query p)) t →
                     LabelsList ∉ calls t).
  { induction 1 as [|e t [p ->] _ IH]; [apply not_elem_of_nil|].
    cbn. intros [?|?]%elem_of_cons; [done|by apply IH]. }
  destruct (Clean.list_message_ids service query None) as [t [ids|e]] eqn:Hlist.
  - rewrite (archive_run _ _ answer _ _ Hlist), (confirm_no _ Hno).
    cbn [events fst] in Hm, Hl.
    destruct (bool_decide_reflect (ids = [])) as [->|Hne]; cbn [events outcome fst snd].
    + rewrite mutation_calls_app, Hm, calls_app. cbn. rewrite app_nil_r.
      split; [done|]. split; [by apply Hnl|]. by intros ids' [= <-].
    + rewrite mutation_calls_app, Hm, calls_app. cbn. rewrite app_nil_r.
      split; [done|]. split; [by apply Hnl|]. intros ids' [= <-]. split; [done|].
      intros _. by rewrite last_app.
  - unfold Clean.archive_by_query. rewrite Hlist. cbn [mbind events outcome fst snd].
    cbn [events fst] in Hm, Hl. split; [done|]. split; [by apply Hnl|]. done.
Qed.

(** Witness: two messages and the answer "n". *)
Lemma unconfirmed_archive_sends_nothing_witness :
  Py.lower (Py.strip "n") ≠ "yes"
  ∧ mutation_calls (events (Clean.archive_by_query (sample_service 2 []) "in:inbox" "n"))
    = []
  ∧ outcome (Clean.archive_by_query (sample_service 2 []) "in:inbox" "n") = Ok None.
Proof.
  assert (H : Py.lower (Py.strip "n") ≠ "yes") by (vm_compute; discriminate).
  split; [exact H|].
  destruct (unconfirmed_archive_sends_nothing (sample_service 2 []) "in:inbox" "n" H)
    as (Hm & _ & Hout).
  split; [exact Hm|]. apply (Hout (sample_ids 2)). reflexivity.
Defined.

(** A confirmed archive whose batches are all accepted sends, per chunk and
    in order, one [batchModify] that removes the id of the (last) label named
    INBOX in the first label listing and adds no label; when no label is
    named INBOX the call is sent all the same, with no id to remove.  These
    are its only mutations.  It then lists the labels a second time for the
    inbox statistics: with them it prints the totals and returns; when that
    second listing fails the run ends with the HttpError although every
    message has been archived. *)
Theorem confirmed_archive_removes_inbox service query answer ids labels :
  outcome (Clean.list_message_ids service query None) = Ok ids →
  ids ≠ [] →
  Py.lower (Py.strip answer) = "yes" →
  Clean.labels_list service = Some labels →
  (∀ k c, Clean._chunked ids 500 !! k = Some c → Clean.batch_ok service k c = true) →
  let run := Clean.archive_by_query service query answer in
  let inbox_id :=
    label_id <$> last (List.filter (λ l, String.eqb (label_name l) "INBOX") labels) in
  mutation_calls (events run)
  = map (λ b, BatchModify b [inbox_id] []) (Clean._chunked ids 500)
  ∧ (∀ labels', Clean.labels_list_again service = Some labels' →
       outcome run = Ok None
       ∧ last (events run)
         = Some (Printed (Done (fst (Clean.inbox_counts labels'))
                            (snd (Clean.inbox_counts labels')))))
  ∧ (Clean.labels_list_again service = None → outcome run = Raise Py.HttpError).
Proof.
  intros Hids Hne Hyes Hlabels Hok run inbox_id. subst run inbox_id.
  rewrite <- label_map_of_lookup.
  destruct (listing_no_batch service query None) as [Hm _].
  destruct (Clean.list_message_ids service query None) as [t r] eqn:Hlist.
  cbn [events outcome fst snd] in Hids, Hm. subst r.
  rewrite (archive_run _ _ answer _ _ Hlist), (confirm_yes _ Hyes), Hlabels.
  rewrite bool_decide_eq_false_2 by done. cbn [negb].
  destruct (for_each_all_ok
              (Clean.archive_batch service (Clean.label_map_of labels !! "INBOX"))
              (λ b, BatchModify b [Clean.label_map_of labels !! "INBOX"] [])
              (Clean.batch_ok service) (Clean._chunked ids 500) 0) as [Ho Hc];
    [|done|].
  { apply Forall_forall. intros b _. apply archive_batch_sends. }
  cbv zeta. rewrite Ho.
  pose proof (only_batches_mutations _ (archive_loop_only_batches service
                (Clean.label_map_of labels !! "INBOX") 0 (Clean._chunked ids 500)))
    as Hmb. rewrite Hc in Hmb.
  destruct (Clean.labels_list_again service) as [labels'|];
    cbn [events outcome fst snd].
  - rewrite !mutation_calls_app, Hm, Hmb. split; [cbn; by rewrite app_nil_r|].
    split; [|done]. intros labels'' [= <-]. split; [done|].
    by rewrite !last_app.
  - rewrite !mutation_calls_app, Hm, Hmb. split; [cbn; by rewrite app_nil_r|].
    split; [done|done].
Qed.

(** Witness: 501 messages and a mailbox whose only label is INBOX and whose
    label listing answers once and then fails. *)
Lemma confirmed_archive_removes_inbox_witness :
  mutation_calls
    (events (Clean.archive_by_query (Samples.labels_once 501) "in:inbox" "yes"))
  = [BatchModify (sample_ids 500) [Some "Label_1"] [];
     BatchModify ["m500"] [Some "Label_1"] []]
  ∧ outcome (Clean.archive_by_query (Samples.labels_once 501) "in:inbox" "yes")
    = Raise Py.HttpError.
Proof.
  destruct (confirmed_archive_removes_inbox (Samples.labels_once 501) "in:inbox" "yes"
              (sample_ids 501) (Samples.inbox_only 501)) as (Hm & _ & Hfail);
    try reflexivity.
  - discriminate.
  - split; [|by apply Hfail]. rewrite Hm. by vm_compute.
Defined.

(** When the labels cannot be listed, a confirmed archive stops before the
    first batch: nothing is archived and the HttpError reaches the caller. *)
Theorem archive_needs_labels service query answer ids :
  outcome (Clean.list_message_ids service query None) = Ok ids →
  ids ≠ [] →
  Py.lower (Py.strip answer) = "yes" →
  Clean.labels_list service = None →
  outcome (Clean.archive_by_query service query answer) = Raise Py.HttpError
  ∧ mutation_calls (events (Clean.archive_by_query service query answer)) = [].
Proof.
  intros Hids Hne Hyes Hlabels.
  destruct (listing_no_batch service query None) as [Hm _].
  destruct (Clean.list_message_ids service query None) as [t r] eqn:Hlist.
  cbn [events outcome fst snd] in Hids, Hm. subst r.
  rewrite (archive_run _ _ answer _ _ Hlist), (confirm_yes _ Hyes), Hlabels.
  rewrite bool_decide_eq_false_2 by done. cbn [negb events outcome fst snd].
  split; [done|]. by rewrite mutation_calls_app, Hm.
Qed.

(** Witness: two messages, labels unavailable. *)
Lemma archive_needs_labels_witness :
  outcome (Clean.archive_by_query (Samples.labelled_service 2 true) "in:inbox" "yes")
  = Raise Py.HttpError
  ∧ mutation_calls
      (events (Clean.archive_by_query (Samples.labelled_service 2 true) "in:inbox" "yes"))
    = [].
Proof.
  apply (archive_needs_labels (Samples.labelled_service 2 true) "in:inbox" "yes"
           (sample_ids 2)); try reflexivity.
  discriminate.
Defined.

(** A confirmed delete whose batches are all accepted deletes every chunk,
    in order, and nothing else.  It then asks for the inbox statistics: with
    them it prints the totals and returns; when that last call fails the run
    ends with the HttpError although every message has been deleted. *)
Theorem delete_then_stats service query answer ids :
  outcome (Clean.list_message_ids service query None) = Ok ids →
  ids ≠ [] →
  Py.lower (Py.strip answer) = "yes" →
  (∀ k c, Clean._chunked ids 500 !! k = Some c → Clean.batch_ok service k c = true) →
  let run := Clean.delete_by_query service query answer in
  mutation_calls (events run) = map BatchDelete (Clean._chunked ids 500)
  ∧ (∀ labels, Clean.labels_list service = Some labels →
       outcome run = Ok None
       ∧ last (events run)
         = Some (Printed (Done (fst (Clean.inbox_counts labels))
                            (snd (Clean.inbox_counts labels)))))
  ∧ (Clean.labels_list service = None → outcome run = Raise Py.HttpError).
Proof.
  intros Hids Hne Hyes Hok run. subst run.
  destruct (listing_no_batch service query None) as [Hm _].
  destruct (Clean.list_message_ids service query None) as [t r] eqn:Hlist.
  cbn [events outcome fst snd] in Hids, Hm. subst r.
  rewrite (delete_run _ _ answer _ _ Hlist), (confirm_yes _ Hyes).
  rewrite bool_decide_eq_false_2 by done. cbn [negb].
  destruct (for_each_all_ok (Clean.delete_batch service ids) BatchDelete
              (Clean.batch_ok service) (Clean._chunked ids 500) 0
              (chunked_delete_sends service ids) Hok) as [Ho Hc].
  cbv zeta. rewrite Ho.
  pose proof (only_batches_mutations _ (delete_loop_only_batches service ids 0
                (Clean._chunked ids 500))) as Hmb. rewrite Hc in Hmb.
  destruct (Clean.labels_list service) as [labels|]; cbn [events outcome fst snd].
  - rewrite !mutation_calls_app, Hm, Hmb. split; [by rewrite app_nil_r|].
    split; [|done]. intros labels' [= <-]. split; [done|].
    by rewrite !last_app.
  - rewrite !mutation_calls_app, Hm, Hmb. split; [by rewrite app_nil_r|].
    split; [done|done].
Qed.

(** Witness: 501 messages deleted, then the statistics fail. *)
Lemma delete_then_stats_witness :
  mutation_calls
    (events (Clean.delete_by_query (Samples.labelled_service 501 true) "in:inbox" "yes"))
  = [BatchDelete (sample_ids 500); BatchDelete ["m500"]]
  ∧ outcome (Clean.delete_by_query (Samples.labelled_service 501 true) "in:inbox" "yes")
    = Raise Py.HttpError.
Proof.
  destruct (delete_then_stats (Samples.labelled_service 501 true) "in:inbox" "yes"
              (sample_ids 501)) as (Hm & _ & Hfail); try reflexivity.
  - discriminate.
  - split; [|by apply Hfail]. rewrite Hm. by vm_compute.
Defined.

(** [ids.index(x)] is the first position of [x]. *)
Lemma index_of_first ids j x :
  ids !! j = Some x →
  ∃ i, Clean.index_of x ids = Some i ∧ i ≤ j ∧ ids !! i = Some x
       ∧ (NoDup ids → i = j).
Proof.
  revert j. induction ids as [|y ids IH]; intros j Hj; [done|].
  cbn [Clean.index_of]. destruct (String.eqb_spec y x) as [->|Hne].
  - exists 0. split; [done|]. split; [lia|]. split; [done|].
    intros [Hx _]%NoDup_cons. destruct j as [|j]; [done|].
    exfalso. apply Hx. by eapply list_elem_of_lookup_2.
  - destruct j as [|j]; [by injection Hj|]. cbn in Hj.
    destruct (IH j Hj) as (i & -> & Hle & Hi & Hnd). exists (S i).
    split; [done|]. split; [lia|]. split; [done|].
    intros [_ Hnd']%NoDup_cons. by rewrite (Hnd Hnd').
Qed.

(** The progress figure printed after chunk [k] never exceeds the number of
    identifiers sent so far, and with distinct identifiers it is exactly that
    number, which after the last chunk is the total. *)
Theorem progress_counts_deleted ids k b :
  Clean._chunked ids 500 !! k = Some b →
  ∃ p, Clean.progress ids b = ret p
       ∧ 1 ≤ p ≤ k * 500 + length b
       ∧ k * 500 + length b ≤ length ids
       ∧ (NoDup ids →
          p = k * 500 + length b
          ∧ (S k = length (Clean._chunked ids 500) → p = length ids)).
Proof.
  intros Hk. pose proof (lookup_lt_Some _ _ _ Hk) as Hlt.
  rewrite chunked_lookup in Hk by done. injection Hk as <-.
  set (b := take 500 (drop (k * 500) ids)).
  assert (Hb : length b = min 500 (length ids - k * 500)).
  { unfold b. by rewrite length_take, length_drop. }
  assert (Hpos : k * 500 < length ids).
  { rewrite chunked_length in Hlt.
    assert (500 * ((length ids + (500 - 1)) / 500) ≤ length ids + (500 - 1))
      by apply Nat.Div0.mul_div_le. lia. }
  assert (Hlast : last b = ids !! (k * 500 + length b - 1)).
  { rewrite last_lookup. unfold b at 2. rewrite lookup_take_lt by lia.
    rewrite lookup_drop. f_equal. lia. }
  destruct (ids !! (k * 500 + length b - 1)) as [x|] eqn:Hx.
  2:{ apply lookup_ge_None in Hx. lia. }
  destruct (index_of_first _ _ _ Hx) as (i & Hi & Hle & _ & Hnd).
  exists (min (length ids) (i + 1)).
  unfold Clean.progress. rewrite Hlast, Hi.
  split; [done|]. split; [lia|]. split; [lia|].
  intros Hnodup. rewrite (Hnd Hnodup). split; [lia|].
  intros Hfinal. rewrite chunked_length in Hfinal.
  assert (length ids + (500 - 1) < 500 * S ((length ids + (500 - 1)) / 500)).
  { apply Nat.mul_succ_div_gt. lia. }
  lia.
Qed.

(** Witness: the second and last chunk of 501 distinct identifiers. *)
Lemma progress_counts_deleted_witness :
  Clean._chunked (sample_ids 501) 500 !! 1 = Some ["m500"]
  ∧ Clean.progress (sample_ids 501) ["m500"] = ret 501.
Proof.
  assert (H : Clean._chunked (sample_ids 501) 500 !! 1 = Some ["m500"]) by reflexivity.
  split; [exact H|].
  destruct (progress_counts_deleted (sample_ids 501) 1 ["m500"] H)
    as (p & -> & _ & _ & Hnd).
  f_equal. f_equal. apply Hnd; [|reflexivity].
  unfold sample_ids. apply NoDup_fmap_2; [|apply NoDup_seq].
  intros i j Hij%(inj (String.append "m")). by apply (inj pretty) in Hij.
Defined.


(* ===================================================================== *)
(** ** Fetching message by message *)
(* ===================================================================== *)

Lemma calls_fetch_trace get_answer ids :
  calls (fetch_trace get_answer ids) = map MessagesGet ids.
Proof.
  unfold fetch_trace. induction ids as [|mid ids IH]; [done|].
  cbn [map concat]. rewrite calls_app, IH. by destruct (get_answer mid).
Qed.

Lemma fetch_trace_app get_answer ids ids' :
  fetch_trace get_answer (ids ++ ids')
  = fetch_trace get_answer ids ++ fetch_trace get_answer ids'.
Proof. unfold fetch_trace. by rewrite map_app, concat_app. Qed.

Lemma get_each_run get_answer chunk items :
  CleanTools.get_each get_answer chunk items
  = (fetch_trace get_answer chunk, Ok (items ++ fetchable get_answer chunk)).
Proof.
  revert items. induction chunk as [|mid chunk IH]; intros items.
  - cbn. by rewrite app_nil_r.
  - cbn [CleanTools.get_each].
    change (fetch_trace get_answer (mid :: chunk))
      with ((Remote (MessagesGet mid)
             :: match get_answer mid with
                | Some _ => []
                | None => [Printed (FailedToFetch mid)]
                end) ++ fetch_trace get_answer chunk).
    change (fetchable get_answer (mid :: chunk))
      with (match get_answer mid with
            | Some msg => msg :: fetchable get_answer chunk
            | None => fetchable get_answer chunk
            end).
    destruct (get_answer mid) as [msg|]; cbn -[CleanTools.get_each];
      rewrite IH; cbn; [by rewrite <- app_assoc|done].
Qed.

Lemma length_fetchable get_answer ids :
  length (fetchable get_answer ids) ≤ length ids.
Proof.
  unfold fetchable. induction ids as [|mid ids IH]; [done|].
  cbn. destruct (get_answer mid); cbn; lia.
Qed.

Lemma get_chunks_run get_answer chunks items :
  CleanTools.get_chunks get_answer chunks items
  = (fetch_trace get_answer (concat chunks),
     Ok (items ++ fetchable get_answer (concat chunks))).
Proof.
  revert items. induction chunks as [|chunk chunks IH]; intros items.
  - cbn. by rewrite app_nil_r.
  - cbn [CleanTools.get_chunks concat]. rewrite get_each_run. cbn -[CleanTools.get_chunks].
    rewrite IH. unfold fetchable. rewrite fetch_trace_app, omap_app. cbn.
    by rewrite app_assoc.
Qed.

(** [batch_get] asks for every identifier once, in order, and returns the
    messages that could be fetched, in order; an identifier whose fetch fails
    is reported and left out, and the call itself never fails.  The chunks of
    100 have no effect on the result. *)
Theorem batch_get_skips_failures get_answer ids :
  CleanTools.batch_get get_answer ids
  = (fetch_trace get_answer ids, Ok (fetchable get_answer ids))
  ∧ calls (fetch_trace get_answer ids) = map MessagesGet ids
  ∧ length (fetchable get_answer ids) ≤ length ids
  ∧ (∀ msg, msg ∈ fetchable get_answer ids
            ↔ ∃ mid, mid ∈ ids ∧ get_answer mid = Some msg).
Proof.
  split; [|split; [apply calls_fetch_trace|split]].
  - unfold CleanTools.batch_get. rewrite get_chunks_run.
    change (map _ (Py.range 0 (length ids) 100)) with (Clean._chunked ids 100).
    rewrite chunked_concat by lia. done.
  - apply length_fetchable.
  - intros msg. unfold fetchable. apply list_elem_of_omap.
Qed.

(** [batch_get], witness: of three identifiers the second cannot be fetched. *)
Lemma batch_get_skips_failures_witness :
  CleanTools.batch_get
    (λ mid, if String.eqb mid "m1" then None else Some sample_message) (sample_ids 3)
  = ([Remote (MessagesGet "m0"); Remote (MessagesGet "m1");
      Printed (FailedToFetch "m1"); Remote (MessagesGet "m2")],
     Ok [sample_message; sample_message]).
Proof.
  exact (proj1 (batch_get_skips_failures
                  (λ mid, if String.eqb mid "m1" then None else Some sample_message)
                  (sample_ids 3))).
Defined.

(* ===================================================================== *)
(** ** Reading headers *)
(* ===================================================================== *)

Lemma header_head hs name :
  CleanTools.header hs name = head (values_named (Py.lower name) hs).
Proof.
  unfold CleanTools.header, values_named.
  induction hs as [|h hs IH]; [done|]. cbn.
  destruct (String.eqb _ _); [done|exact IH].
Qed.

Lemma get_headers_fold hs (headers : gmap string string) name :
  foldl (λ headers h, <[Py.lower (fst h) := snd h]> headers) headers hs !! name
  = match last (values_named name hs) with
    | Some v => Some v
    | None => headers !! name
    end.
Proof.
  unfold values_named.
  induction hs as [|h hs IH] using rev_ind; [done|].
  rewrite foldl_app, List.filter_app, map_app. cbn.
  destruct (String.eqb_spec (Py.lower (fst h)) name) as [<-|Hne].
  - rewrite lookup_insert_eq. cbn. by rewrite last_snoc.
  - rewrite lookup_insert_ne by done. cbn. by rewrite app_nil_r.
Qed.

(** The two header readers disagree on repeated headers: [header] of
    [clean.py] returns the value of the first header with the name,
    [get_headers] of [gmail.py] keeps the value of the last one; case is
    ignored by both.  They agree when the name occurs at most once. *)
Theorem header_first_get_headers_last message name :
  let values := values_named (Py.lower name) (Gmail.m_headers message) in
  CleanTools.header (Gmail.m_headers message) name = head values
  ∧ Gmail.get_headers message !! Py.lower name = last values
  ∧ (length values ≤ 1 →
     Gmail.get_headers message !! Py.lower name
     = CleanTools.header (Gmail.m_headers message) name).
Proof.
  intros values. subst values.
  assert (Hlast : Gmail.get_headers message !! Py.lower name
                  = last (values_named (Py.lower name) (Gmail.m_headers message))).
  { unfold Gmail.get_headers. rewrite get_headers_fold.
    by destruct (last _). }
  split; [apply header_head|]. split; [exact Hlast|].
  intros Hlen. rewrite Hlast, header_head.
  destruct (values_named _ _) as [|v [|v' vs]]; [done|done|cbn in Hlen; lia].
Qed.

Lemma header_first_get_headers_last_witness :
  Gmail.get_headers sample_message !! Py.lower "From"
  = CleanTools.header (Gmail.m_headers sample_message) "From".
Proof.
  refine (proj2 (proj2 (header_first_get_headers_last sample_message "From")) _).
  vm_compute. lia.
Defined.

(* ===================================================================== *)
(** ** The domain of a From header *)
(* ===================================================================== *)

Lemma all_chars_take_while p s : all_chars p (Text.take_while p s) = true.
Proof.
  induction s as [|a s IH]; [done|]. cbn. destruct (p a) eqn:Hp; [|done].
  cbn. by rewrite Hp.
Qed.

Lemma take_while_all p s : all_chars p s = true → Text.take_while p s = s.
Proof.
  induction s as [|a s IH]; [done|]. cbn. intros [-> Hs]%andb_true_iff.
  by rewrite IH.
Qed.

Lemma take_while_stop p a c b :
  all_chars p a = true → p c = false →
  Text.take_while p (a +:+ String c b) = a
  ∧ Text.drop_while p (a +:+ String c b) = String c b.
Proof.
  intros Ha Hc. induction a as [|x a IH].
  - change ("" +:+ String c b) with (String c b). cbn. by rewrite Hc.
  - cbn in Ha. apply andb_true_iff in Ha as [Hx Ha]. rewrite append_cons. cbn.
    rewrite Hx. destruct (IH Ha) as [-> ->]. done.
Qed.

Lemma contains_all_chars c s :
  Py.contains c s = false → all_chars (λ x, negb (Py.ascii_eqb x c)) s = true.
Proof.
  induction s as [|a s IH]; [done|]. cbn. intros [-> Hs]%orb_false_iff.
  by rewrite IH.
Qed.

Lemma domain_chars_exclude c s :
  CleanTools.is_domain_char c = false →
  all_chars CleanTools.is_domain_char s = true → Py.contains c s = false.
Proof.
  intros Hc. induction s as [|a s IH]; [done|]. cbn.
  intros [Ha Hs]%andb_true_iff. rewrite IH by done.
  unfold Py.ascii_eqb. rewrite bool_decide_eq_false_2; [done|]. congruence.
Qed.

Lemma search_bracket_skip a s :
  Py.contains "<" a = false →
  CleanTools.search_bracket (a +:+ s) = CleanTools.search_bracket s.
Proof.
  induction a as [|x a IH]; [done|]. cbn [Py.contains].
  intros [Hx Ha]%orb_false_iff. rewrite append_cons. cbn [CleanTools.search_bracket].
  rewrite Hx. by apply IH.
Qed.

Lemma search_bracket_none s :
  Py.contains "<" s = false → CleanTools.search_bracket s = None.
Proof.
  intros H. rewrite <- (append_nil_r s). by rewrite search_bracket_skip.
Qed.

Lemma search_domain_skip a s :
  Py.contains "@" a = false →
  CleanTools.search_domain (a +:+ s) = CleanTools.search_domain s.
Proof.
  induction a as [|x a IH]; [done|]. cbn [Py.contains].
  intros [Hx Ha]%orb_false_iff. rewrite append_cons. cbn [CleanTools.search_domain].
  rewrite Hx. by apply IH.
Qed.

Lemma search_domain_Some s r :
  CleanTools.search_domain s = Some r →
  r ≠ "" ∧ all_chars CleanTools.is_domain_char r = true.
Proof.
  induction s as [|a s IH]; [done|]. cbn [CleanTools.search_domain].
  destruct (Py.ascii_eqb a "@"); [|exact IH].
  destruct (Text.take_while _ s) as [|x run] eqn:Hrun; [exact IH|].
  intros [= <-]. split; [done|]. rewrite <- Hrun. apply all_chars_take_while.
Qed.

Lemma lower_domain_char a :
  CleanTools.is_domain_char a = true → is_lower_domain_char (Py.lower_char a) = true.
Proof. destruct a as [[] [] [] [] [] [] [] []]; vm_compute; done. Qed.

Lemma lower_domain_chars s :
  all_chars CleanTools.is_domain_char s = true →
  all_chars is_lower_domain_char (Py.lower s) = true.
Proof.
  induction s as [|a s IH]; [done|]. cbn. intros [Ha Hs]%andb_true_iff.
  by rewrite lower_domain_char, IH.
Qed.

(** Whatever the header, a domain returned by [domain_from_from_header] is
    not empty and consists of lower-case letters, digits, dots and hyphens. *)
Theorem domain_is_lowercase_host val d :
  CleanTools.domain_from_from_header val = Some d →
  d ≠ "" ∧ all_chars is_lower_domain_char d = true.
Proof.
  unfold CleanTools.domain_from_from_header.
  destruct val as [[|a v]|]; [done| |done].
  destruct (CleanTools.search_domain _) as [r|] eqn:Hr; [|done].
  intros [= <-]. apply search_domain_Some in Hr as [Hne Hall].
  split; [by destruct r|]. by apply lower_domain_chars.
Qed.

Lemma domain_is_lowercase_host_witness :
  "shop.example" ≠ "" ∧ all_chars is_lower_domain_char "shop.example" = true.
Proof.
  apply (domain_is_lowercase_host (Some "Shop <News@Shop.Example>")). reflexivity.
Defined.

(** On a sender of the shape [name <loc@dom> rest], and on a bare address
    [loc@dom], [clean.py] and [digest.py] extract the same domain, up to
    case: [clean.py] lowers it, [digest.py] keeps it as written. *)
Theorem sender_domains_agree name loc dom rest :
  Py.contains "<" name = false →
  Py.contains "<" loc = false → Py.contains ">" loc = false →
  Py.contains "@" loc = false →
  dom ≠ "" → all_chars CleanTools.is_domain_char dom = true →
  (CleanTools.domain_from_from_header
     (Some (name +:+ "<" +:+ loc +:+ "@" +:+ dom +:+ ">" +:+ rest))
   = Some (Py.lower dom)
   ∧ Digest.sender_domain (name +:+ "<" +:+ loc +:+ "@" +:+ dom +:+ ">" +:+ rest)
     = Ok dom)
  ∧ (CleanTools.domain_from_from_header (Some (loc +:+ "@" +:+ dom))
     = Some (Py.lower dom)
     ∧ Digest.sender_domain (loc +:+ "@" +:+ dom) = Ok dom).
Proof.
  intros Hn Hl1 Hl2 Hl3 Hne Hdom.
  pose proof (domain_chars_exclude "<" dom eq_refl Hdom) as Hd1.
  pose proof (domain_chars_exclude ">" dom eq_refl Hdom) as Hd2.
  pose proof (domain_chars_exclude "@" dom eq_refl Hdom) as Hd3.
  assert (Hfind : CleanTools.search_domain (loc +:+ "@" +:+ dom) = Some dom).
  { rewrite search_domain_skip by done.
    change ("@" +:+ dom) with (String "@" dom). cbn [CleanTools.search_domain].
    unfold Py.ascii_eqb at 1. rewrite bool_decide_eq_true_2 by done.
    rewrite take_while_all by done. by destruct dom. }
  assert (Hnonempty : ∀ s, ∃ x s', loc +:+ "@" +:+ s = String x s').
  { intros s. destruct loc; cbn; eauto. }
  split; split.
  - unfold CleanTools.domain_from_from_header.
    destruct (Hnonempty (dom +:+ ">" +:+ rest)) as (x & s' & Hs).
    assert (Hb : CleanTools.search_bracket
                   (name +:+ "<" +:+ loc +:+ "@" +:+ dom +:+ ">" +:+ rest)
                 = Some (loc +:+ "@" +:+ dom)).
    { rewrite search_bracket_skip by done.
      change ("<" +:+ loc +:+ "@" +:+ dom +:+ ">" +:+ rest)
        with (String "<" (loc +:+ "@" +:+ dom +:+ ">" +:+ rest)).
      cbn [CleanTools.search_bracket].
      unfold Py.ascii_eqb at 1. rewrite bool_decide_eq_true_2 by done.
      replace (loc +:+ "@" +:+ dom +:+ ">" +:+ rest)
        with ((loc +:+ "@" +:+ dom) +:+ String ">" rest).
      2:{ by rewrite !append_assoc. }
      destruct (take_while_stop (λ c, negb (Py.ascii_eqb c ">"))
                  (loc +:+ "@" +:+ dom) ">" rest) as [-> ->]; [|done|].
      - apply contains_all_chars. rewrite !contains_app. cbn. by rewrite Hl2, Hd2.
      - destruct (Hnonempty dom) as (y & t & ->). done. }
    rewrite Hb.
    destruct (name +:+ _) eqn:Hs'.
    + destruct name; discriminate Hs'.
    + cbn [default id]. by rewrite Hfind.
  - by apply sender_domain_bracketed.
  - unfold CleanTools.domain_from_from_header.
    destruct (Hnonempty dom) as (y & t & Hs). rewrite Hs, <- Hs.
    rewrite search_bracket_none.
    2:{ rewrite !contains_app. cbn. by rewrite Hl1, Hd1. }
    cbn [default id]. by rewrite Hfind.
  - by apply sender_domain_plain.
Qed.

Lemma sender_domains_agree_witness :
  CleanTools.domain_from_from_header (Some "Shop <news@Shop.Example>")
  = Some "shop.example"
  ∧ Digest.sender_domain "Shop <news@Shop.Example>" = Ok "Shop.Example".
Proof.
  refine (proj1 (sender_domains_agree "Shop " "news" "Shop.Example" ""
                   _ _ _ _ _ _)); try reflexivity.
  discriminate.
Defined.

(* ===================================================================== *)
(** ** gmail.py: what [get_emails] does *)
(* ===================================================================== *)

Lemma fetchable_cons get_answer mid ids :
  fetchable get_answer (mid :: ids)
  = match get_answer mid with
    | Some msg => msg :: fetchable get_answer ids
    | None => fetchable get_answer ids
    end.
Proof. reflexivity. Qed.

Lemma fetch_trace_cons get_answer mid ids :
  fetch_trace get_answer (mid :: ids)
  = (Remote (MessagesGet mid)
     :: match get_answer mid with
        | Some _ => []
        | None => [Printed (FailedToFetch mid)]
        end) ++ fetch_trace get_answer ids.
Proof. reflexivity. Qed.

Lemma fetch_loop_run self ids full_messages :
  Gmail.fetch_loop self ids full_messages
  = (fetch_trace (Gmail.get_answer (Gmail.service self)) ids,
     Ok (full_messages ++ fetchable (Gmail.get_answer (Gmail.service self)) ids)).
Proof.
  revert full_messages. induction ids as [|mid ids IH]; intros full_messages.
  - cbn. by rewrite app_nil_r.
  - cbn [Gmail.fetch_loop]. rewrite fetchable_cons, fetch_trace_cons.
    unfold Gmail.get_execute.
    destruct (Gmail.get_answer (Gmail.service self) mid) as [msg|];
      cbn -[Gmail.fetch_loop]; rewrite IH; cbn; by rewrite <- ?app_assoc.
Qed.

Lemma mutation_calls_fetch_trace get_answer ids :
  mutation_calls (fetch_trace get_answer ids) = [].
Proof.
  unfold mutation_calls. rewrite calls_fetch_trace.
  induction ids as [|mid ids IH]; [done|exact IH].
Qed.

(** The cache either offers a non-empty list or nothing. *)
Lemma cache_offer md5 self now query max_results use_cache :
  (∃ emails,
     use_cache = true
     ∧ Gmail._get_cached_emails self now (Gmail._get_cache_key md5 query max_results)
       = Some emails
     ∧ emails ≠ [])
  ∨ (∀ emails,
       use_cache = true →
       Gmail._get_cached_emails self now (Gmail._get_cache_key md5 query max_results)
       = Some emails → emails = []).
Proof.
  destruct use_cache; [|by right].
  destruct (Gmail._get_cached_emails _ _ _) as [[|e es]|] eqn:Hc.
  - right. by intros emails _ [= <-].
  - left. by exists (e :: es).
  - by right.
Qed.

(** The run of [get_emails] when the cache has nothing to offer. *)
Lemma get_emails_miss md5 self now written_at query max_results use_cache :
  (∀ emails,
     use_cache = true →
     Gmail._get_cached_emails self now (Gmail._get_cache_key md5 query max_results)
     = Some emails → emails = []) →
  Gmail.get_emails md5 self now written_at query max_results use_cache
  = match Gmail.list_answer (Gmail.service self) query max_results with
    | None => ([Remote (MessagesList query 0); Printed GmailApiError], Ok ([], self))
    | Some [] => ([Remote (MessagesList query 0)], Ok ([], self))
    | Some ids =>
        (Remote (MessagesList query 0)
         :: fetch_trace (Gmail.get_answer (Gmail.service self)) ids,
         Ok (fetchable (Gmail.get_answer (Gmail.service self)) ids,
             if use_cache
             then Gmail._cache_emails self written_at
                    (Gmail._get_cache_key md5 query max_results)
                    (fetchable (Gmail.get_answer (Gmail.service self)) ids)
             else self))
    end.
Proof.
  intros Hmiss. unfold Gmail.get_emails.
  assert (Hrun :
    try_http
      (let* messages := Gmail.list_execute self query max_results in
       if bool_decide (messages = []) then ret ([], self) else
       let* full_messages := Gmail.fetch_loop self messages [] in
       let self' :=
         if use_cache
         then Gmail._cache_emails self written_at
                (Gmail._get_cache_key md5 query max_results) full_messages
         else self in
       ret (full_messages, self'))
      (let* _ := emit (Printed GmailApiError) in ret ([], self))
    = match Gmail.list_answer (Gmail.service self) query max_results with
      | None => ([Remote (MessagesList query 0); Printed GmailApiError], Ok ([], self))
      | Some [] => ([Remote (MessagesList query 0)], Ok ([], self))
      | Some ids =>
        (Remote (MessagesList query 0)
         :: fetch_trace (Gmail.get_answer (Gmail.service self)) ids,
         Ok (fetchable (Gmail.get_answer (Gmail.service self)) ids,
             if use_cache
             then Gmail._cache_emails self written_at
                    (Gmail._get_cache_key md5 query max_results)
                    (fetchable (Gmail.get_answer (Gmail.service self)) ids)
             else self))
      end).
  { unfold Gmail.list_execute.
    destruct (Gmail.list_answer _ _ _) as [[|mid ids]|]; [done| |done].
    cbn -[Gmail.fetch_loop fetch_trace fetchable]. rewrite fetch_loop_run.
    cbn -[fetch_trace fetchable]. by rewrite app_nil_r. }
  destruct use_cache.
  - destruct (Gmail._get_cached_emails _ _ _) as [[|e es]|] eqn:Hc;
      [exact Hrun| |exact Hrun].
    by specialize (Hmiss _ eq_refl eq_refl).
  - exact Hrun.
Qed.

(** The run of [get_emails] on a fresh, non-empty cache entry. *)
Lemma get_emails_hit md5 self now written_at query max_results emails :
  Gmail._get_cached_emails self now (Gmail._get_cache_key md5 query max_results)
  = Some emails →
  emails ≠ [] →
  Gmail.get_emails md5 self now written_at query max_results true
  = ([Printed UsingCachedEmails], Ok (emails, self)).
Proof.
  intros Hc Hne. unfold Gmail.get_emails. rewrite Hc. by destruct emails.
Qed.

Lemma get_emails_total md5 self now written_at query max_results use_cache :
  ∃ t emails self',
    Gmail.get_emails md5 self now written_at query max_results use_cache
    = (t, Ok (emails, self'))
    ∧ mutation_calls t = []
    ∧ Gmail.service self' = Gmail.service self
    ∧ Gmail.cache_ttl self' = Gmail.cache_ttl self
    ∧ (use_cache = false → self' = self)
    ∧ (calls t = [] ∧ use_cache = true
       ∨ calls t
         = MessagesList query 0
           :: map MessagesGet
                (default [] (Gmail.list_answer (Gmail.service self) query max_results))).
Proof.
  destruct (cache_offer md5 self now query max_results use_cache)
    as [(emails & -> & Hc & Hne)|Hmiss].
  - rewrite (get_emails_hit _ _ _ _ _ _ emails) by done.
    eexists _, emails, self. do 5 (split; [done|]). by left.
  - rewrite get_emails_miss by done.
    destruct (Gmail.list_answer _ _ _) as [[|mid ids]|].
    + eexists _, [], self. do 5 (split; [done|]). by right.
    + eexists _, _, _. split; [reflexivity|].
      change (mutation_calls (Remote (MessagesList query 0) :: ?t))
        with (mutation_calls t).
      rewrite mutation_calls_fetch_trace. split; [done|].
      split; [by destruct use_cache|]. split; [by destruct use_cache|].
      split; [by destruct use_cache|]. right.
      change (calls (Remote ?c :: ?t)) with (c :: calls t).
      by rewrite calls_fetch_trace.
    + eexists _, [], self. do 5 (split; [done|]). by right.
Qed.

(** The remote calls of [get_emails] are one list call followed by one get
    call for each listed message, in order, or none at all when a cache
    entry is served; none of them changes the mailbox.  An HttpError of the
    list call or of a get call does not leave [get_emails].  The client that
    is returned keeps its service and its TTL, and without [use_cache] its
    cache directory as well, and then the mailbox is always asked. *)
Theorem get_emails_only_lists_and_gets md5 self now written_at query max_results
    use_cache :
  let run := Gmail.get_emails md5 self now written_at query max_results use_cache in
  let listed := default [] (Gmail.list_answer (Gmail.service self) query max_results) in
  (calls (events run) = []
   ∨ calls (events run) = MessagesList query 0 :: map MessagesGet listed)
  ∧ (use_cache = false →
     calls (events run) = MessagesList query 0 :: map MessagesGet listed)
  ∧ mutation_calls (events run) = []
  ∧ outcome run ≠ Raise Py.HttpError
  ∧ (∀ emails self', outcome run = Ok (emails, self') →
       Gmail.service self' = Gmail.service self
       ∧ Gmail.cache_ttl self' = Gmail.cache_ttl self
       ∧ (use_cache = false → self' = self)).
Proof.
  intros run listed. subst run listed.
  destruct (get_emails_total md5 self now written_at query max_results use_cache)
    as (t & emails & self' & -> & Hm & Hs & Ht & Hu & Hcalls).
  cbn [events outcome fst snd].
  split; [destruct Hcalls as [[-> _]| ->]; auto|].
  split; [intros ->; by destruct Hcalls as [[_ ?]|?]|].
  split; [done|]. split; [done|]. by intros emails' self'' [= <- <-].
Qed.

Lemma get_emails_only_lists_and_gets_witness :
  calls (events (Gmail.get_emails plain_key (Samples.client 2 ["m0"] []) 0 0 "in:inbox" 50
                   false))
  = [MessagesList "in:inbox" 0; MessagesGet "m0"; MessagesGet "m1"].
Proof.
  apply (proj1 (proj2 (get_emails_only_lists_and_gets plain_key
                         (Samples.client 2 ["m0"] []) 0 0 "in:inbox" 50 false))).
  reflexivity.
Defined.

(** A cache entry that is fresh at some time was fresh, with the same
    content, at every earlier time. *)
Lemma read_fresh_earlier {Payload} (dir : gmap string (Cache.File Payload))
    name now now' ttl v :
  (now ≤ now')%Z →
  Cache.read_fresh dir name now' ttl = Some v →
  Cache.read_fresh dir name now ttl = Some v.
Proof.
  unfold Cache.read_fresh. intros Hle. destruct (dir !! name) as [f|]; [|done].
  destruct (Z.ltb_spec (now' - Cache.st_mtime f) ttl); [|done].
  intros [= <-]. destruct (Z.ltb_spec (now - Cache.st_mtime f) ttl); [done|lia].
Qed.

(** What [get_emails] fetches with the cache in use, it serves from the
    cache afterwards: when the cache has nothing to offer, the listing
    succeeds and at least one message can be fetched, the call lists once,
    fetches every listed message once, in order, and returns those that
    could be fetched; a second call for the same query and bound, made while
    the age of the entry is below the TTL, returns the same messages without
    any remote call. *)
Theorem second_fetch_is_served_from_cache md5 self now written_at now' written_at'
    query max_results ids :
  let get_answer := Gmail.get_answer (Gmail.service self) in
  (∀ emails,
     Gmail._get_cached_emails self now (Gmail._get_cache_key md5 query max_results)
     = Some emails → emails = []) →
  Gmail.list_answer (Gmail.service self) query max_results = Some ids →
  fetchable get_answer ids ≠ [] →
  (now' - written_at < Gmail.cache_ttl self)%Z →
  ∃ self',
    Gmail.get_emails md5 self now written_at query max_results true
    = (Remote (MessagesList query 0) :: fetch_trace get_answer ids,
       Ok (fetchable get_answer ids, self'))
    ∧ calls (Remote (MessagesList query 0) :: fetch_trace get_answer ids)
      = MessagesList query 0 :: map MessagesGet ids
    ∧ Gmail.get_emails md5 self' now' written_at' query max_results true
      = ([Printed UsingCachedEmails], Ok (fetchable get_answer ids, self')).
Proof.
  intros get_answer Hmiss Hlist Hsome Hfresh. subst get_answer.
  exists (Gmail._cache_emails self written_at (Gmail._get_cache_key md5 query max_results)
            (fetchable (Gmail.get_answer (Gmail.service self)) ids)).
  split; [|split].
  - rewrite get_emails_miss by (intros emails _; apply Hmiss). rewrite Hlist.
    by destruct ids as [|mid ids].
  - change (calls (Remote ?c :: ?t)) with (c :: calls t).
    by rewrite calls_fetch_trace.
  - apply get_emails_hit; [|done].
    unfold Gmail._get_cached_emails, Gmail._cache_emails.
    cbn [Gmail.cache_dir Gmail.cache_ttl]. rewrite read_fresh_write.
    apply Z.ltb_lt in Hfresh. by rewrite Hfresh.
Qed.

Lemma second_fetch_is_served_from_cache_witness :
  ∃ self',
    outcome (Gmail.get_emails plain_key (Samples.client 3 ["m1"] []) 0 10
               "in:inbox" 50 true)
    = Ok ([Samples.message "m0"; Samples.message "m2"], self')
    ∧ Gmail.get_emails plain_key self' 3609 3609 "in:inbox" 50 true
      = ([Printed UsingCachedEmails],
         Ok ([Samples.message "m0"; Samples.message "m2"], self')).
Proof.
  destruct (second_fetch_is_served_from_cache plain_key (Samples.client 3 ["m1"] [])
              0 10 3609 3609 "in:inbox" 50 (sample_ids 3))
    as (self' & Hfirst & _ & Hsecond).
  - intros emails Hc. discriminate Hc.
  - reflexivity.
  - by vm_compute.
  - reflexivity.
  - exists self'. split; [by rewrite Hfirst|exact Hsecond].
Defined.

(** An empty result is never served from the cache: when the cache has
    nothing to offer and no message can be fetched (nothing is listed, or
    every fetch fails), a later call for the same query and bound repeats the
    remote calls of the first one, however soon it comes. *)
Theorem empty_result_is_fetched_again md5 self now written_at now' written_at'
    query max_results ids :
  (∀ emails,
     Gmail._get_cached_emails self now (Gmail._get_cache_key md5 query max_results)
     = Some emails → emails = []) →
  Gmail.list_answer (Gmail.service self) query max_results = Some ids →
  fetchable (Gmail.get_answer (Gmail.service self)) ids = [] →
  (now ≤ now')%Z →
  ∃ self' self'',
    outcome (Gmail.get_emails md5 self now written_at query max_results true)
    = Ok ([], self')
    ∧ outcome (Gmail.get_emails md5 self' now' written_at' query max_results true)
      = Ok ([], self'')
    ∧ events (Gmail.get_emails md5 self' now' written_at' query max_results true)
      = events (Gmail.get_emails md5 self now written_at query max_results true)
    ∧ calls (events (Gmail.get_emails md5 self now written_at query max_results true))
      = MessagesList query 0 :: map MessagesGet ids.
Proof.
  intros Hmiss Hlist Hnone Hle.
  rewrite (get_emails_miss md5 self) by (intros emails _; apply Hmiss).
  rewrite Hlist, Hnone.
  assert (Hlater : ∀ self',
    Gmail.service self' = Gmail.service self →
    (∀ emails,
       Gmail._get_cached_emails self' now' (Gmail._get_cache_key md5 query max_results)
       = Some emails → emails = []) →
    Gmail.get_emails md5 self' now' written_at' query max_results true
    = match ids with
      | [] => ([Remote (MessagesList query 0)], Ok ([], self'))
      | _ => (Remote (MessagesList query 0)
              :: fetch_trace (Gmail.get_answer (Gmail.service self)) ids,
              Ok ([], Gmail._cache_emails self' written_at'
                        (Gmail._get_cache_key md5 query max_results) []))
      end).
  { intros self' Hsvc Hmiss'.
    rewrite (get_emails_miss md5 self') by (intros emails _; apply Hmiss').
    by rewrite Hsvc, Hlist, Hnone. }
  destruct ids as [|mid ids].
  - exists self, self. rewrite Hlater; [done..|].
    intros emails Hc. apply Hmiss. unfold Gmail._get_cached_emails in *.
    by apply (read_fresh_earlier _ _ now now').
  - set (key := Gmail._get_cache_key md5 query max_results) in *.
    exists (Gmail._cache_emails self written_at key []),
      (Gmail._cache_emails (Gmail._cache_emails self written_at key []) written_at' key []).
    rewrite Hlater; [|done|].
    + split; [reflexivity|]. split; [reflexivity|]. split; [done|].
      cbn [events fst]. change (calls (Remote ?c :: ?t)) with (c :: calls t).
      by rewrite calls_fetch_trace.
    + intros emails. unfold Gmail._get_cached_emails, Gmail._cache_emails.
      cbn [Gmail.cache_dir Gmail.cache_ttl]. rewrite read_fresh_write.
      destruct (_ <? _)%Z; [|done]. by intros [= <-].
Qed.

Lemma empty_result_is_fetched_again_witness :
  ∃ self',
    outcome (Gmail.get_emails plain_key (Samples.client 2 ["m0"; "m1"] []) 0 0
               "in:inbox" 50 true)
    = Ok ([], self')
    ∧ calls (events (Gmail.get_emails plain_key self' 1 1 "in:inbox" 50 true))
      = [MessagesList "in:inbox" 0; MessagesGet "m0"; MessagesGet "m1"].
Proof.
  destruct (empty_result_is_fetched_again plain_key (Samples.client 2 ["m0"; "m1"] [])
              0 0 1 1 "in:inbox" 50 (sample_ids 2))
    as (self' & self'' & Hfirst & _ & Hsame & Hcalls).
  - intros emails Hc. discriminate Hc.
  - reflexivity.
  - reflexivity.
  - lia.
  - exists self'. split; [exact Hfirst|]. rewrite Hsame. exact Hcalls.
Defined.

(* ===================================================================== *)
(** ** inboxy/cli.py: deleting and archiving message by message *)
(* ===================================================================== *)

Lemma calls_attempts (call : MessageRef → Call) ok failed ids :
  calls (attempts call ok failed ids) = map call ids.
Proof.
  unfold attempts. induction ids as [|mid ids IH]; [done|].
  cbn [map concat]. rewrite calls_app, IH. by destruct (ok mid).
Qed.

Lemma each_run (body : nat → Gmail.Message → M unit) call (ok : MessageRef → bool)
    failed messages k :
  (∀ k msg,
     body k msg
     = (Remote (call (Gmail.m_id msg))
        :: (if ok (Gmail.m_id msg) then [] else [Printed (failed (Gmail.m_id msg))]),
        Ok tt)) →
  for_each body k messages
  = (attempts call ok failed (map Gmail.m_id messages), Ok tt).
Proof.
  intros Hbody. revert k. induction messages as [|msg messages IH]; intros k; [done|].
  cbn [for_each]. rewrite Hbody. cbn -[for_each]. rewrite IH. done.
Qed.

Lemma delete_each_run gmail messages :
  Cli.delete_each gmail messages
  = (attempts MessagesDelete (Gmail.delete_ok (Gmail.service gmail)) FailedToDelete
       (map Gmail.m_id messages), Ok tt).
Proof.
  apply each_run. intros _ msg. unfold Gmail.delete_email.
  by destruct (Gmail.delete_ok _ _).
Qed.

Lemma archive_each_run gmail messages :
  Cli.archive_each gmail messages
  = (attempts (λ mid, MessagesModify mid ["INBOX"])
       (Gmail.modify_ok (Gmail.service gmail)) FailedToArchive
       (map Gmail.m_id messages), Ok tt).
Proof.
  apply each_run. intros _ msg. unfold Gmail.archive_email.
  by destruct (Gmail.modify_ok _ _).
Qed.

Lemma mutation_calls_all t :
  Forall (λ c, is_mutation c = true) (calls t) → mutation_calls t = calls t.
Proof.
  unfold mutation_calls. induction 1 as [|c l Hc _ IH]; [done|].
  cbn. by rewrite Hc, IH.
Qed.

Lemma preview_delete_run gmail messages archive :
  Cli.preview_actions gmail messages true archive true
  = ([Printed (WillDelete (length messages)); Asked "Are you sure?"]
     ++ attempts MessagesDelete (Gmail.delete_ok (Gmail.service gmail)) FailedToDelete
          (map Gmail.m_id messages)
     ++ [Printed EmailsDeleted], Ok None).
Proof. unfold Cli.preview_actions. rewrite delete_each_run. reflexivity. Qed.

Lemma preview_archive_run gmail messages :
  Cli.preview_actions gmail messages false true true
  = ([Asked ("Archive " +:+ pretty (length messages) +:+ " emails?")]
     ++ attempts (λ mid, MessagesModify mid ["INBOX"])
          (Gmail.modify_ok (Gmail.service gmail)) FailedToArchive
          (map Gmail.m_id messages)
     ++ [Printed EmailsArchived], Ok None).
Proof. unfold Cli.preview_actions. rewrite archive_each_run. reflexivity. Qed.

(** The confirmed actions of [preview] try every message, in order, and go
    on after a failure: a delete sends one delete call per message and, when
    both flags are set, archives nothing; an archive sends one modify call
    per message, removing the label INBOX.  A rejected call is reported and
    the loop continues; the closing line is printed whether or not calls
    were rejected, and no outcome is returned. *)
Theorem preview_actions_try_every_message gmail messages archive :
  let ids := map Gmail.m_id messages in
  let service := Gmail.service gmail in
  (Cli.preview_actions gmail messages true archive true
   = ([Printed (WillDelete (length messages)); Asked "Are you sure?"]
      ++ attempts MessagesDelete (Gmail.delete_ok service) FailedToDelete ids
      ++ [Printed EmailsDeleted], Ok None)
   ∧ mutation_calls (events (Cli.preview_actions gmail messages true archive true))
     = map MessagesDelete ids)
  ∧ (Cli.preview_actions gmail messages false true true
     = ([Asked ("Archive " +:+ pretty (length messages) +:+ " emails?")]
        ++ attempts (λ mid, MessagesModify mid ["INBOX"]) (Gmail.modify_ok service)
             FailedToArchive ids
        ++ [Printed EmailsArchived], Ok None)
     ∧ mutation_calls (events (Cli.preview_actions gmail messages false true true))
       = map (λ mid, MessagesModify mid ["INBOX"]) ids).
Proof.
  intros ids service. subst ids service.
  rewrite preview_delete_run, preview_archive_run. cbn [events fst].
  split; (split; [done|]).
  - rewrite mutation_calls_all; rewrite !calls_app, calls_attempts; cbn;
      rewrite ?app_nil_r; [done|].
    apply Forall_forall. by intros c (mid & -> & _)%list_elem_of_fmap.
  - rewrite mutation_calls_all; rewrite !calls_app, calls_attempts; cbn;
      rewrite ?app_nil_r; [done|].
    apply Forall_forall. by intros c (mid & -> & _)%list_elem_of_fmap.
Qed.

(* ===================================================================== *)
(** ** inboxy/cli.py: the [preview] command *)
(* ===================================================================== *)

Lemma preview_actions_calls gmail messages delete archive :
  delete || archive = true →
  Cli.preview_actions gmail messages delete archive true
  = (events (Cli.preview_actions gmail messages delete archive true), Ok None)
  ∧ calls (events (Cli.preview_actions gmail messages delete archive true))
    = map (action_call delete) (map Gmail.m_id messages).
Proof.
  intros Hflag. destruct delete; [|destruct archive; [|done]].
  - rewrite preview_delete_run. split; [done|]. cbn [events fst].
    rewrite !calls_app, calls_attempts. cbn. by rewrite app_nil_r.
  - rewrite preview_archive_run. split; [done|]. cbn [events fst].
    rewrite !calls_app, calls_attempts. cbn. by rewrite app_nil_r.
Qed.

Lemma preview_actions_guarded gmail messages delete archive confirmed :
  outcome (Cli.preview_actions gmail messages delete archive confirmed) = Ok None
  ∧ ((delete || archive) && confirmed = false →
     mutation_calls (events (Cli.preview_actions gmail messages delete archive confirmed))
     = []).
Proof.
  destruct confirmed.
  - destruct delete; [|destruct archive].
    + rewrite preview_delete_run. done.
    + rewrite preview_archive_run. done.
    + done.
  - by destruct delete, archive.
Qed.

(** [preview] changes the mailbox only when asked to and confirmed: without
    the delete or the archive flag, without confirmation, or when the
    presets are listed, it sends no call that deletes or modifies a message;
    when the presets are listed it sends no call at all. *)
Theorem preview_is_guarded md5 gmail now written_at query limit delete archive
    list_presets confirmed :
  let run := CliPreview.preview md5 gmail now written_at query limit delete archive
               list_presets confirmed in
  ((delete || archive) && confirmed && negb list_presets = false →
   mutation_calls (events run) = [])
  ∧ (list_presets = true → events run = []).
Proof.
  intros run. subst run. split; [|by intros ->].
  unfold CliPreview.preview. destruct list_presets; [done|].
  destruct (get_emails_total md5 gmail now written_at (CliPreview.resolve query)
              (if negb (delete || archive) then limit else 500) true)
    as (t & emails & gmail' & -> & Hm & _).
  cbn [mbind fst snd]. destruct emails as [|msg emails].
  - cbn. rewrite app_nil_r. done.
  - destruct (preview_actions_guarded gmail' (msg :: emails) delete archive confirmed)
      as [Hout Hmut].
    destruct (Cli.preview_actions _ _ _ _ _) as [t' r].
    cbn [events outcome fst snd] in Hout, Hmut |- *.
    rewrite andb_true_r. intros Hguard.
    by rewrite mutation_calls_app, Hm, Hmut.
Qed.

Lemma preview_is_guarded_witness :
  mutation_calls
    (events (CliPreview.preview plain_key (Samples.client 2 [] []) 0 0 "promo" 20
               true false false false)) = [].
Proof.
  apply (proj1 (preview_is_guarded plain_key (Samples.client 2 [] []) 0 0 "promo" 20
                  true false false false)).
  reflexivity.
Defined.

(** A confirmed delete or archive of [preview] lists with the bound 500
    whatever the limit, under the query that the preset stands for, and then
    acts on the messages it could fetch, in order: a listed message whose
    fetch fails is neither deleted nor archived. *)
Theorem preview_acts_on_fetched_messages md5 gmail now written_at query limit
    delete archive ids :
  let q := CliPreview.resolve query in
  let get_answer := Gmail.get_answer (Gmail.service gmail) in
  delete || archive = true →
  (∀ emails,
     Gmail._get_cached_emails gmail now (Gmail._get_cache_key md5 q 500) = Some emails →
     emails = []) →
  Gmail.list_answer (Gmail.service gmail) q 500 = Some ids →
  calls (events (CliPreview.preview md5 gmail now written_at query limit delete archive
                   false true))
  = MessagesList q 0 :: map MessagesGet ids
    ++ map (action_call delete) (map Gmail.m_id (fetchable get_answer ids)).
Proof.
  intros q get_answer Hflag Hmiss Hlist. subst q get_answer.
  unfold CliPreview.preview. rewrite Hflag. cbn [negb].
  rewrite get_emails_miss by (intros emails _; apply Hmiss). rewrite Hlist.
  destruct ids as [|mid ids]; [done|].
  set (ids' := mid :: ids). cbn [mbind fst snd].
  destruct (fetchable _ ids') as [|msg emails] eqn:Hf.
  - cbn [events fst ret]. rewrite app_nil_r.
    change (calls (Remote ?c :: ?t)) with (c :: calls t).
    by rewrite calls_fetch_trace, app_nil_r.
  - destruct (preview_actions_calls
                (Gmail._cache_emails gmail written_at
                   (Gmail._get_cache_key md5 (CliPreview.resolve query) 500)
                   (msg :: emails))
                (msg :: emails) delete archive Hflag) as [Hrun Hcalls].
    rewrite Hrun. cbn [events fst].
    change (calls ((Remote ?c :: ?t) ++ ?t')) with (c :: calls (t ++ t')).
    by rewrite calls_app, calls_fetch_trace, Hcalls.
Qed.

Lemma preview_acts_on_fetched_messages_witness :
  calls (events (CliPreview.preview plain_key (Samples.client 3 ["m1"] []) 0 0 "Promo" 20
                   true false false true))
  = [MessagesList "category:promotions" 0;
     MessagesGet "m0"; MessagesGet "m1"; MessagesGet "m2";
     MessagesDelete "m0"; MessagesDelete "m2"].
Proof.
  apply (preview_acts_on_fetched_messages plain_key (Samples.client 3 ["m1"] []) 0 0
           "Promo" 20 true false (sample_ids 3)).
  - reflexivity.
  - intros emails Hc. discriminate Hc.
  - reflexivity.
Defined.

(** On a fresh cache entry a confirmed delete or archive of [preview] does
    not consult the mailbox: it acts on the messages of the cache entry, one
    call each, in order, and these are its only remote calls. *)
Theorem preview_acts_on_cached_messages md5 gmail now written_at query limit
    delete archive emails :
  delete || archive = true →
  Gmail._get_cached_emails gmail now
    (Gmail._get_cache_key md5 (CliPreview.resolve query) 500) = Some emails →
  emails ≠ [] →
  calls (events (CliPreview.preview md5 gmail now written_at query limit delete archive
                   false true))
  = map (action_call delete) (map Gmail.m_id emails).
Proof.
  intros Hflag Hc Hne. unfold CliPreview.preview. rewrite Hflag. cbn [negb].
  rewrite (get_emails_hit _ _ _ _ _ _ emails) by done. cbn [mbind fst snd].
  destruct emails as [|msg emails]; [done|].
  destruct (preview_actions_calls gmail (msg :: emails) delete archive Hflag)
    as [Hrun Hcalls].
  rewrite Hrun. cbn [events fst]. exact Hcalls.
Qed.

Lemma preview_acts_on_cached_messages_witness :
  calls (events (CliPreview.preview plain_key
                   (Gmail._cache_emails (Samples.client 0 [] []) 100
                      (Gmail._get_cache_key plain_key "in:inbox" 500)
                      [Samples.message "m7"])
                   200 200 "in:inbox" 20 false true false true))
  = [MessagesModify "m7" ["INBOX"]].
Proof.
  apply (preview_acts_on_cached_messages plain_key
           (Gmail._cache_emails (Samples.client 0 [] []) 100
              (Gmail._get_cache_key plain_key "in:inbox" 500) [Samples.message "m7"])
           200 200 "in:inbox" 20 false true [Samples.message "m7"]).
  - reflexivity.
  - reflexivity.
  - discriminate.
Defined.

(* ===================================================================== *)
(** ** ai.py: batches of analyses *)
(* ===================================================================== *)

Lemma analyze_email_outcome self message :
  outcome (AI.analyze_email self message) = Ok (analysis_of self message).
Proof.
  rewrite analyze_email_cases. unfold analysis_of. by destruct (Py.bind _ _).
Qed.

Lemma analysis_of_message_id self message :
  a_message_id (analysis_of self message) = Gmail.m_id message.
Proof.
  unfold analysis_of. destruct (AI.create _) as [response|]; [|done]. cbn.
  unfold EmailAnalysis_new.
  destruct (EmailCategory_of _); [|done]. by destruct (Priority_of _).
Qed.

Lemma analyze_each_run self messages analyses :
  Summary.analyze_each self messages analyses
  = analyses ++ map (analysis_of self) messages.
Proof.
  revert analyses. induction messages as [|msg messages IH]; intros analyses.
  - cbn. by rewrite app_nil_r.
  - cbn [Summary.analyze_each]. rewrite analyze_email_outcome, IH.
    by rewrite <- app_assoc.
Qed.

(** The run of [batch_analyze] when the cache has nothing to offer. *)
Lemma batch_analyze_miss md5 self now written_at messages limit :
  nothing_cached self now (Summary._get_cache_key_for_batch md5 (take limit messages)) →
  Summary.batch_analyze md5 self now written_at messages limit
  = Ok (map (analysis_of self) (take limit messages),
        if bool_decide (map (analysis_of self) (take limit messages) = []) then self
        else AI._cache_analyses self written_at
               (Summary._get_cache_key_for_batch md5 (take limit messages))
               (map (analysis_of self) (take limit messages))).
Proof.
  unfold Summary.batch_analyze. intros [-> | ->]; cbn; by rewrite analyze_each_run.
Qed.

(** The run of [batch_analyze] on a fresh, non-empty cache entry. *)
Lemma batch_analyze_hit md5 self now written_at messages limit cached :
  AI._get_cached_analyses self now
    (Summary._get_cache_key_for_batch md5 (take limit messages)) = Ok (Some cached) →
  cached ≠ [] →
  Summary.batch_analyze md5 self now written_at messages limit = Ok (cached, self).
Proof.
  unfold Summary.batch_analyze. intros -> Hne. by destruct cached.
Qed.

Lemma cached_analyses_after_write self written_at now key analyses :
  (now - written_at < AI.cache_ttl self)%Z →
  AI._get_cached_analyses (AI._cache_analyses self written_at key analyses) now key
  = Ok (Some analyses).
Proof.
  intros Hfresh%Z.ltb_lt. unfold AI._get_cached_analyses, AI._cache_analyses.
  cbn [AI.cache_dir AI.cache_ttl]. rewrite read_fresh_write, Hfresh.
  by rewrite map_from_dict_to_dict.
Qed.

(** [batch_analyze] returns one analysis per message: when the cache has
    nothing to offer, the analyses are those of the first [limit] messages,
    in order, each carrying the identifier of its message and a priority
    from 1 to 5; a failing scoring call costs no message, since the fallback
    analysis takes its place, and the call does not raise. *)
Theorem batch_analyze_one_per_message md5 self now written_at messages limit :
  nothing_cached self now (Summary._get_cache_key_for_batch md5 (take limit messages)) →
  ∃ analyses self',
    Summary.batch_analyze md5 self now written_at messages limit = Ok (analyses, self')
    ∧ analyses = map (analysis_of self) (take limit messages)
    ∧ map a_message_id analyses = map Gmail.m_id (take limit messages)
    ∧ length analyses = limit `min` length messages
    ∧ Forall (λ a, (1 ≤ priority_value (a_priority a) ≤ 5)%Z) analyses
    ∧ AI.ai_client self' = AI.ai_client self.
Proof.
  intros Hmiss. rewrite batch_analyze_miss by done. eexists _, _.
  split; [reflexivity|]. split; [done|]. split.
  { rewrite <- list_fmap_compose. apply list_fmap_ext.
    intros i msg _. apply analysis_of_message_id. }
  split; [by rewrite length_map, length_take|].
  split; [apply Forall_forall; intros a _; apply priority_value_range|].
  by destruct (bool_decide _).
Qed.

Lemma batch_analyze_one_per_message_witness :
  ∃ analyses self',
    Summary.batch_analyze plain_key (sample_ai AI.Timeout) 0 0
      [Samples.message "m0"; Samples.message "m1"; Samples.message "m2"] 2
    = Ok (analyses, self')
    ∧ map a_message_id analyses = ["m0"; "m1"].
Proof.
  destruct (batch_analyze_one_per_message plain_key (sample_ai AI.Timeout) 0 0
              [Samples.message "m0"; Samples.message "m1"; Samples.message "m2"] 2)
    as (analyses & self' & Hrun & _ & Hids & _).
  - left. reflexivity.
  - exists analyses, self'. split; [exact Hrun|exact Hids].
Defined.

Lemma batch_key_determined md5 (batch batch' : list Gmail.Message) :
  Gmail.m_id <$> head batch = Gmail.m_id <$> head batch' →
  Gmail.m_id <$> last batch = Gmail.m_id <$> last batch' →
  length batch = length batch' →
  Summary._get_cache_key_for_batch md5 batch
  = Summary._get_cache_key_for_batch md5 batch'.
Proof.
  intros Hhead Hlast Hlen. unfold Summary._get_cache_key_for_batch.
  destruct batch as [|m b], batch' as [|m' b']; [done|done|done|].
  cbn in Hhead. injection Hhead as Hhead.
  destruct (last (m :: b)) as [f|] eqn:Hf; [|by rewrite last_cons in Hf; destruct (last b)].
  destruct (last (m' :: b')) as [f'|] eqn:Hf';
    [|by rewrite last_cons in Hf'; destruct (last b')].
  cbn in Hlast. injection Hlast as Hlast. by rewrite Hhead, Hlast, Hlen.
Qed.

(** The cache of [batch_analyze] is keyed by the first identifier, the last
    identifier and the number of the messages analysed, and by nothing else:
    once a batch has been analysed and cached, a batch with the same first
    and last identifiers and the same length is answered, while the entry is
    fresh, with the analyses of the first batch, whatever its other messages
    are and whatever the scoring service would say.  In particular the same
    batch is answered from the cache. *)
Theorem batch_cache_is_keyed_by_ends md5 self now written_at now' written_at'
    messages messages' limit :
  let batch := take limit messages in
  let batch' := take limit messages' in
  nothing_cached self now (Summary._get_cache_key_for_batch md5 batch) →
  batch ≠ [] →
  Gmail.m_id <$> head batch = Gmail.m_id <$> head batch' →
  Gmail.m_id <$> last batch = Gmail.m_id <$> last batch' →
  length batch = length batch' →
  (now' - written_at < AI.cache_ttl self)%Z →
  ∃ analyses self',
    Summary.batch_analyze md5 self now written_at messages limit = Ok (analyses, self')
    ∧ map a_message_id analyses = map Gmail.m_id batch
    ∧ (∀ other,
         AI.cache_dir other = AI.cache_dir self' →
         AI.cache_ttl other = AI.cache_ttl self' →
         Summary.batch_analyze md5 other now' written_at' messages' limit
         = Ok (analyses, other)).
Proof.
  intros batch batch' Hmiss Hne Hhead Hlast Hlen Hfresh. subst batch batch'.
  rewrite batch_analyze_miss by done.
  destruct (take limit messages) as [|msg batch] eqn:Hbatch; [done|].
  rewrite bool_decide_eq_false_2 by done. eexists _, _.
  split; [reflexivity|]. split.
  { rewrite <- list_fmap_compose. apply list_fmap_ext.
    intros i m _. apply analysis_of_message_id. }
  intros other Hdir Httl. apply batch_analyze_hit; [|done].
  rewrite <- (batch_key_determined md5 (msg :: batch)) by done.
  pose proof (cached_analyses_after_write self written_at now'
                (Summary._get_cache_key_for_batch md5 (msg :: batch))
                (map (analysis_of self) (msg :: batch)) Hfresh) as Hread.
  unfold AI._get_cached_analyses in *. by rewrite Hdir, Httl.
Qed.

Lemma batch_cache_is_keyed_by_ends_witness :
  ∃ analyses self',
    Summary.batch_analyze plain_key (sample_ai AI.Timeout) 0 0
      [Samples.message "m0"; Samples.message "m1"; Samples.message "m2"] 50
    = Ok (analyses, self')
    ∧ map a_message_id analyses = ["m0"; "m1"; "m2"]
    ∧ Summary.batch_analyze plain_key self' 60 60
        [Samples.message "m0"; Samples.message "m9"; Samples.message "m2"] 50
      = Ok (analyses, self').
Proof.
  destruct (batch_cache_is_keyed_by_ends plain_key (sample_ai AI.Timeout) 0 0 60 60
              [Samples.message "m0"; Samples.message "m1"; Samples.message "m2"]
              [Samples.message "m0"; Samples.message "m9"; Samples.message "m2"] 50)
    as (analyses & self' & Hrun & Hids & Hagain).
  - left. reflexivity.
  - discriminate.
  - reflexivity.
  - reflexivity.
  - reflexivity.
  - reflexivity.
  - exists analyses, self'. split; [exact Hrun|]. split; [exact Hids|].
    by apply Hagain.
Defined.

(** [get_inbox_summary] analyses what [get_emails] fetched: when neither
    cache has anything to offer, it lists once, fetches every listed message
    once, and returns the analyses of the first [limit] messages that could
    be fetched, in order.  A failing listing, an empty listing and a listing
    of which nothing can be fetched all give the empty summary.  No call
    changes the mailbox. *)
Theorem inbox_summary_analyses_fetched md5 gmail self now written_at query limit :
  let listed := default [] (Gmail.list_answer (Gmail.service gmail) query limit) in
  let fetched := fetchable (Gmail.get_answer (Gmail.service gmail)) listed in
  (∀ emails,
     Gmail._get_cached_emails gmail now (Gmail._get_cache_key md5 query limit)
     = Some emails → emails = []) →
  (fetched ≠ [] →
   nothing_cached self now (Summary._get_cache_key_for_batch md5 (take limit fetched))) →
  ∃ gmail' self',
    outcome (Summary.get_inbox_summary md5 gmail self now written_at query limit)
    = Ok (map (analysis_of self) (take limit fetched), gmail', self')
    ∧ calls (events (Summary.get_inbox_summary md5 gmail self now written_at query limit))
      = MessagesList query 0 :: map MessagesGet listed
    ∧ mutation_calls
        (events (Summary.get_inbox_summary md5 gmail self now written_at query limit))
      = [].
Proof.
  intros listed fetched Hmiss Hai. subst listed fetched.
  unfold Summary.get_inbox_summary.
  rewrite get_emails_miss by (intros emails _; apply Hmiss).
  destruct (Gmail.list_answer _ _ _) as [[|mid ids]|]; cbn [default id] in *.
  - exists gmail, self. cbn. by rewrite take_nil.
  - set (ids' := mid :: ids) in *. cbn [mbind fst snd].
    destruct (fetchable _ ids') as [|msg emails] eqn:Hf.
    + eexists _, _. cbn [events outcome fst snd ret]. rewrite app_nil_r, take_nil.
      split; [done|].
      change (mutation_calls (Remote (MessagesList query 0) :: ?t))
        with (mutation_calls t).
      change (calls (Remote ?c :: ?t)) with (c :: calls t).
      by rewrite calls_fetch_trace, mutation_calls_fetch_trace.
    + rewrite batch_analyze_miss by (by apply Hai). eexists _, _.
      cbn [lift mbind ret events outcome fst snd]. rewrite !app_nil_r.
      split; [done|].
      change (mutation_calls (Remote (MessagesList query 0) :: ?t))
        with (mutation_calls t).
      change (calls (Remote ?c :: ?t)) with (c :: calls t).
      by rewrite calls_fetch_trace, mutation_calls_fetch_trace.
  - exists gmail, self. cbn. by rewrite take_nil.
Qed.

Lemma inbox_summary_analyses_fetched_witness :
  ∃ gmail' self',
    outcome (Summary.get_inbox_summary plain_key (Samples.client 3 ["m1"] [])
               (sample_ai AI.Timeout) 0 0 "in:inbox newer_than:1d" 30)
    = Ok ([fallback_analysis (Samples.message "m0");
           fallback_analysis (Samples.message "m2")], gmail', self').
Proof.
  destruct (inbox_summary_analyses_fetched plain_key (Samples.client 3 ["m1"] [])
              (sample_ai AI.Timeout) 0 0 "in:inbox newer_than:1d" 30)
    as (gmail' & self' & Hout & _).
  - intros emails Hc. discriminate Hc.
  - intros _. left. reflexivity.
  - exists gmail', self'. exact Hout.
Defined.

Lemma Priority_of_in_range v : (1 ≤ v ≤ 5)%Z → ∃ p, Priority_of v = Ok p.
Proof.
  intros Hv.
  assert (v = 1 ∨ v = 2 ∨ v = 3 ∨ v = 4 ∨ v = 5)%Z as [->|[->|[->|[->| ->]]]] by lia;
    by eexists.
Qed.

Lemma EmailCategory_of_raises value e :
  EmailCategory_of value = Raise e →
  e = Py.ValueError ∧ value ∉ map category_value EmailCategory_members.
Proof.
  unfold EmailCategory_of.
  destruct (List.find _ _) as [c|] eqn:Hf; [done|]. intros [= <-]. split; [done|].
  intros (c & -> & Hc)%list_elem_of_fmap.
  apply list_elem_of_In in Hc.
  by apply (List.find_none _ _ Hf c), String.eqb_neq in Hc.
Qed.

(** What [from_dict] does with a record: the range of the priority is
    checked first, by the response model, then the category is looked up. *)
Lemma from_dict_cases d :
  match from_dict d with
  | Ok a => to_dict a = d
  | Raise e =>
      (¬ (1 ≤ d_priority d ≤ 5)%Z ∧ e = Py.ValidationError)
      ∨ ((1 ≤ d_priority d ≤ 5)%Z
         ∧ (d_category d ∉ map category_value EmailCategory_members)
         ∧ e = Py.ValueError)
  end.
Proof.
  unfold from_dict, EmailAnalysisResponse_new. cbn [priority].
  destruct (Z.leb_spec 1 (d_priority d)); cbn [andb Py.bind]; [|left; split; [lia|done]].
  destruct (Z.leb_spec (d_priority d) 5); cbn [andb Py.bind]; [|left; split; [lia|done]].
  unfold EmailAnalysis_new. cbn [category priority].
  destruct (EmailCategory_of (d_category d)) as [c|e] eqn:Hc; cbn [Py.bind].
  - destruct (Priority_of_in_range (d_priority d)) as [p Hp]; [lia|].
    rewrite Hp. cbn [Py.bind]. unfold to_dict, headers_get. cbn.
    rewrite (EmailCategory_of_Ok _ _ Hc), (Priority_of_Ok _ _ Hp). by destruct d.
  - apply EmailCategory_of_raises in Hc as [-> Hc]. right. split; [lia|done].
Qed.

Lemma map_from_dict_raises data e :
  Py.map_result from_dict data = Raise e → e = Py.ValidationError ∨ e = Py.ValueError.
Proof.
  revert e. induction data as [|d data IH]; intros e; [done|]. cbn [Py.map_result].
  pose proof (from_dict_cases d) as Hd. destruct (from_dict d) as [a|e']; cbn [Py.bind].
  - destruct (Py.map_result from_dict data) as [l|e'']; [done|].
    cbn [Py.bind]. intros [= <-]. by apply IH.
  - intros [= <-]. destruct Hd as [[_ ->]|(_ & _ & ->)]; auto.
Qed.

(** A cache file that holds a record with a priority outside 1..5 or an
    unknown category makes [batch_analyze] raise while the entry is fresh:
    the error of [from_dict] is not caught, and the scoring service is not
    consulted. *)
Theorem bad_cache_entry_raises md5 self now written_at messages limit file e :
  AI.cache_dir self
  !! AI.analyses_file (Summary._get_cache_key_for_batch md5 (take limit messages))
  = Some file →
  (now - Cache.st_mtime file < AI.cache_ttl self)%Z →
  Py.map_result from_dict (Cache.content file) = Raise e →
  Summary.batch_analyze md5 self now written_at messages limit = Raise e
  ∧ (e = Py.ValidationError ∨ e = Py.ValueError).
Proof.
  intros Hfile Hfresh%Z.ltb_lt Hbad. split; [|by apply (map_from_dict_raises _ _ Hbad)].
  unfold Summary.batch_analyze, AI._get_cached_analyses, Cache.read_fresh.
  rewrite Hfile, Hfresh, Hbad. done.
Qed.

Lemma bad_cache_entry_raises_witness :
  Summary.batch_analyze plain_key
    {| AI.ai_client := λ _ _, AI.Timeout;
       AI.cache_dir :=
         {[ AI.analyses_file
              (Summary._get_cache_key_for_batch plain_key [Samples.message "m0"])
            := {| Cache.content :=
                    [{| d_message_id := "m0"; d_subject := "Sale"; d_sender := "Shop";
                        d_date := "Mon"; d_category := "spam"; d_priority := 3;
                        d_summary := "Buy now"; d_action_needed := None;
                        d_suggested_response := None; d_calendar_event := None;
                        d_key_points := []; d_sentiment := "neutral" |}];
                  Cache.st_mtime := 100 |} ]};
       AI.cache_ttl := 3600 |}
    200 200 [Samples.message "m0"] 50
  = Raise Py.ValueError.
Proof.
  refine (proj1 (bad_cache_entry_raises plain_key _ 200 200 [Samples.message "m0"] 50
                   _ Py.ValueError _ _ _)).
  - apply lookup_singleton_eq.
  - reflexivity.
  - reflexivity.
Defined.

(* ===================================================================== *)
(** ** models.py: records and analyses *)
(* ===================================================================== *)

(** [from_dict] reads back what [to_dict] wrote, so that [to_dict] loses
    nothing of an analysis.  A record whose priority is outside 1..5 is
    refused with ValidationError whatever its category, since the response
    model is built first; a record whose priority is in range and whose
    category is not one of the enumerated values is refused with
    ValueError. *)
Theorem from_dict_reads_back_to_dict :
  (∀ a, from_dict (to_dict a) = Ok a)
  ∧ (∀ a b, to_dict a = to_dict b → a = b)
  ∧ (∀ d, ¬ (1 ≤ d_priority d ≤ 5)%Z → from_dict d = Raise Py.ValidationError)
  ∧ (∀ d, (1 ≤ d_priority d ≤ 5)%Z →
          d_category d ∉ map category_value EmailCategory_members →
          from_dict d = Raise Py.ValueError).
Proof.
  split; [apply from_dict_to_dict|]. split.
  { intros a b Hab. pose proof (from_dict_to_dict a) as Ha.
    rewrite Hab, from_dict_to_dict in Ha. by injection Ha. }
  split.
  - intros d Hbad. pose proof (from_dict_cases d) as Hd.
    destruct (from_dict d) as [a|e].
    + exfalso. apply Hbad. rewrite <- Hd. apply priority_value_range.
    + destruct Hd as [[_ ->]|(Hin & _)]; done.
  - intros d Hin Hcat. pose proof (from_dict_cases d) as Hd.
    destruct (from_dict d) as [a|e].
    + exfalso. apply Hcat. rewrite <- Hd. apply category_value_member.
    + destruct Hd as [[Hbad _]|(_ & _ & ->)]; done.
Qed.

(* ===================================================================== *)
(** ** ai.py: important senders *)
(* ===================================================================== *)

Lemma rstrip_cons a s :
  Py.is_space a = false → Py.rstrip (String a s) = String a (Py.rstrip s).
Proof. intros Ha. cbn. rewrite Ha. by destruct (Py.rstrip s). Qed.

Lemma rstrip_unfold a s :
  Py.rstrip (String a s)
  = match Py.rstrip s with
    | EmptyString => if Py.is_space a then EmptyString else String a EmptyString
    | rest => String a rest
    end.
Proof. reflexivity. Qed.

Lemma rstrip_idemp s : Py.rstrip (Py.rstrip s) = Py.rstrip s.
Proof.
  induction s as [|a s IH]; [done|]. rewrite rstrip_unfold.
  destruct (Py.rstrip s) as [|b r] eqn:Hr.
  - destruct (Py.is_space a) eqn:Ha; [done|]. cbn. by rewrite Ha.
  - by rewrite rstrip_unfold, IH.
Qed.

Lemma lstrip_head s :
  match Py.lstrip s with
  | EmptyString => True
  | String a _ => Py.is_space a = false
  end.
Proof.
  induction s as [|a s IH]; [done|]. cbn. by destruct (Py.is_space a) eqn:Ha.
Qed.

Lemma strip_head s :
  match Py.strip s with
  | EmptyString => True
  | String a _ => Py.is_space a = false
  end.
Proof.
  unfold Py.strip. pose proof (lstrip_head s) as Hl.
  destruct (Py.lstrip s) as [|a r]; [done|]. by rewrite rstrip_cons.
Qed.

Lemma strip_idemp s : Py.strip (Py.strip s) = Py.strip s.
Proof.
  pose proof (strip_head s) as Hs. unfold Py.strip in *.
  destruct (Py.rstrip (Py.lstrip s)) as [|a r] eqn:Hr; [done|].
  cbn [Py.lstrip]. rewrite Hs, <- Hr. apply rstrip_idemp.
Qed.

Lemma contains_lstrip c s : Py.contains c s = false → Py.contains c (Py.lstrip s) = false.
Proof.
  induction s as [|a s IH]; [done|]. cbn. intros [Ha Hs]%orb_false_iff.
  destruct (Py.is_space a); [by apply IH|]. cbn. by rewrite Ha, Hs.
Qed.

Lemma contains_rstrip c s : Py.contains c s = false → Py.contains c (Py.rstrip s) = false.
Proof.
  induction s as [|a s IH]; [done|]. cbn. intros [Ha Hs]%orb_false_iff.
  specialize (IH Hs). destruct (Py.rstrip s) as [|b r].
  - destruct (Py.is_space a); [done|]. cbn. by rewrite Ha.
  - cbn in *. by rewrite Ha, IH.
Qed.

Lemma split_pieces c s : Forall (λ piece, Py.contains c piece = false) (Py.split c s).
Proof.
  induction s as [|a s IH]; [by repeat constructor|]. cbn.
  destruct (Py.ascii_eqb a c) eqn:Ha; [by constructor|].
  destruct (Py.split c s) as [|piece pieces].
  - repeat constructor. cbn. by rewrite Ha.
  - apply Forall_cons in IH as [Hp Hps]. constructor; [|done]. cbn. by rewrite Ha, Hp.
Qed.

Lemma load_list_elem env d :
  d ∈ Summary.load_list env → d ≠ "" ∧ Py.strip d = d ∧ Py.contains "," d = false.
Proof.
  unfold Summary.load_list.
  intros (piece & -> & Hp)%list_elem_of_fmap.
  apply list_elem_of_In, List.filter_In in Hp as [Hin Hne].
  apply negb_true_iff, String.eqb_neq in Hne.
  split; [done|]. split; [apply strip_idemp|].
  pose proof (split_pieces "," env) as Hall. rewrite Forall_forall in Hall.
  apply list_elem_of_In, Hall in Hin.
  by apply contains_rstrip, contains_lstrip.
Qed.

Lemma str_in_empty hay : Text.str_in "" hay = true.
Proof. by destruct hay. Qed.

Lemma sender_domain_without_at sender :
  Py.contains "@" sender = false → Summary.sender_domain sender = "".
Proof. unfold Summary.sender_domain. by intros ->. Qed.

(** The lists of important domains and contacts read from the environment
    hold no empty entry, no entry with surrounding white space and no comma;
    an unset variable gives the empty list.  So the empty domain of
    a sender without [@] is never an important domain, although the empty
    string is found in every sender: such a sender is important only through
    a contact, and no sender is important when both variables are unset. *)
Theorem important_lists_have_no_blank_entry domains_env contacts_env sender :
  let domains := Summary.load_list domains_env in
  let contacts := Summary.load_list contacts_env in
  (∀ d, d ∈ domains ++ contacts →
        d ≠ "" ∧ Py.strip d = d ∧ Py.contains "," d = false)
  ∧ Summary.load_list "" = []
  ∧ Text.str_in "" sender = true
  ∧ (Py.contains "@" sender = false →
     Summary.is_important domains contacts sender
     = existsb (λ contact, Text.str_in contact sender) contacts)
  ∧ Summary.is_important (Summary.load_list "") (Summary.load_list "") sender = false.
Proof.
  intros domains contacts. subst domains contacts.
  split; [|split; [done|split; [apply str_in_empty|split; [|done]]]].
  - intros d [Hd|Hd]%elem_of_app; by apply load_list_elem in Hd.
  - intros Hat. unfold Summary.is_important. rewrite sender_domain_without_at by done.
    rewrite bool_decide_eq_false_2; [done|].
    intros Hd%load_list_elem. by destruct Hd.
Qed.

Lemma important_lists_have_no_blank_entry_witness :
  Summary.is_important (Summary.load_list " corp.example, ,") (Summary.load_list "")
    "undisclosed recipients"
  = false.
Proof.
  refine (eq_trans (proj1 (proj2 (proj2 (proj2
            (important_lists_have_no_blank_entry " corp.example, ," ""
               "undisclosed recipients")))) _) _); reflexivity.
Defined.

Lemma last_split_cons c a s :
  Py.contains c s = true → last (Py.split c (String a s)) = last (Py.split c s).
Proof.
  intros Hs. pose proof (split_with c s Hs) as Hlen. cbn [Py.split].
  destruct (Py.split c s) as [|piece [|p ps]]; [cbn in Hlen; lia..|].
  by destruct (Py.ascii_eqb a c).
Qed.

Lemma last_split_sep c before after :
  Py.contains c after = false →
  last (Py.split c (before +:+ String c after)) = Some after.
Proof.
  intros Hafter. induction before as [|a before IH].
  - change ("" +:+ String c after) with (String c after). cbn.
    unfold Py.ascii_eqb. rewrite bool_decide_eq_true_2 by done.
    by rewrite split_without.
  - rewrite append_cons, last_split_cons; [done|].
    rewrite contains_app. cbn. unfold Py.ascii_eqb at 1.
    rewrite bool_decide_eq_true_2 by done. by rewrite orb_true_r.
Qed.

(** For a sender whose address ends the string after its last [@], as in
    [name <loc@dom>], the important-sender check of [ai.py] compares [dom],
    with every [>] removed, against the important domains. *)
Theorem important_domain_of_sender domains contacts before dom :
  Py.contains "@" dom = false →
  Summary.sender_domain (before +:+ "@" +:+ dom) = Py.remove_char ">" dom
  ∧ (Py.remove_char ">" dom ∈ domains →
     Summary.is_important domains contacts (before +:+ "@" +:+ dom) = true).
Proof.
  intros Hdom.
  assert (Hd : Summary.sender_domain (before +:+ "@" +:+ dom) = Py.remove_char ">" dom).
  { unfold Summary.sender_domain.
    assert (Py.contains "@" (before +:+ "@" +:+ dom) = true) as ->.
    { rewrite !contains_app. cbn. by rewrite orb_true_r. }
    unfold Text.last_piece. change ("@" +:+ dom) with (String "@" dom).
    by rewrite last_split_sep. }
  split; [exact Hd|]. intros Hin. unfold Summary.is_important. rewrite Hd.
  by rewrite bool_decide_eq_true_2.
Qed.

Lemma important_domain_of_sender_witness :
  Summary.is_important ["corp.example"] [] "Boss <boss@corp.example>" = true.
Proof.
  refine (proj2 (important_domain_of_sender ["corp.example"] [] "Boss <boss"
                   "corp.example>" _) _).
  - reflexivity.
  - vm_compute. by left.
Defined.

(* ===================================================================== *)
(** ** digest.py: when the digest is defined, and its counts *)
(* ===================================================================== *)

Lemma group_loop_Ok_inv rest groups0 groups :
  group_loop rest groups0 = Ok groups →
  Forall (λ a, ∃ d, domain_of a = Ok d) rest.
Proof.
  revert groups0. induction rest as [|a rest IH]; intros groups0; [by constructor|].
  cbn [group_loop]. unfold domain_of.
  destruct (sender_domain (a_sender a)) as [d|e] eqn:Hd; [|done]. cbn [Py.bind].
  intros Hrest. constructor; [by exists d|]. by eapply IH.
Qed.

Lemma group_loop_Raise_inv rest groups0 e :
  group_loop rest groups0 = Raise e →
  ∃ a, a ∈ rest ∧ domain_of a = Raise e.
Proof.
  revert groups0. induction rest as [|a rest IH]; intros groups0; [done|].
  cbn [group_loop]. unfold domain_of.
  destruct (sender_domain (a_sender a)) as [d|e'] eqn:Hd; cbn [Py.bind].
  - intros (a' & Hin & Ha')%IH. exists a'. split; [by right|done].
  - intros [= <-]. exists a. split; [by left|done].
Qed.

(** [_prepare_data] returns a digest exactly when the domain of every
    deletable sender can be extracted.  Otherwise it raises IndexError, the
    only exception it can raise, and some deletable analysis has a sender on
    which the extraction raises; the analyses that are not deletable never
    make it fail. *)
Theorem digest_defined_iff_senders_well_formed today stamp analyses :
  ((∃ data, _prepare_data today stamp analyses = Ok data)
   ↔ well_formed_senders analyses)
  ∧ (∀ e, _prepare_data today stamp analyses = Raise e →
          e = Py.IndexError
          ∧ ∃ a, a ∈ analyses ∧ is_deletable a = true
                 ∧ domain_of a = Raise Py.IndexError).
Proof.
  split.
  - split.
    + intros [data Hdata]. unfold _prepare_data in Hdata.
      destruct (group_loop _ []) as [groups|e] eqn:Hloop; [|done].
      by apply group_loop_Ok_inv in Hloop.
    + intros Hwf. destruct (prepare_data_Ok today stamp analyses Hwf)
        as (data & _ & Hdata & _). by exists data.
  - intros e. unfold _prepare_data.
    destruct (group_loop _ []) as [groups|e'] eqn:Hloop; [done|]. cbn [Py.bind].
    intros [= <-]. apply group_loop_Raise_inv in Hloop as (a & Hin & Ha).
    pose proof (sender_domain_exn _ _ Ha) as ->. split; [done|].
    apply list_elem_of_In, List.filter_In in Hin as [Hin Hdel].
    exists a. by rewrite list_elem_of_In.
Qed.

Lemma digest_defined_iff_senders_well_formed_witness :
  ∃ a, a ∈ nine ++ [unbracketed_domain] ∧ is_deletable a = true
       ∧ domain_of a = Raise Py.IndexError.
Proof.
  apply (proj2 (digest_defined_iff_senders_well_formed "Monday" "09:00"
                  (nine ++ [unbracketed_domain])) Py.IndexError).
  reflexivity.
Defined.

Lemma length_filter_perm {A} (p : A → bool) l l' :
  l ≡ₚ l' → length (List.filter p l) = length (List.filter p l').
Proof.
  induction 1 as [|x l l' _ IH|x y l|l l' l'' _ IH1 _ IH2]; cbn.
  - done.
  - destruct (p x); cbn; lia.
  - destruct (p x), (p y); cbn; lia.
  - lia.
Qed.

Lemma length_filter_le {A} (p : A → bool) l : length (List.filter p l) ≤ length l.
Proof. induction l as [|x l IH]; [done|]. cbn. destruct (p x); cbn; lia. Qed.

Lemma length_filter_disjoint {A} (p q : A → bool) l :
  (∀ x, p x = true → q x = false) →
  length (List.filter p l) + length (List.filter q l) ≤ length l.
Proof.
  intros Hpq. induction l as [|x l IH]; [done|]. cbn.
  destruct (p x) eqn:Hp; [rewrite (Hpq x Hp)|destruct (q x)]; cbn; lia.
Qed.

Lemma length_filter_impl {A} (p q : A → bool) l :
  (∀ x, p x = true → q x = true) →
  length (List.filter p l) ≤ length (List.filter q l).
Proof.
  intros Hpq. induction l as [|x l IH]; [done|]. cbn.
  destruct (p x) eqn:Hp; [rewrite (Hpq x Hp)|destruct (q x)]; cbn; lia.
Qed.

Lemma members_total_group_append d e groups :
  sum_list (map (λ g, length (snd g)) (group_append d e groups))
  = S (sum_list (map (λ g, length (snd g)) groups)).
Proof.
  induction groups as [|[d' es] groups IH]; [done|]. cbn.
  destruct (String.eqb d' d); cbn.
  - rewrite length_app. cbn. lia.
  - rewrite IH. lia.
Qed.

Lemma members_total_group_loop rest groups0 groups :
  group_loop rest groups0 = Ok groups →
  sum_list (map (λ g, length (snd g)) groups)
  = sum_list (map (λ g, length (snd g)) groups0) + length rest.
Proof.
  revert groups0. induction rest as [|a rest IH]; intros groups0.
  - intros [= <-]. cbn. lia.
  - cbn [group_loop]. destruct (sender_domain _) as [d|]; [|done]. cbn [Py.bind].
    intros Hrest%IH. rewrite Hrest, members_total_group_append. cbn. lia.
Qed.

Lemma sum_list_filter_le {A} (f : A → nat) (p : A → bool) l :
  sum_list (map f (List.filter p l)) ≤ sum_list (map f l).
Proof. induction l as [|x l IH]; [done|]. cbn. destruct (p x); cbn; lia. Qed.

Lemma sum_list_take_le {A} (f : A → nat) n l :
  sum_list (map f (take n l)) ≤ sum_list (map f l).
Proof.
  revert n. induction l as [|x l IH]; intros [|n]; cbn; try lia.
  specialize (IH n). lia.
Qed.

Lemma sum_list_map_perm {A} (f : A → nat) l l' :
  l ≡ₚ l' → sum_list (map f l) = sum_list (map f l').
Proof. induction 1; cbn; lia. Qed.

(** The counts of a digest fit together: the urgent count is the number of
    urgent analyses, capped at five; every analysis that requires action is
    urgent, so the urgent count is five as soon as five analyses require
    action; no analysis is counted both as requiring action and as deletable;
    the groups listed hold together no more messages than the deletable
    count; and each group shows the first three of its messages, or all of
    them when it has fewer. *)
Theorem digest_counts_fit today stamp analyses data :
  _prepare_data today stamp analyses = Ok data →
  total_count data = length analyses
  ∧ urgent_count data = 5 `min` length (List.filter is_urgent analyses)
  ∧ action_count data ≤ length (List.filter is_urgent analyses)
  ∧ action_count data + delete_count data ≤ total_count data
  ∧ sum_list (map g_count (delete_groups data)) ≤ delete_count data
  ∧ Forall (λ g, length (g_samples g) = 3 `min` g_count g) (delete_groups data).
Proof.
  unfold _prepare_data.
  destruct (group_loop _ []) as [groups|] eqn:Hloop; [|done]. cbn [Py.bind].
  intros [= <-]. cbn. split; [done|]. split.
  { rewrite urgent_loop_spec by (cbn; lia). cbn.
    rewrite length_take.
    by rewrite (length_filter_perm _ _ analyses) by apply sorted_desc_perm. }
  split.
  { apply length_filter_impl. intros a Ha. unfold is_urgent. rewrite Ha.
    apply orb_true_r. }
  split.
  { apply length_filter_disjoint. intros a Ha%bool_decide_eq_true.
    unfold is_deletable. rewrite Ha. done. }
  apply members_total_group_loop in Hloop. cbn in Hloop. unfold top_groups. split.
  - rewrite <- Hloop, <- list_fmap_compose.
    etrans; [apply sum_list_filter_le|]. etrans; [apply sum_list_take_le|].
    by rewrite (sum_list_map_perm _ _ groups) by apply sorted_desc_perm.
  - apply Forall_forall. intros g (item & -> & _)%list_elem_of_fmap. cbn.
    by rewrite length_map, length_take.
Qed.

Lemma digest_counts_fit_witness :
  ∃ data,
    _prepare_data "Monday" "09:00" (twelve ++ nine) = Ok data
    ∧ urgent_count data = 5
    ∧ sum_list (map g_count (delete_groups data)) ≤ delete_count data.
Proof.
  destruct (_prepare_data "Monday" "09:00" (twelve ++ nine)) as [data|] eqn:Hdata;
    [|by vm_compute in Hdata].
  exists data. split; [done|].
  destruct (digest_counts_fit "Monday" "09:00" (twelve ++ nine) data Hdata)
    as (_ & Hu & _ & _ & Hsum & _).
  split; [|exact Hsum]. rewrite Hu. reflexivity.
Defined.

(* ===================================================================== *)
(** ** digest.py: what the digest shows of a message *)
(* ===================================================================== *)

Lemma length_prefix n s : String.length (Py.prefix n s) ≤ n.
Proof.
  revert s. induction n as [|n IH]; intros [|a s]; cbn; try lia.
  specialize (IH s). lia.
Qed.

Lemma contains_prefix c n s : Py.contains c s = false → Py.contains c (Py.prefix n s) = false.
Proof.
  revert s. induction n as [|n IH]; intros [|a s]; cbn; try done.
  intros [-> Hs]%orb_false_iff. by apply IH.
Qed.

Lemma contains_remove_char c s : Py.contains c (Py.remove_char c s) = false.
Proof.
  induction s as [|a s IH]; [done|]. cbn.
  destruct (Py.ascii_eqb a c) eqn:Ha; [done|]. cbn. by rewrite Ha.
Qed.

Lemma contains_remove_other c c' s :
  Py.contains c s = false → Py.contains c (Py.remove_char c' s) = false.
Proof.
  induction s as [|a s IH]; [done|]. cbn. intros [Ha Hs]%orb_false_iff.
  destruct (Py.ascii_eqb a c'); [by apply IH|]. cbn. by rewrite Ha, IH.
Qed.

Lemma contains_short_date n d : Py.contains "," (short_date n d) = false.
Proof.
  unfold short_date. destruct (Py.contains "," d) eqn:Hd; [|by apply contains_prefix].
  pose proof (split_pieces "," d) as Hall.
  destruct (Py.split "," d) as [|piece pieces]; [done|].
  by apply Forall_cons in Hall as [Hp _].
Qed.

(** What the digest shows of a message is cut to size: an urgent item shows
    at most 100 characters of the subject, the sender stripped and without
    angle brackets, and a date without comma; a sample of a delete group
    shows at most 50 characters of the subject and a date without comma.
    Both link to the message by its identifier. *)
Theorem digest_entries_are_trimmed a :
  (String.length (u_subject (urgent_item a)) ≤ 100
   ∧ Py.contains "<" (u_sender (urgent_item a)) = false
   ∧ Py.contains ">" (u_sender (urgent_item a)) = false
   ∧ Py.strip (u_sender (urgent_item a)) = u_sender (urgent_item a)
   ∧ Py.contains "," (u_date (urgent_item a)) = false
   ∧ u_gmail_link (urgent_item a) = gmail_link (a_message_id a))
  ∧ (String.length (s_subject (sample a)) ≤ 50
     ∧ Py.contains "," (s_date (sample a)) = false
     ∧ s_gmail_link (sample a) = gmail_link (a_message_id a)).
Proof.
  unfold urgent_item, sample.
  cbn [u_subject u_sender u_date u_gmail_link s_subject s_date s_gmail_link].
  split; [|split; [apply length_prefix|split; [apply contains_short_date|done]]].
  split; [apply length_prefix|]. split.
  { apply contains_rstrip, contains_lstrip, contains_remove_other, contains_remove_char. }
  split; [apply contains_rstrip, contains_lstrip, contains_remove_char|].
  split; [apply strip_idemp|]. split; [apply contains_short_date|done].
Qed.
